(** * LearnPulse: generation orchestration and spaced repetition

    A shallow embedding of the LearnPulse browser extension's core
    (SM-2 engine, content chunker, backend connectors' normalisation,
    fallback orchestrator and persistence step) together with the
    properties its specification states about it.

    JavaScript numbers are IEEE 754 binary64 values.  They are modelled
    with the standard library's [spec_float] at precision 53 and maximal
    exponent 1024, whose operations round to nearest, ties to even, as
    the language's do. *)

From Stdlib Require Import ZArith Bool Lia Ascii String.
From Stdlib Require Import Floats.SpecFloat.
From stdpp Require Import base option list strings pretty gmap sorting.

Local Open Scope Z_scope.

(** ** JavaScript numbers *)

Module Js.

Definition number : Type := spec_float.

Definition prec : Z := 53.
Definition emax : Z := 1024.

(** A [spec_float] is a binary64 value when its mantissa and exponent are
    in canonical form. *)
Definition is_double (x : number) : bool := valid_binary prec emax x.

Definition NaN : number := S754_nan.

Definition add : number -> number -> number := SFadd prec emax.
Definition sub : number -> number -> number := SFsub prec emax.
Definition mul : number -> number -> number := SFmul prec emax.
Definition div : number -> number -> number := SFdiv prec emax.

(** The number denoted by an integer literal. *)
Definition of_Z (z : Z) : number := binary_normalize prec emax z 0 false.

(** The number denoted by the decimal literal [n / 10^k]: the binary64
    value nearest to it, which is what a correctly rounded division
    of the two integers yields. *)
Definition decimal (n : Z) (k : nat) : number :=
  div (of_Z n) (of_Z (10 ^ Z.of_nat k)).

(** [x < y], [x <= y] and [x === y] on numbers; all three are false as
    soon as one side is NaN, and the two zeros are equal. *)
Definition lt (x y : number) : bool := SFltb x y.
Definition le (x y : number) : bool := SFleb x y.
Definition strict_eq (x y : number) : bool := SFeqb x y.

(** ToBoolean on a number: [0], [-0] and [NaN] are falsy. *)
Definition truthy (x : number) : bool :=
  match x with
  | S754_zero _ | S754_nan => false
  | _ => true
  end.

(** [Math.max] and [Math.min] of two numbers: NaN is contagious and
    [+0] is larger than [-0]. *)
Definition Math_max (x y : number) : number :=
  match x, y with
  | S754_nan, _ | _, S754_nan => S754_nan
  | _, _ =>
      match SFcompare x y with
      | Some Lt => y
      | Some Gt => x
      | Some Eq => match x with S754_zero true => y | _ => x end
      | None => S754_nan
      end
  end.

Definition Math_min (x y : number) : number :=
  match x, y with
  | S754_nan, _ | _, S754_nan => S754_nan
  | _, _ =>
      match SFcompare x y with
      | Some Lt => x
      | Some Gt => y
      | Some Eq => match x with S754_zero false => y | _ => x end
      | None => S754_nan
      end
  end.

(** [Math.round]: the nearest integer, a tie going to the larger one;
    the sign of a result that is zero is the sign of the argument. *)
Definition Math_round (x : number) : number :=
  match x with
  | S754_finite s m e =>
      if 0 <=? e then x
      else
        let v := if s then Z.neg m else Z.pos m in
        let n := (2 * v + 2 ^ (- e)) / 2 ^ (1 - e) in
        if n =? 0 then S754_zero s else of_Z n
  | _ => x
  end.

(** [a || b] where [a] is a number that may be absent. *)
Definition or_else (a : option number) (b : number) : number :=
  match a with
  | Some x => if truthy x then x else b
  | None => b
  end.

(** [a ?? b]. *)
Definition nullish (a : option number) (b : number) : number :=
  match a with
  | Some x => x
  | None => b
  end.

(** [mag_le K x]: [x] is a zero, or is finite with magnitude below
    [2^K].  Infinities and NaN have no such bound. *)
Definition mag_le (K : Z) (x : number) : Prop :=
  match x with
  | S754_zero _ => True
  | S754_finite _ m e => Z.pos (digits2_pos m) + e <= K
  | _ => False
  end.

Definition is_nan (x : number) : bool :=
  match x with
  | S754_nan => true
  | _ => false
  end.

End Js.

Import Js.


(** ** JavaScript strings

    A string is a sequence of code units; the model's characters are the
    code units below 256. *)

Module JsString.

(** The characters [\s] matches and [trim] removes. *)
Definition isWhitespace (c : ascii) : bool :=
  let n := N_of_ascii c in
  ((9 <=? n) && (n <=? 13) || (n =? 32) || (n =? 160))%N.

Definition space : ascii := " "%char.
Definition newline : ascii := ascii_of_N 10.
Definition nbsp : ascii := ascii_of_N 160.

Fixpoint trimStart (s : string) : string :=
  match s with
  | String c s' => if isWhitespace c then trimStart s' else s
  | EmptyString => EmptyString
  end.

Fixpoint trimEnd (s : string) : string :=
  match s with
  | String c s' =>
      match trimEnd s' with
      | EmptyString => if isWhitespace c then EmptyString else String c EmptyString
      | t => String c t
      end
  | EmptyString => EmptyString
  end.

Definition trim (s : string) : string := trimEnd (trimStart s).

(** [s.replace(/\s+/g, ' ')]: each maximal run of whitespace becomes one
    space; [inRun] tells that the previous character was whitespace. *)
Fixpoint collapseFrom (inRun : bool) (s : string) : string :=
  match s with
  | String c s' =>
      if isWhitespace c then
        if inRun then collapseFrom true s'
        else String space (collapseFrom true s')
      else String c (collapseFrom false s')
  | EmptyString => EmptyString
  end.

Definition collapseWhitespace (s : string) : string := collapseFrom false s.

(** [s.replace(/c/g, d)] for single characters. *)
Fixpoint replaceChar (c d : ascii) (s : string) : string :=
  match s with
  | String x s' => String (if Ascii.eqb x c then d else x) (replaceChar c d s')
  | EmptyString => EmptyString
  end.

(** [s.replace(/[...]/g, '')] for a class of characters. *)
Fixpoint removeChars (cls : ascii -> bool) (s : string) : string :=
  match s with
  | String x s' => if cls x then removeChars cls s' else String x (removeChars cls s')
  | EmptyString => EmptyString
  end.

(** [s.split(c)]: never empty, [s] itself when [c] does not occur. *)
Fixpoint split (c : ascii) (s : string) : list string :=
  match s with
  | String x s' =>
      if Ascii.eqb x c then EmptyString :: split c s'
      else match split c s' with
           | first :: rest => String x first :: rest
           | [] => [String x EmptyString]
           end
  | EmptyString => [EmptyString]
  end.

(** [parts.join(sep)] *)
Definition join (sep : string) (parts : list string) : string :=
  String.concat sep parts.

Definition toLower (c : ascii) : ascii :=
  let n := N_of_ascii c in
  if ((65 <=? n) && (n <=? 90))%N then ascii_of_N (n + 32) else c.

(** [s] without its prefix [p]; letters compare without case when [ci]
    is set. *)
Fixpoint stripPrefix (ci : bool) (p s : string) : option string :=
  match p, s with
  | EmptyString, _ => Some s
  | String a p', String b s' =>
      if (if ci then Ascii.eqb (toLower a) (toLower b) else Ascii.eqb a b)
      then stripPrefix ci p' s' else None
  | String _ _, EmptyString => None
  end.

(** What follows the first occurrence of [p] in [s]. *)
Fixpoint findAfter (ci : bool) (p s : string) : option string :=
  match stripPrefix ci p s with
  | Some rest => Some rest
  | None =>
      match s with
      | String _ s' => findAfter ci p s'
      | EmptyString => None
      end
  end.

(** [s] without its suffix [p]. *)
Definition stripSuffix (p s : string) : option string :=
  let n := String.length s in
  let k := String.length p in
  if (k <=? n)%nat && String.eqb (substring (n - k) k s) p
  then Some (substring 0 (n - k) s) else None.

(** [a || b] on strings that may be absent: the empty string is falsy. *)
Definition or_else (a : option string) (b : string) : string :=
  match a with
  | Some EmptyString | None => b
  | Some s => s
  end.

(** [a || b] where [b] may itself be absent. *)
Definition or_opt (a b : option string) : option string :=
  match a with
  | Some EmptyString | None => b
  | Some s => Some s
  end.

End JsString.

(** ** The host environment *)

(** A thrown [Error]. *)
Module Error.

Record t : Type := make { name : string; message : string }.

(** [new Error(message)] *)
Definition new (message : string) : t :=
  {| name := "Error"; message := message |}.

(** [String(error)] *)
Definition toString (e : t) : string :=
  match name e, message e with
  | "", m => m
  | n, "" => n
  | n, m => n +:+ ": " +:+ m
  end.

(** [error?.message || String(error)] *)
Definition text (e : t) : string :=
  match message e with
  | "" => toString e
  | m => m
  end.

End Error.

(** What a call that may throw produces. *)
Inductive Outcome (A : Type) : Type :=
  | Returned (a : A)
  | Threw (e : Error.t).
Arguments Returned {A} a.
Arguments Threw {A} e.

(** What [toISOString] throws on a date that is not valid. *)
Definition rangeError : Error.t :=
  {| Error.name := "RangeError"; Error.message := "Invalid time value" |}.

(** The host's [Date] object.  [new Date()] is read by the caller and
    passed in; it is a valid date.  The operations on a date are the
    host's.  A date that [setDate] takes out of the range of dates is
    not valid; [toISOString] throws a [RangeError] on it, which the
    callers that can meet one check with [Date_isValid]. *)
Class HostDate := {
  Date : Type;
  (** [new Date(s)] *)
  Date_parse : string -> Date;
  (** [d.setDate(d.getDate() + n)] *)
  Date_addDays : Date -> number -> Date;
  (** [d.toISOString()], of a valid date *)
  Date_toISOString : Date -> string;
  (** [d.toLocaleDateString()] *)
  Date_toLocaleDateString : Date -> string;
  (** [d1 <= d2] *)
  Date_le : Date -> Date -> bool;
  (** the time value of [d] is a number *)
  Date_isValid : Date -> bool
}.

(** *** A host whose local time is UTC

    Dates are milliseconds since the epoch; the calendar is the
    proleptic Gregorian one.  It instantiates [HostDate] where a
    concrete host is needed. *)
Module Utc.

Definition msPerDay : Z := 86400000.

Definition daysFromCivil (y m d : Z) : Z :=
  let y' := if m <=? 2 then y - 1 else y in
  let era := y' / 400 in
  let yoe := y' - era * 400 in
  let doy := (153 * (if 2 <? m then m - 3 else m + 9) + 2) / 5 + d - 1 in
  let doe := yoe * 365 + yoe / 4 - yoe / 100 + doy in
  era * 146097 + doe - 719468.

Definition civilFromDays (z : Z) : Z * Z * Z :=
  let z' := z + 719468 in
  let era := z' / 146097 in
  let doe := z' - era * 146097 in
  let yoe := (doe - doe / 1460 + doe / 36524 - doe / 146096) / 365 in
  let doy := doe - (365 * yoe + yoe / 4 - yoe / 100) in
  let mp := (5 * doy + 2) / 153 in
  let d := doy - (153 * mp + 2) / 5 + 1 in
  let m := if mp <? 10 then mp + 3 else mp - 9 in
  let y := yoe + era * 400 in
  (if m <=? 2 then y + 1 else y, m, d).

(** A number truncated to an integer; [0] stands for a number that has
    none. *)
Definition trunc (x : number) : Z :=
  match x with
  | S754_finite s m e =>
      let v := if 0 <=? e then Z.pos m * 2 ^ e else Z.pos m / 2 ^ (- e) in
      if s then - v else v
  | _ => 0
  end.

Definition digitValue (c : ascii) : Z :=
  Z.of_N (N_of_ascii c) - 48.

Definition digitsValue (s : string) : Z :=
  fold_left (fun acc c => 10 * acc + digitValue c) (list_ascii_of_string s) 0.

Definition pad (width : nat) (n : Z) : string :=
  let s := pretty n in
  String.concat "" (replicate (width - String.length s) "0") +:+ s.

(** The largest time value of a date, 100,000,000 days from the epoch. *)
Definition maxTime : Z := 8640000000000000.

(** A time value that stands for the one of a date that is not valid. *)
Definition invalid : Z := maxTime + 1.

Definition isValid (t : Z) : bool := (- maxTime <=? t) && (t <=? maxTime).

(** [new Date("YYYY-MM-DD")], midnight UTC of that day, and
    [new Date("YYYY-MM-DDTHH:mm:ss.sssZ")]. *)
Definition parse (s : string) : Z :=
  let day :=
    daysFromCivil (digitsValue (substring 0 4 s))
                  (digitsValue (substring 5 2 s))
                  (digitsValue (substring 8 2 s)) in
  let time :=
    match String.get 10 s with
    | Some "T"%char =>
        digitsValue (substring 11 2 s) * 3600000
        + digitsValue (substring 14 2 s) * 60000
        + digitsValue (substring 17 2 s) * 1000
        + digitsValue (substring 20 3 s)
    | _ => 0
    end in
  day * msPerDay + time.

(** [setDate] with a day number that is not finite leaves a date that
    is not valid. *)
Definition addDays (t : Z) (n : number) : Z :=
  let '(_, _, d) := civilFromDays (t / msPerDay) in
  match add (of_Z d) n with
  | S754_infinity _ | S754_nan => invalid
  | day => t + (trunc day - d) * msPerDay
  end.

(** The year of [toISOString]: four digits, or a sign and six digits
    outside 0 to 9999. *)
Definition isoYear (y : Z) : string :=
  if (0 <=? y) && (y <=? 9999) then pad 4 y
  else (if y <? 0 then "-" else "+") +:+ pad 6 (Z.abs y).

Definition toISOString (t : Z) : string :=
  let '(y, m, d) := civilFromDays (t / msPerDay) in
  let r := t mod msPerDay in
  isoYear y +:+ "-" +:+ pad 2 m +:+ "-" +:+ pad 2 d +:+ "T"
  +:+ pad 2 (r / 3600000) +:+ ":" +:+ pad 2 (r / 60000 mod 60) +:+ ":"
  +:+ pad 2 (r / 1000 mod 60) +:+ "." +:+ pad 3 (r mod 1000) +:+ "Z".

Definition toLocaleDateString (t : Z) : string :=
  let '(y, m, d) := civilFromDays (t / msPerDay) in
  pretty m +:+ "/" +:+ pretty d +:+ "/" +:+ pretty y.

Definition host : HostDate :=
  {| Date := Z;
     Date_parse := parse;
     Date_addDays := addDays;
     Date_toISOString := toISOString;
     Date_toLocaleDateString := toLocaleDateString;
     Date_le := Z.leb;
     Date_isValid := isValid |}.

End Utc.

(** *** A host in the time zone America/New_York

    The offsets are those of 2024: four hours behind UTC from
    2024-03-10T07:00Z until 2024-11-03T06:00Z, five hours behind
    before and after.  [getDate] and [setDate] read and set the local
    day; [new Date(s)] of the forms above and [toISOString] are in
    UTC. *)
Module Eastern.

Definition dstStart : Z := 1710054000000.
Definition dstEnd : Z := 1730613600000.

(** Local time minus UTC, at the instant [t]. *)
Definition offsetAt (t : Z) : Z :=
  if (dstStart <=? t) && (t <? dstEnd) then - 4 * 3600000 else - 5 * 3600000.

Definition toLocal (t : Z) : Z := t + offsetAt t.

(** The instant at which the local clock shows [l]. *)
Definition toUtc (l : Z) : Z := l - offsetAt (l - offsetAt l).

Definition addDays (t : Z) (n : number) : Z :=
  let l := toLocal t in
  let '(_, _, d) := Utc.civilFromDays (l / Utc.msPerDay) in
  match add (of_Z d) n with
  | S754_infinity _ | S754_nan => Utc.invalid
  | day => toUtc (l + (Utc.trunc day - d) * Utc.msPerDay)
  end.

Definition toLocaleDateString (t : Z) : string :=
  Utc.toLocaleDateString (toLocal t).

Definition host : HostDate :=
  {| Date := Z;
     Date_parse := Utc.parse;
     Date_addDays := addDays;
     Date_toISOString := Utc.toISOString;
     Date_toLocaleDateString := toLocaleDateString;
     Date_le := Z.leb;
     Date_isValid := Utc.isValid |}.

End Eastern.

(** ** Flashcards (srs-engine.js) *)

Module Flashcard.

(** A stored flashcard.  A field that an object may lack is an [option];
    [None] is [undefined]. *)
Record t : Type := make {
  id : string;
  question : string;
  answer : string;
  sourceLessonId : option string;
  interval : option number;
  easeFactor : option number;
  repetitions : option number;
  dueDate : option string;
  lastReviewedAt : option string;
  lastGrade : option number
}.

End Flashcard.

Section Sm2.

Context `{HostDate}.

(** [Math.max(0, Math.min(5, Number(grade)))] *)
Definition clampGrade (grade : number) : number :=
  Math_max (of_Z 0) (Math_min (of_Z 5) grade).

(** The state the formula runs on, after the three
    [if (!updated.f) updated.f = default] statements. *)
Definition priorEaseFactor (card : Flashcard.t) : number :=
  or_else (Flashcard.easeFactor card) (decimal 25 1).
Definition priorInterval (card : Flashcard.t) : number :=
  or_else (Flashcard.interval card) (of_Z 1).
Definition priorRepetitions (card : Flashcard.t) : number :=
  or_else (Flashcard.repetitions card) (of_Z 0).

Definition applySm2Review (now : Date) (card : Flashcard.t) (grade : number)
  : Flashcard.t :=
  let clampedGrade := Math_max (of_Z 0) (Math_min (of_Z 5) grade) in
  let easeFactor0 := or_else (Flashcard.easeFactor card) (decimal 25 1) in
  let interval0 := or_else (Flashcard.interval card) (of_Z 1) in
  let repetitions0 := or_else (Flashcard.repetitions card) (of_Z 0) in
  let '(repetitions1, interval1, easeFactor1) :=
    if lt clampedGrade (of_Z 3) then
      (of_Z 0, of_Z 1, easeFactor0)
    else
      let interval' :=
        if strict_eq repetitions0 (of_Z 0) then of_Z 1
        else if strict_eq repetitions0 (of_Z 1) then of_Z 6
        else Math_round (mul interval0 easeFactor0) in
      (add repetitions0 (of_Z 1),
       interval',
       Math_max (decimal 13 1)
         (add easeFactor0
            (sub (decimal 1 1)
               (mul (sub (of_Z 5) clampedGrade)
                  (add (decimal 8 2)
                     (mul (sub (of_Z 5) clampedGrade) (decimal 2 2)))))))
  in
  {| Flashcard.id := Flashcard.id card;
     Flashcard.question := Flashcard.question card;
     Flashcard.answer := Flashcard.answer card;
     Flashcard.sourceLessonId := Flashcard.sourceLessonId card;
     Flashcard.interval := Some interval1;
     Flashcard.easeFactor := Some easeFactor1;
     Flashcard.repetitions := Some repetitions1;
     Flashcard.dueDate := Some (Date_toISOString (Date_addDays now interval1));
     Flashcard.lastReviewedAt := Some (Date_toISOString now);
     Flashcard.lastGrade := Some clampedGrade |}.

(** The call [applySm2Review(card, grade)].  [applySm2Review] above is
    the card the function builds.  The function reads
    [due.toISOString()] on the way, which throws a [RangeError] when
    adding the interval has taken [due] out of the range of dates; the
    call then returns nothing. *)
Definition applySm2Review_call (now : Date) (card : Flashcard.t) (grade : number)
  : Outcome Flashcard.t :=
  let updated := applySm2Review now card grade in
  match Flashcard.interval updated with
  | Some interval =>
      if Date_isValid (Date_addDays now interval) then Returned updated
      else Threw rangeError
  | None => Returned updated
  end.

(** The data model's bound on the ease factor, for a card that has one. *)
Definition easeFactorValid (card : Flashcard.t) : Prop :=
  match Flashcard.easeFactor card with
  | Some e => le (decimal 13 1) e = true
  | None => True
  end.

End Sm2.

(** ** Content chunker (content-chunker.js) *)

(** What the chunker asks of the browser.  [World] is the state of
    everything outside the program; a call that can observe or change
    it takes a world and returns the next one. *)
Class HostWeb (World : Type) := {
  (** [fetch(url)] followed by [response.text()]: the status flag
      [response.ok], [response.status] and the body, or a rejection. *)
  fetch : string -> World -> Outcome (bool * Z * string) * World;
  (** [atob(s)], which throws on input that is not base64. *)
  atob : string -> Outcome string;
  (** [new TextDecoder('utf-8').decode(buffer)] *)
  TextDecoder_decode : list ascii -> string
}.

Module Source.

(** The stored representation of an uploaded file. *)
Inductive Content : Type :=
  | ContentString (s : string)
  | ContentBuffer (bytes : list ascii).

(** A curated source as the options page stores it. *)
Record t : Type := make {
  id : option string;
  type : option string;
  url : option string;
  label : option string;
  title : option string;
  value : option string;
  text : option string;
  content : option Content
}.

End Source.

Module Chunk.

Record t : Type := make {
  id : string;
  text : string;
  sourceTitle : string;
  reference : string;
  url : option string
}.

End Chunk.

Definition DEFAULT_CHUNK_SIZE : nat := 900.

(** The loop of [splitIntoChunks].  Each iteration takes one unit of
    [fuel]; [None] is a loop that has not ended when the fuel has. *)
Fixpoint splitIntoChunks_loop (fuel : nat) (text : string) (chunkSize : nat)
    (cursor : nat) (chunks : list string) : option (list string) :=
  if (cursor <? String.length text)%nat then
    match fuel with
    | O => None
    | S fuel' =>
        splitIntoChunks_loop fuel' text chunkSize (cursor + chunkSize)
          (chunks ++ [substring cursor chunkSize text])
    end
  else Some chunks.

(** The loop runs at most once per character when the window is not
    empty, and forever when it is and the text is not. *)
Definition splitIntoChunks (text : string) (chunkSize : nat)
  : option (list string) :=
  splitIntoChunks_loop (String.length text) text chunkSize 0 [].

(** The specification's account of the split: the text is cut into
    consecutive windows of [chunkSize] characters, as many as it takes
    to cover it. *)
Fixpoint windowsFrom (count : nat) (text : string) (chunkSize cursor : nat)
  : list string :=
  match count with
  | O => []
  | S count' =>
      substring cursor chunkSize text
      :: windowsFrom count' text chunkSize (cursor + chunkSize)
  end.

Definition windowCount (len chunkSize : nat) : nat :=
  ((len + chunkSize - 1) / chunkSize)%nat.

Definition windows (text : string) (chunkSize : nat) : list string :=
  windowsFrom (windowCount (String.length text) chunkSize) text chunkSize 0.

Definition sanitiseText (text : string) : string :=
  JsString.trim
    (JsString.replaceChar JsString.nbsp JsString.space
       (JsString.collapseWhitespace text)).

(** [[^>]*>] at the start of [s]: what follows the first [>]. *)
Fixpoint skipToGt (s : string) : option string :=
  match s with
  | String c s' => if Ascii.eqb c ">" then Some s' else skipToGt s'
  | EmptyString => None
  end.

(** [s.replace(/<tag[^>]*>[\s\S]*?<\/tag>/gi, '')], with [opening]
    standing for [<tag] and [closing] for [</tag>]. *)
Fixpoint removeBlocks_loop (fuel : nat) (opening closing : string) (s : string)
  : string :=
  match fuel, s with
  | S fuel', String c s' =>
      match (JsString.stripPrefix true opening s ≫= skipToGt)
              ≫= JsString.findAfter true closing with
      | Some rest => removeBlocks_loop fuel' opening closing rest
      | None => String c (removeBlocks_loop fuel' opening closing s')
      end
  | _, _ => s
  end.

Definition removeBlocks (opening closing : string) (s : string) : string :=
  removeBlocks_loop (String.length s) opening closing s.

(** [[^>]+>] at the start of [s]: what follows the first [>], which at
    least one character precedes. *)
Definition skipTag (s : string) : option string :=
  match s with
  | String c s' => if Ascii.eqb c ">" then None else skipToGt s'
  | EmptyString => None
  end.

(** [s.replace(/<[^>]+>/g, ' ')] *)
Fixpoint replaceTags_loop (fuel : nat) (s : string) : string :=
  match fuel, s with
  | S fuel', String c s' =>
      match (if Ascii.eqb c "<" then skipTag s' else None) with
      | Some rest => String JsString.space (replaceTags_loop fuel' rest)
      | None => String c (replaceTags_loop fuel' s')
      end
  | _, _ => s
  end.

Definition stripHtml (html : string) : string :=
  let withoutScripts :=
    removeBlocks "<style" "</style>" (removeBlocks "<script" "</script>" html) in
  replaceTags_loop (String.length withoutScripts) withoutScripts.

Section Chunker.

Context {World : Type} `{HostWeb World}.

Definition resolveSourceText (source : Source.t) (w : World) : string * World :=
  match Source.type source with
  | Some "text" =>
      (JsString.or_else (Source.value source)
         (JsString.or_else (Source.text source) ""), w)
  | Some "url" =>
      match JsString.or_opt (Source.url source) None with
      | Some url =>
          match fetch url w with
          | (Returned (true, _, html), w') => (stripHtml html, w')
          | (Returned (false, _, _), w') => ("", w')
          | (Threw _, w') => ("", w')
          end
      | None => ("", w)
      end
  | Some "file" =>
      match Source.content source with
      | Some (Source.ContentString "") => ("", w)
      | Some (Source.ContentString content) =>
          match atob content with
          | Returned decoded => (decoded, w)
          | Threw _ => (content, w)
          end
      | Some (Source.ContentBuffer bytes) => (TextDecoder_decode bytes, w)
      | None => ("", w)
      end
  | _ => ("", w)
  end.

(** The chunks of one source whose sanitised text was split into [parts]. *)
Definition chunkSet (source : Source.t) (parts : list string) : list Chunk.t :=
  imap (fun index chunk =>
          {| Chunk.id :=
               JsString.or_else (Source.id source)
                 (JsString.or_else (Source.url source)
                    (JsString.or_else (Source.label source) "source"))
               +:+ "-" +:+ pretty index;
             Chunk.text := chunk;
             Chunk.sourceTitle :=
               JsString.or_else (Source.label source)
                 (JsString.or_else (Source.title source)
                    (JsString.or_else (Source.url source)
                       "User Provided Material"));
             Chunk.reference :=
               JsString.or_else (Source.url source)
                 (JsString.or_else (Source.label source) "Uploaded text");
             Chunk.url := JsString.or_opt (Source.url source) None |})
       parts.

(** [None] is a run that does not end. *)
Fixpoint chunkSources (sources : list Source.t) (w : World)
  : option (list Chunk.t) * World :=
  match sources with
  | [] => (Some [], w)
  | source :: rest =>
      match resolveSourceText source w with
      | ("", w1) => chunkSources rest w1
      | (text, w1) =>
          match splitIntoChunks (sanitiseText text) DEFAULT_CHUNK_SIZE with
          | Some parts =>
              let '(chunks, w2) := chunkSources rest w1 in
              ((fun tail => chunkSet source parts ++ tail) <$> chunks, w2)
          | None => (None, w1)
          end
      end
  end.

(** The chunks of a source whose text resolved to [text]. *)
Definition sourceChunks (source : Source.t) (text : string) : list Chunk.t :=
  match text with
  | "" => []
  | _ => chunkSet source (windows (sanitiseText text) DEFAULT_CHUNK_SIZE)
  end.

(** The specification's account of a chunking pass: the chunks of the
    sources one after the other, in the order of the sources. *)
Fixpoint chunksInOrder (sources : list Source.t) (w : World)
  : list Chunk.t * World :=
  match sources with
  | [] => ([], w)
  | source :: rest =>
      let '(text, w1) := resolveSourceText source w in
      let '(tail, w2) := chunksInOrder rest w1 in
      (sourceChunks source text ++ tail, w2)
  end.

End Chunker.

(** ** Lessons, settings and the generation context *)

(** An entry of a lesson's [sources]: a [{title, reference}] pair, or a
    curated chunk stored as it is. *)
Inductive SourceEntry : Type :=
  | SourceRef (title reference : string)
  | SourceChunk (chunk : Chunk.t).

(** A flashcard as a backend returns it; the scheduling fields are
    there only if the backend sent them. *)
Module ResultCard.

Record t : Type := make {
  question : string;
  answer : string;
  interval : option number;
  easeFactor : option number;
  repetitions : option number
}.

(** An entry of a [flashcards] array: [None] is [null]. *)
Definition entry : Type := option t.

End ResultCard.

(** The canonical result every backend and the offline fallback
    produce. *)
Module LessonResult.

Record t : Type := make {
  title : string;
  summary : list string;
  lesson : string;
  flashcards : list ResultCard.entry;
  sources : list SourceEntry;
  exercise : string
}.

End LessonResult.

Module Lesson.

Record t : Type := make {
  id : string;
  date : string;
  title : string;
  summary : list string;
  body : string;
  sources : list SourceEntry;
  exercise : string;
  generatedAt : string;
  mode : string
}.

End Lesson.

Module Settings.

Record t : Type := make {
  mode : string;
  topic : option string;
  curatedSources : option (list Source.t);
  (** [None] when the stored value is not an array *)
  backendPreference : option (list string);
  lessonLength : number;
  flashcardCount : number;
  ollamaModel : option string;
  promptApiModel : option string;
  (** [None] when the stored value is not of type number *)
  promptApiTemperature : option number;
  notificationsEnabled : bool
}.

End Settings.

Module Context.

Record t : Type := make {
  settings : Settings.t;
  recentLessons : list Lesson.t;
  dueFlashcards : list Flashcard.t;
  curatedChunks : list Chunk.t
}.

End Context.

(** ** Backend connectors (llm-gemini.js, llm-ollama.js, llm-nano.js) *)

(** The object [JSON.parse] returns, read field by field as the
    connectors do. *)
Module Payload.

(** [parsed.summary]: an array, a string, or neither. *)
Inductive Summary : Type :=
  | SummaryArray (bullets : list string)
  | SummaryString (s : string)
  | SummaryAbsent.

Record t : Type := make {
  title : option string;
  summary : Summary;
  lesson : option string;
  (** [None] when [parsed.flashcards] is not an array *)
  flashcards : option (list ResultCard.entry);
  (** [None] when [parsed.sources] is not an array *)
  sources : option (list SourceEntry);
  exercise : option string
}.

End Payload.

(** The value of a JSON text: [null], whose fields cannot be read, or a
    value whose fields can. *)
Inductive Parsed : Type :=
  | ParsedNull
  | ParsedObject (payload : Payload.t).

(** The reply to a connector's POST request. *)
Inductive Reply : Type :=
  (** [response.ok] is false *)
  | ReplyError (status : Z) (body : string)
  (** the text field of the JSON body, if it has one *)
  | ReplyData (text : option string).

(** The on-device model [self.ai.languageModel], as far as the
    availability check looks at it. *)
Record LanguageModel : Type := {
  hasCapabilities : bool;
  hasCreate : bool
}.

(** What the connectors and the orchestrator ask of the browser. *)
Class HostBackends (World : Type) := {
  (** [JSON.parse(text)], which throws a [SyntaxError] on a text that
      is not JSON *)
  JSON_parse : string -> Outcome Parsed;
  (** [chrome.storage.sync.get('learnpulse_gemini_api_key')] and the
      field read from its result *)
  storageSync_geminiApiKey : World -> Outcome (option string) * World;
  (** the POST to Gemini's [generateContent] with its [response.json()] *)
  gemini_generateContent :
    string -> string -> number -> Context.t -> World -> Outcome Reply * World;
  (** the POST to Ollama's [/api/generate] with its [response.json()] *)
  ollama_generate : string -> Context.t -> World -> Outcome Reply * World;
  (** [self.ai && self.ai.languageModel] *)
  ai_languageModel : World -> option LanguageModel;
  (** [self.ai.languageModel.capabilities()] and its [available] field *)
  ai_capabilities : World -> Outcome (option string) * World;
  (** [self.ai.languageModel.create(...)] followed by [session.prompt] *)
  ai_prompt : string -> number -> Context.t -> World -> Outcome string * World
}.

(** [text.trim().replace(/^```json\n?|```$/g, '')] *)
Definition stripCodeFence (text : string) : string :=
  let trimmed := JsString.trim text in
  let body :=
    match JsString.stripPrefix false "```json" trimmed with
    | Some rest =>
        match rest with
        | String c rest' => if Ascii.eqb c JsString.newline then rest' else rest
        | EmptyString => rest
        end
    | None => trimmed
    end in
  match JsString.stripSuffix "```" body with
  | Some inner => inner
  | None => body
  end.

Definition generateFallbackTitle (settings : Settings.t) : string :=
  if String.eqb (Settings.mode settings) "curated" then "Curated Knowledge Review"
  else "Learning Snapshot: "
       +:+ JsString.or_else (Settings.topic settings) "General Curiosity".

(** [generateFallbackFlashcards], given [context?.settings?.topic]. *)
Definition generateFallbackFlashcards (topic : option string)
  : list ResultCard.entry :=
  let topic := JsString.or_else topic "Learning Science" in
  [ Some {| ResultCard.question :=
              "What is one actionable insight about " +:+ topic +:+ "?";
            ResultCard.answer :=
              "Summarise one takeaway about " +:+ topic
              +:+ " from today's reading.";
            ResultCard.interval := None;
            ResultCard.easeFactor := None;
            ResultCard.repetitions := None |} ].

Definition isHeadingMark (c : ascii) : bool :=
  Ascii.eqb c "#" || Ascii.eqb c "*" || Ascii.eqb c "-".

Definition nonEmpty (s : string) : bool :=
  match s with
  | EmptyString => false
  | _ => true
  end.

Definition fallbackParser (text : string) : Payload.t :=
  match JsString.split JsString.newline text with
  | firstLine :: rest =>
      {| Payload.title :=
           Some (JsString.or_else
                   (Some (JsString.trim
                            (JsString.removeChars isHeadingMark firstLine)))
                   "LearnPulse Daily Lesson");
         Payload.summary :=
           Payload.SummaryArray
             (filter (fun s => nonEmpty s = true) (JsString.trim <$> take 3 rest));
         Payload.lesson := Some ("<p>" +:+ JsString.join " " rest +:+ "</p>");
         Payload.flashcards := Some (generateFallbackFlashcards None);
         Payload.sources := Some [];
         Payload.exercise := None |}
  | [] =>
      {| Payload.title := Some "LearnPulse Daily Lesson";
         Payload.summary := Payload.SummaryArray [];
         Payload.lesson := Some "<p></p>";
         Payload.flashcards := Some (generateFallbackFlashcards None);
         Payload.sources := Some [];
         Payload.exercise := None |}
  end.

(** [Array.isArray(s) ? s : [s].filter(Boolean)] *)
Definition summaryBullets (s : Payload.Summary) : list string :=
  match s with
  | Payload.SummaryArray bullets => bullets
  | Payload.SummaryString EmptyString => []
  | Payload.SummaryString s => [s]
  | Payload.SummaryAbsent => []
  end.

(** [`${s || 'Lesson content unavailable.'}`]: an array is truthy and
    prints as its elements joined by commas. *)
Definition summaryText (s : Payload.Summary) : string :=
  match s with
  | Payload.SummaryArray bullets => JsString.join "," bullets
  | Payload.SummaryString EmptyString => "Lesson content unavailable."
  | Payload.SummaryString s => s
  | Payload.SummaryAbsent => "Lesson content unavailable."
  end.

(** The part of [normaliseModelOutput] that follows the parsing. *)
Definition canonicalise (parsed : Payload.t) (context : Context.t)
  : LessonResult.t :=
  let summary := summaryBullets (Payload.summary parsed) in
  let flashcards := default [] (Payload.flashcards parsed) in
  let sources := default [] (Payload.sources parsed) in
  let sources :=
    if String.eqb (Settings.mode (Context.settings context)) "curated"
       && negb (Nat.eqb (length (Context.curatedChunks context)) 0)
    then
      let curatedReferences :=
        (fun chunk =>
           SourceRef (Chunk.sourceTitle chunk)
             (JsString.or_else (Some (Chunk.reference chunk))
                (JsString.or_else (Chunk.url chunk) "User provided source")))
        <$> take 3 (Context.curatedChunks context) in
      match sources with
      | [] => curatedReferences
      | _ => sources
      end
    else sources in
  {| LessonResult.title :=
       JsString.or_else (Payload.title parsed)
         (generateFallbackTitle (Context.settings context));
     LessonResult.summary :=
       match summary with
       | [] => ["Daily concept update from LearnPulse."]
       | _ => summary
       end;
     LessonResult.lesson :=
       JsString.or_else (Payload.lesson parsed)
         ("<p>" +:+ summaryText (Payload.summary parsed) +:+ "</p>");
     LessonResult.flashcards :=
       match flashcards with
       | [] => generateFallbackFlashcards
                 (Settings.topic (Context.settings context))
       | _ => flashcards
       end;
     LessonResult.sources := sources;
     LessonResult.exercise :=
       JsString.or_else (Payload.exercise parsed)
         "Reflect on today's concept and write down one question you still have."
  |}.

Definition nullPropertyError (field : string) : Error.t :=
  {| Error.name := "TypeError";
     Error.message :=
       "Cannot read properties of null (reading '" +:+ field +:+ "')" |}.

Section Connectors.

Context {World : Type} `{HostBackends World}.

(** Gemini's [normaliseModelOutput]: a text that does not parse goes to
    the heuristic parser. *)
Definition normaliseModelOutput (rawText : string) (context : Context.t)
  : Outcome LessonResult.t :=
  let cleaned := stripCodeFence rawText in
  match JSON_parse cleaned with
  | Threw _ => Returned (canonicalise (fallbackParser cleaned) context)
  | Returned (ParsedObject parsed) => Returned (canonicalise parsed context)
  | Returned ParsedNull => Threw (nullPropertyError "summary")
  end.

(** Ollama's [normaliseOutput]: a text that does not parse is an error. *)
Definition normaliseOutput (text : string) (context : Context.t)
  : Outcome LessonResult.t :=
  let cleaned := stripCodeFence text in
  match JSON_parse cleaned with
  | Threw error =>
      Threw (Error.new ("Ollama response was not valid JSON: "
                        +:+ Error.message error))
  | Returned ParsedNull => Threw (nullPropertyError "title")
  | Returned (ParsedObject parsed) =>
      Returned
        {| LessonResult.title :=
             JsString.or_else (Payload.title parsed) "LearnPulse Lesson";
           LessonResult.summary := summaryBullets (Payload.summary parsed);
           LessonResult.lesson :=
             JsString.or_else (Payload.lesson parsed)
               "<p>No lesson content produced.</p>";
           LessonResult.flashcards := default [] (Payload.flashcards parsed);
           LessonResult.sources :=
             match Payload.sources parsed with
             | Some sources => sources
             | None => SourceChunk <$> take 3 (Context.curatedChunks context)
             end;
           LessonResult.exercise :=
             JsString.or_else (Payload.exercise parsed)
               "Reflect on what you learned today." |}
  end.

Definition generateViaPromptApi (model : option string) (context : Context.t)
    (temperature : number) (w : World) : Outcome LessonResult.t * World :=
  match ai_languageModel w with
  | None =>
      (Threw (Error.new "Chrome Prompt API is unavailable in this environment."), w)
  | Some _ =>
      match ai_prompt (JsString.or_else model "gemini-pro") temperature context w with
      | (Returned text, w') => (normaliseModelOutput text context, w')
      | (Threw error, w') => (Threw error, w')
      end
  end.

Definition generateLessonWithGemini (apiKey : option string) (model : string)
    (context : Context.t) (usePromptApi : bool) (temperature : number)
    (w : World) : Outcome LessonResult.t * World :=
  if usePromptApi then generateViaPromptApi (Some model) context temperature w
  else
    match JsString.or_opt apiKey None with
    | None =>
        (Threw (Error.new "Gemini API key is required for cloud inference."), w)
    | Some apiKey =>
        match gemini_generateContent apiKey model temperature context w with
        | (Threw error, w') => (Threw error, w')
        | (Returned (ReplyError status errorBody), w') =>
            (Threw (Error.new ("Gemini API responded with " +:+ pretty status
                               +:+ ": " +:+ errorBody)), w')
        | (Returned (ReplyData text), w') =>
            match JsString.or_opt text None with
            | None => (Threw (Error.new "Gemini API returned no content."), w')
            | Some text => (normaliseModelOutput text context, w')
            end
        end
    end.

Definition generateLessonWithOllama (model : string) (context : Context.t)
    (w : World) : Outcome LessonResult.t * World :=
  match ollama_generate model context w with
  | (Threw error, w') => (Threw error, w')
  | (Returned (ReplyError status body), w') =>
      (Threw (Error.new ("Ollama request failed (" +:+ pretty status
                         +:+ "): " +:+ body)), w')
  | (Returned (ReplyData text), w') =>
      match JsString.or_opt text None with
      | None => (Threw (Error.new "Ollama returned no response text."), w')
      | Some text => (normaliseOutput text context, w')
      end
  end.

(** The capability query; a failure of the query is "unavailable". *)
Definition isPromptApiAvailable (w : World) : bool * World :=
  match ai_languageModel w with
  | Some lm =>
      if hasCapabilities lm then
        match ai_capabilities w with
        | (Returned available, w') =>
            (negb (bool_decide (available = Some "no")), w')
        | (Threw _, w') => (false, w')
        end
      else (hasCreate lm, w)
  | None => (false, w)
  end.

Definition generateLessonWithPromptApi (context : Context.t) (model : string)
    (temperature : number) (w : World) : Outcome LessonResult.t * World :=
  let '(available, w1) := isPromptApiAvailable w in
  if available then
    generateLessonWithGemini None model context true temperature w1
  else
    (Threw (Error.new "Chrome Prompt API is not available on this device."), w1).

End Connectors.

(** ** The background worker (background.js) *)

Definition DEFAULT_backendPreference : list string :=
  ["gemini"; "ollama"; "promptApi"].

Definition GEMINI_MODEL : string := "gemini-1.5-flash-latest".
Definition OLLAMA_MODEL : string := "mistral".

(** An entry of the orchestrator's [errors] array. *)
Module ErrorRecord.

Record t : Type := make { backend : string; error : string }.

End ErrorRecord.

Module Stats.

Record t : Type := make {
  streak : option number;
  lastLessonDate : option string;
  totalLessons : option number;
  totalFlashcardsReviewed : option number;
  flashcardsGeneratedToday : option number
}.

End Stats.

Definition defaultStats : Stats.t :=
  {| Stats.streak := Some (of_Z 0);
     Stats.lastLessonDate := None;
     Stats.totalLessons := Some (of_Z 0);
     Stats.totalFlashcardsReviewed := Some (of_Z 0);
     Stats.flashcardsGeneratedToday := None |}.

(** The keys of [chrome.storage.local] the worker keeps; [None] is a key
    that has no value yet. *)
Module Store.

Record t : Type := make {
  lessons : option (list Lesson.t);
  flashcards : option (list Flashcard.t);
  stats : option Stats.t;
  lastGeneratedAt : option string
}.

End Store.

(** [list.slice(-n)] *)
Definition takeLast {A : Type} (n : nat) (l : list A) : list A :=
  drop (length l - n) l.

(** [a > b] on strings: the order of their code units. *)
Definition stringGt (a b : string) : bool := String.ltb b a.

(** [list.sort(compare)], where [compare a b > 0] puts [a] after [b].
    The elements are inserted one by one, from the last to the first. *)
Fixpoint sortInsert {A : Type} (after : A -> A -> bool) (x : A) (l : list A)
  : list A :=
  match l with
  | [] => [x]
  | y :: l' => if after x y then y :: sortInsert after x l' else x :: y :: l'
  end.

Definition sortWith {A : Type} (after : A -> A -> bool) (l : list A) : list A :=
  foldr (sortInsert after) [] l.

Definition newline : string := String JsString.newline EmptyString.

Section Orchestrator.

Context {World : Type} `{HostBackends World} `{HostDate}.

Definition getGeminiApiKey (w : World) : Outcome (option string) * World :=
  match storageSync_geminiApiKey w with
  | (Returned key, w') => (Returned (JsString.or_opt key None), w')
  | (Threw error, w') => (Threw error, w')
  end.

(** The body of the [try] block for one backend; [None] for a backend
    that is none of the three, for which the body does nothing. *)
Definition attempt (backend : string) (context : Context.t) (w : World)
  : option (Outcome LessonResult.t * World) :=
  if String.eqb backend "gemini" then
    Some match getGeminiApiKey w with
         | (Threw error, w1) => (Threw error, w1)
         | (Returned None, w1) => (Threw (Error.new "Missing Gemini API key"), w1)
         | (Returned (Some apiKey), w1) =>
             generateLessonWithGemini (Some apiKey) GEMINI_MODEL context false
               (decimal 7 1) w1
         end
  else if String.eqb backend "ollama" then
    let modelName :=
      JsString.or_else (Settings.ollamaModel (Context.settings context))
        OLLAMA_MODEL in
    Some (generateLessonWithOllama modelName context w)
  else if String.eqb backend "promptApi" then
    Some (let '(available, w1) := isPromptApiAvailable w in
          if available then
            let modelName :=
              JsString.or_else (Settings.promptApiModel (Context.settings context))
                "gemini-pro" in
            let temperature :=
              default (decimal 7 1)
                (Settings.promptApiTemperature (Context.settings context)) in
            generateLessonWithPromptApi context modelName temperature w1
          else (Threw (Error.new "Chrome Prompt API unavailable"), w1))
  else None.

(** The [for] loop of [executeWithFallback]: the result of the first
    backend that returns one, or the errors of all that threw. *)
Fixpoint executeWithFallback_loop (preferenceOrder : list string)
    (context : Context.t) (errors : list ErrorRecord.t) (w : World)
  : option LessonResult.t * list ErrorRecord.t * World :=
  match preferenceOrder with
  | [] => (None, errors, w)
  | backend :: rest =>
      match attempt backend context w with
      | Some (Returned result, w') => (Some result, errors, w')
      | Some (Threw error, w') =>
          executeWithFallback_loop rest context
            (errors ++ [ {| ErrorRecord.backend := backend;
                            ErrorRecord.error := Error.text error |} ]) w'
      | None => executeWithFallback_loop rest context errors w
      end
  end.

(** The card the offline lesson carries when no card is due. *)
Definition selfCheckCard (topic : string) : ResultCard.entry :=
  Some {| ResultCard.question :=
            "What is one insight about " +:+ topic
            +:+ " you can recall without assistance?";
          ResultCard.answer :=
            "Write your answer in your notes to reinforce memory.";
          ResultCard.interval := None;
          ResultCard.easeFactor := None;
          ResultCard.repetitions := None |}.

(** [{question: card.question, answer: card.answer}] *)
Definition questionAndAnswer (card : Flashcard.t) : ResultCard.entry :=
  Some {| ResultCard.question := Flashcard.question card;
          ResultCard.answer := Flashcard.answer card;
          ResultCard.interval := None;
          ResultCard.easeFactor := None;
          ResultCard.repetitions := None |}.

Definition buildOfflineFallbackLesson (context : Context.t)
    (errors : list ErrorRecord.t) (now : Date) : LessonResult.t :=
  let today := Date_toLocaleDateString now in
  let topic :=
    JsString.or_else (Settings.topic (Context.settings context))
      "Independent learning" in
  let summary :=
    [ "Offline fallback for " +:+ topic +:+ ".";
      "Review a recent concept and capture notes manually.";
      "Resolve connectivity or API key issues to resume AI generation." ] in
  let priorLesson := last (Context.recentLessons context) in
  let body :=
    newline +:+ "    <h2>Offline Study Day</h2>" +:+ newline
    +:+ "    <p>Our AI backends were unreachable (" +:+ pretty (length errors)
    +:+ " errors). Use this self-guided prompt to stay on track.</p>" +:+ newline
    +:+ "    <p><strong>Topic focus:</strong> " +:+ topic +:+ "</p>" +:+ newline
    +:+ "    <ul>" +:+ newline
    +:+ "      <li>Summarise what you learned yesterday"
    +:+ match priorLesson with
        | Some lesson => " (" +:+ Lesson.title lesson +:+ ")"
        | None => ""
        end
    +:+ ".</li>" +:+ newline
    +:+ "      <li>Write down two questions you still have.</li>" +:+ newline
    +:+ "      <li>Skim one curated source offline and capture a key quote.</li>"
    +:+ newline +:+ "    </ul>" +:+ newline +:+ "  " in
  let flashcards :=
    questionAndAnswer <$> take 5 (Context.dueFlashcards context) in
  let flashcards :=
    match flashcards with
    | [] => [selfCheckCard topic]
    | _ => flashcards
    end in
  {| LessonResult.title := "Offline reflection â€” " +:+ today;
     LessonResult.summary := summary;
     LessonResult.lesson := body;
     LessonResult.flashcards := flashcards;
     LessonResult.sources :=
       (fun chunk =>
          SourceRef (Chunk.sourceTitle chunk)
            (JsString.or_else (Some (Chunk.reference chunk)) "Offline excerpt"))
       <$> take 3 (Context.curatedChunks context);
     LessonResult.exercise :=
       "Spend 10 minutes journaling what you remember and identify blockers to restore connectivity."
  |}.

(** [Array.isArray(preferences) && preferences.length ? preferences :
    DEFAULT_SETTINGS.backendPreference]; [preferences] is [None] when the
    stored preference is not an array. *)
Definition preferenceOrderOf (preferences : option (list string)) : list string :=
  match preferences with
  | Some (backend :: rest) => backend :: rest
  | _ => DEFAULT_backendPreference
  end.

(** [now] is the clock as the offline lesson reads it. *)
Definition executeWithFallback (preferences : option (list string))
    (context : Context.t) (now : Date) (w : World) : LessonResult.t * World :=
  let preferenceOrder := preferenceOrderOf preferences in
  match executeWithFallback_loop preferenceOrder context [] w with
  | (Some result, _, w') => (result, w')
  | (None, errors, w') => (buildOfflineFallbackLesson context errors now, w')
  end.

(** The specification's account of a run in which no backend succeeds:
    the backends are taken in list order, one that is none of the three
    is passed over, and each one that fails leaves a
    [{backend, errorMessage}] record before the next is tried.
    [AllFail context order w errors w'] relates the order and the world
    at the start to the records and the world at the end. *)
Inductive AllFail (context : Context.t)
  : list string -> World -> list ErrorRecord.t -> World -> Prop :=
  | AllFail_nil w : AllFail context [] w [] w
  | AllFail_threw backend rest w error w' errors w'' :
      attempt backend context w = Some (Threw error, w') ->
      AllFail context rest w' errors w'' ->
      AllFail context (backend :: rest) w
        ({| ErrorRecord.backend := backend;
            ErrorRecord.error := Error.text error |} :: errors) w''
  | AllFail_unknown backend rest w errors w'' :
      attempt backend context w = None ->
      AllFail context rest w errors w'' ->
      AllFail context (backend :: rest) w errors w''.

(** The three identifiers the orchestrator knows. *)
Definition knownBackend (backend : string) : bool :=
  String.eqb backend "gemini" || String.eqb backend "ollama"
  || String.eqb backend "promptApi".

End Orchestrator.

Section Persistence.

Context `{HostDate}.

(** The cards the merge leaves at the index of an existing card that an
    incoming card refreshes. *)
Definition refreshCard (card existingCard : Flashcard.t) : Flashcard.t :=
  {| Flashcard.id := Flashcard.id existingCard;
     Flashcard.question := Flashcard.question existingCard;
     Flashcard.answer := Flashcard.answer existingCard;
     Flashcard.sourceLessonId := Flashcard.sourceLessonId card;
     Flashcard.interval := Flashcard.interval card;
     Flashcard.easeFactor :=
       match Flashcard.easeFactor existingCard with
       | Some e => if truthy e then Some e else Flashcard.easeFactor card
       | None => Flashcard.easeFactor card
       end;
     Flashcard.repetitions :=
       Some (or_else (Flashcard.repetitions existingCard) (of_Z 0));
     Flashcard.dueDate := Flashcard.dueDate card;
     Flashcard.lastReviewedAt := Flashcard.lastReviewedAt existingCard;
     Flashcard.lastGrade := Flashcard.lastGrade existingCard |}.

(** [new Map(existing.map((card, index) => [card.question, index]))]:
    of two cards with one question, the later one's index stays. *)
Definition indexByQuestion (existing : list Flashcard.t) : gmap string nat :=
  foldl (fun m entry => <[entry.1 := entry.2]> m) ∅
    (imap (fun index card => (Flashcard.question card, index)) existing).

(** One iteration of the loop over [incoming].  An index the map holds
    is an index of [existing], hence of [merged]. *)
Definition mergeStep (index : gmap string nat) (merged : list Flashcard.t)
    (card : Flashcard.t) : list Flashcard.t :=
  match index !! Flashcard.question card with
  | Some i => alter (refreshCard card) i merged
  | None => merged ++ [card]
  end.

Definition mergeFlashcards (existing incoming : list Flashcard.t)
  : list Flashcard.t :=
  foldl (mergeStep (indexByQuestion existing)) existing incoming.

(** The key of the day before [todayKey], as [updateStats] computes it. *)
Definition yesterdayKeyOf (todayKey : string) : string :=
  substring 0 10
    (Date_toISOString (Date_addDays (Date_parse todayKey) (of_Z (-1)))).

Definition updateStats (stats : Stats.t) (todayKey : string)
    (newCardCount : number) : Stats.t :=
  let yesterdayKey := yesterdayKeyOf todayKey in
  let streak :=
    if bool_decide (Stats.lastLessonDate stats = Some todayKey) then
      Stats.streak stats
    else if bool_decide (Stats.lastLessonDate stats = Some yesterdayKey) then
      Some (add (or_else (Stats.streak stats) (of_Z 0)) (of_Z 1))
    else Some (of_Z 1) in
  {| Stats.streak := streak;
     Stats.lastLessonDate := Some todayKey;
     Stats.totalLessons :=
       Some (add (or_else (Stats.totalLessons stats) (of_Z 0)) (of_Z 1));
     Stats.totalFlashcardsReviewed :=
       Some (or_else (Stats.totalFlashcardsReviewed stats) (of_Z 0));
     Stats.flashcardsGeneratedToday := Some newCardCount |}.

Definition lessonAfter (a b : Lesson.t) : bool :=
  stringGt (Lesson.date a) (Lesson.date b).

Definition newLessonOf (result : LessonResult.t) (todayKey : string)
    (settings : Settings.t) (now : Date) : Lesson.t :=
  {| Lesson.id := "lesson-" +:+ todayKey;
     Lesson.date := todayKey;
     Lesson.title := LessonResult.title result;
     Lesson.summary := LessonResult.summary result;
     Lesson.body := LessonResult.lesson result;
     Lesson.sources := LessonResult.sources result;
     Lesson.exercise := LessonResult.exercise result;
     Lesson.generatedAt := Date_toISOString now;
     Lesson.mode := Settings.mode settings |}.

Definition updatedLessonsOf (lessons : list Lesson.t) (newLesson : Lesson.t)
  : list Lesson.t :=
  takeLast 60
    (sortWith lessonAfter
       (filter (fun lesson => Lesson.date lesson <> Lesson.date newLesson) lessons
        ++ [newLesson])).

(** What reading [card.question] throws on an entry that is [null]. *)
Definition nullCardError : Error.t := nullPropertyError "question".

(** [(result.flashcards || []).map((card, index) => ...)]: reading a
    field of an entry that is [null] throws. *)
Definition newCardsOf (result : LessonResult.t) (todayKey : string)
    (newLesson : Lesson.t) (now : Date) : Outcome (list Flashcard.t) :=
  match mapM id (LessonResult.flashcards result) with
  | None => Threw nullCardError
  | Some cards =>
      Returned
        (imap (fun index card =>
                 {| Flashcard.id :=
                      "card-" +:+ todayKey +:+ "-" +:+ pretty index;
                    Flashcard.question := ResultCard.question card;
                    Flashcard.answer := ResultCard.answer card;
                    Flashcard.sourceLessonId := Some (Lesson.id newLesson);
                    Flashcard.interval :=
                      Some (nullish (ResultCard.interval card) (of_Z 1));
                    Flashcard.easeFactor :=
                      Some (nullish (ResultCard.easeFactor card) (decimal 25 1));
                    Flashcard.repetitions :=
                      Some (nullish (ResultCard.repetitions card) (of_Z 0));
                    Flashcard.dueDate := Some (Date_toISOString now);
                    Flashcard.lastReviewedAt := None;
                    Flashcard.lastGrade := None |})
              cards)
  end.

(** [now] is the clock as the step reads it.  The step writes the four
    keys at its end: when it throws before, the store is as it was. *)
Definition persistDailyContent (result : LessonResult.t) (todayKey : string)
    (settings : Settings.t) (now : Date) (store : Store.t) : Outcome Store.t :=
  let lessons := default [] (Store.lessons store) in
  let flashcards := default [] (Store.flashcards store) in
  let stats := default defaultStats (Store.stats store) in
  let newLesson := newLessonOf result todayKey settings now in
  let updatedLessons := updatedLessonsOf lessons newLesson in
  match newCardsOf result todayKey newLesson now with
  | Threw error => Threw error
  | Returned newCards =>
      let mergedCards := mergeFlashcards flashcards newCards in
      let updatedStats :=
        updateStats stats todayKey (of_Z (Z.of_nat (length newCards))) in
      Returned {| Store.lessons := Some updatedLessons;
                  Store.flashcards := Some mergedCards;
                  Store.stats := Some updatedStats;
                  Store.lastGeneratedAt := Some todayKey |}
  end.

(** [flashcards.findIndex((card) => card.id === cardId)] *)
Fixpoint findIndexById (cardId : string) (flashcards : list Flashcard.t)
  : option nat :=
  match flashcards with
  | [] => None
  | card :: rest =>
      if String.eqb (Flashcard.id card) cardId then Some O
      else S <$> findIndexById cardId rest
  end.

(** The call [gradeFlashcard(cardId, grade)]: the store it leaves when
    it returns.  The review is made before anything is written, so that
    a review that throws leaves the store as it was.  The index that
    [findIndex] returns is one of the list, where [flashcards[index]]
    finds the card. *)
Definition gradeFlashcard_call (cardId : string) (grade : number) (now : Date)
    (store : Store.t) : Outcome Store.t :=
  let flashcards := default [] (Store.flashcards store) in
  let stats := default defaultStats (Store.stats store) in
  match findIndexById cardId flashcards with
  | None => Returned store
  | Some index =>
      match flashcards !! index with
      | None => Returned store
      | Some card =>
          match applySm2Review_call now card grade with
          | Threw error => Threw error
          | Returned updatedCard =>
              let updatedCards := <[index := updatedCard]> flashcards in
              let updatedStats :=
                {| Stats.streak := Stats.streak stats;
                   Stats.lastLessonDate := Stats.lastLessonDate stats;
                   Stats.totalLessons := Stats.totalLessons stats;
                   Stats.totalFlashcardsReviewed :=
                     Some (add (or_else (Stats.totalFlashcardsReviewed stats)
                                  (of_Z 0))
                             (of_Z 1));
                   Stats.flashcardsGeneratedToday :=
                     Stats.flashcardsGeneratedToday stats |} in
              Returned {| Store.lessons := Store.lessons store;
                          Store.flashcards := Some updatedCards;
                          Store.stats := Some updatedStats;
                          Store.lastGeneratedAt := Store.lastGeneratedAt store |}
          end
      end
  end.

(** The store after the call, whether it has returned or thrown. *)
Definition gradeFlashcard (cardId : string) (grade : number) (now : Date)
    (store : Store.t) : Store.t :=
  match gradeFlashcard_call cardId grade now store with
  | Returned store' => store'
  | Threw _ => store
  end.

(** The states of the store that the worker can reach: the one the
    install holds, and what a persistence step or a grading makes of a
    state it can bring about. *)
Inductive StoreReachable : Store.t -> Prop :=
  | reachable_install :
      StoreReachable
        {| Store.lessons := Some [];
           Store.flashcards := Some [];
           Store.stats := Some defaultStats;
           Store.lastGeneratedAt := None |}
  | reachable_persist result todayKey settings now store store' :
      StoreReachable store ->
      persistDailyContent result todayKey settings now store = Returned store' ->
      StoreReachable store'
  | reachable_grade cardId grade now store :
      StoreReachable store ->
      StoreReachable (gradeFlashcard cardId grade now store).

End Persistence.

(** ** A concrete host

    A [JSON.parse] over the model's strings and a scripted browser.
    They instantiate the host classes where a property is evaluated on
    a concrete run; the properties themselves hold for every host. *)

Module Json.

#[warnings="-register-all"]
Inductive value : Type :=
  | Null
  | Bool (b : bool)
  | Number (n : number)
  | Str (s : string)
  | Arr (items : list value)
  | Obj (fields : list (string * value)).

Definition isJsonSpace (c : ascii) : bool :=
  let n := N_of_ascii c in
  ((n =? 32) || (n =? 9) || (n =? 10) || (n =? 13))%N.

Fixpoint skipSpace (s : string) : string :=
  match s with
  | String c s' => if isJsonSpace c then skipSpace s' else s
  | EmptyString => EmptyString
  end.

(** The double quote. *)
Definition quote : ascii := ascii_of_N 34.

Definition isDigit (c : ascii) : bool :=
  let n := N_of_ascii c in ((48 <=? n) && (n <=? 57))%N.

Definition hexValue (c : ascii) : option N :=
  let n := N_of_ascii c in
  if ((48 <=? n) && (n <=? 57))%N then Some (n - 48)%N
  else if ((65 <=? n) && (n <=? 70))%N then Some (n - 55)%N
  else if ((97 <=? n) && (n <=? 102))%N then Some (n - 87)%N
  else None.

(** The characters of a string literal after its opening quote, and
    what follows the closing quote.  A [\u] escape denotes a code unit
    of the model, below 256. *)
Fixpoint stringBody (s : string) : option (string * string) :=
  match s with
  | String c s' =>
      if Ascii.eqb c quote then Some (EmptyString, s')
      else if Ascii.eqb c "\" then
        match s' with
        | String e s'' =>
            let plain (x : ascii) :=
              '(body, rest) ← stringBody s''; Some (String x body, rest) in
            if Ascii.eqb e quote then plain quote
            else if Ascii.eqb e "\" then plain "\"%char
            else if Ascii.eqb e "/" then plain "/"%char
            else if Ascii.eqb e "b" then plain (ascii_of_N 8)
            else if Ascii.eqb e "f" then plain (ascii_of_N 12)
            else if Ascii.eqb e "n" then plain (ascii_of_N 10)
            else if Ascii.eqb e "r" then plain (ascii_of_N 13)
            else if Ascii.eqb e "t" then plain (ascii_of_N 9)
            else if Ascii.eqb e "u" then
              match s'' with
              | String h1 (String h2 (String h3 (String h4 s3))) =>
                  a ← hexValue h1; b ← hexValue h2;
                  c ← hexValue h3; d ← hexValue h4;
                  if ((a =? 0) && (b =? 0))%N then
                    '(body, rest) ← stringBody s3;
                    Some (String (ascii_of_N (16 * c + d)) body, rest)
                  else None
              | _ => None
              end
            else None
        | EmptyString => None
        end
      else if (N_of_ascii c <? 32)%N then None
      else '(body, rest) ← stringBody s'; Some (String c body, rest)
  | EmptyString => None
  end.

(** The digits at the start of [s], their value continuing [acc], their
    number and what follows them. *)
Fixpoint digitsPrefix (acc : Z) (count : nat) (s : string) : Z * nat * string :=
  match s with
  | String c s' =>
      if isDigit c
      then digitsPrefix (10 * acc + (Z.of_N (N_of_ascii c) - 48)) (S count) s'
      else (acc, count, s)
  | EmptyString => (acc, count, s)
  end.

(** The binary64 value nearest to [m * 10^e]. *)
Definition scaled (negative : bool) (m : Z) (e : Z) : number :=
  match m with
  | Z.pos p =>
      if 0 <=? e then
        binary_normalize prec emax
          ((if negative then Z.neg p else Z.pos p) * 10 ^ e) 0 false
      else
        SFdiv prec emax (S754_finite negative p 0)
          (S754_finite false (Z.to_pos (10 ^ (- e))) 0)
  | _ => S754_zero negative
  end.

Definition numberLiteral (s : string) : option (number * string) :=
  let '(negative, s1) :=
    match s with
    | String "-" s' => (true, s')
    | _ => (false, s)
    end in
  let '(int, intDigits, s2) := digitsPrefix 0 0 s1 in
  let leadingZero :=
    match s1 with
    | String "0" _ => negb (Nat.eqb intDigits 1)
    | _ => false
    end in
  if Nat.eqb intDigits 0 || leadingZero then None
  else
    fraction ←
      match s2 with
      | String "." s' =>
          let '(m, fracDigits, s3) := digitsPrefix int 0 s' in
          if Nat.eqb fracDigits 0 then None else Some (m, fracDigits, s3)
      | _ => Some (int, O, s2)
      end;
    let '(m, fracDigits, s3) := fraction in
    exponent ←
      match s3 with
      | String c s' =>
          if Ascii.eqb c "e" || Ascii.eqb c "E" then
            let '(expNegative, s4) :=
              match s' with
              | String "-" s'' => (true, s'')
              | String "+" s'' => (false, s'')
              | _ => (false, s')
              end in
            let '(x, expDigits, s5) := digitsPrefix 0 0 s4 in
            if Nat.eqb expDigits 0 then None
            else Some (if expNegative then - x else x, s5)
          else Some (0, s3)
      | EmptyString => Some (0, s3)
      end;
    let '(x, rest) := exponent in
    Some (scaled negative m (x - Z.of_nat fracDigits), rest).

(** A value at the start of [s], after optional space, and what follows
    it.  [parseItems] reads the rest of an array after a value, and
    [parseFields] the rest of an object. *)
Fixpoint parseValue (fuel : nat) (s : string) : option (value * string) :=
  match fuel with
  | O => None
  | S fuel' =>
      let parseItems :=
        fix parseItems (n : nat) (acc : list value) (s : string)
          : option (value * string) :=
          match n with
          | O => None
          | S n' =>
              match skipSpace s with
              | String "]" rest => Some (Arr (reverse acc), rest)
              | String "," rest =>
                  '(item, rest') ← parseValue fuel' rest;
                  parseItems n' (item :: acc) rest'
              | _ => None
              end
          end in
      let parseField (s : string) : option (string * value * string) :=
        match skipSpace s with
        | String c rest =>
            if Ascii.eqb c quote then
              '(key, rest1) ← stringBody rest;
              match skipSpace rest1 with
              | String ":" rest2 =>
                  '(item, rest3) ← parseValue fuel' rest2;
                  Some (key, item, rest3)
              | _ => None
              end
            else None
        | EmptyString => None
        end in
      let parseFields :=
        fix parseFields (n : nat) (acc : list (string * value)) (s : string)
          : option (value * string) :=
          match n with
          | O => None
          | S n' =>
              match skipSpace s with
              | String "}" rest => Some (Obj (reverse acc), rest)
              | String "," rest =>
                  '(key, item, rest') ← parseField rest;
                  parseFields n' ((key, item) :: acc) rest'
              | _ => None
              end
          end in
      match skipSpace s with
      | String "n" (String "u" (String "l" (String "l" rest))) =>
          Some (Null, rest)
      | String "t" (String "r" (String "u" (String "e" rest))) =>
          Some (Bool true, rest)
      | String "f" (String "a" (String "l" (String "s" (String "e" rest)))) =>
          Some (Bool false, rest)
      | String "[" rest =>
          match skipSpace rest with
          | String "]" rest' => Some (Arr [], rest')
          | _ =>
              '(item, rest') ← parseValue fuel' rest;
              parseItems (String.length rest') [item] rest'
          end
      | String "{" rest =>
          match skipSpace rest with
          | String "}" rest' => Some (Obj [], rest')
          | _ =>
              '(key, item, rest') ← parseField rest;
              parseFields (String.length rest') [(key, item)] rest'
          end
      | String c rest as other =>
          if Ascii.eqb c quote then
            '(body, rest') ← stringBody rest; Some (Str body, rest')
          else
            '(n, rest') ← numberLiteral other; Some (Number n, rest')
      | EmptyString => None
      end
  end.

(** The value of a JSON text, or [None] for a text that is not one. *)
Definition parseText (text : string) : option value :=
  '(v, rest) ← parseValue (S (String.length text)) text;
  match skipSpace rest with
  | EmptyString => Some v
  | _ => None
  end.

(** [v.key]: the last field of that name. *)
Definition field (key : string) (v : value) : option value :=
  match v with
  | Obj fields =>
      snd <$> last (filter (fun entry => entry.1 = key) fields)
  | _ => None
  end.

Definition asString (v : option value) : option string :=
  match v with
  | Some (Str s) => Some s
  | _ => None
  end.

Definition asNumber (v : option value) : option number :=
  match v with
  | Some (Number n) => Some n
  | _ => None
  end.

Definition asStrings (items : list value) : list string :=
  omap (fun item => asString (Some item)) items.

(** The fields the connectors read, for a value whose fields have the
    types of the canonical result; a field of another type reads as
    absent. *)
Definition toCard (v : value) : ResultCard.entry :=
  match v with
  | Null => None
  | _ =>
      Some {| ResultCard.question := default "" (asString (field "question" v));
              ResultCard.answer := default "" (asString (field "answer" v));
              ResultCard.interval := asNumber (field "interval" v);
              ResultCard.easeFactor := asNumber (field "easeFactor" v);
              ResultCard.repetitions := asNumber (field "repetitions" v) |}
  end.

Definition toSource (v : value) : SourceEntry :=
  SourceRef (default "" (asString (field "title" v)))
            (default "" (asString (field "reference" v))).

Definition toPayload (v : value) : Payload.t :=
  {| Payload.title := asString (field "title" v);
     Payload.summary :=
       match field "summary" v with
       | Some (Arr items) => Payload.SummaryArray (asStrings items)
       | Some (Str s) => Payload.SummaryString s
       | _ => Payload.SummaryAbsent
       end;
     Payload.lesson := asString (field "lesson" v);
     Payload.flashcards :=
       match field "flashcards" v with
       | Some (Arr items) => Some (toCard <$> items)
       | _ => None
       end;
     Payload.sources :=
       match field "sources" v with
       | Some (Arr items) => Some (toSource <$> items)
       | _ => None
       end;
     Payload.exercise := asString (field "exercise" v) |}.

Definition syntaxError : Error.t :=
  {| Error.name := "SyntaxError";
     Error.message := "Unexpected token in JSON" |}.

(** [JSON.parse(text)] *)
Definition parse (text : string) : Outcome Parsed :=
  match parseText text with
  | Some Null => Returned ParsedNull
  | Some v => Returned (ParsedObject (toPayload v))
  | None => Threw syntaxError
  end.

End Json.

(** *** A scripted browser

    Its world is the log of the calls made to it, oldest first; what it
    answers is fixed by a script. *)
Module Demo.

Record Script : Type := {
  apiKey : option string;
  geminiReply : Outcome Reply;
  ollamaReply : Outcome Reply;
  languageModel : option LanguageModel;
  capabilities : Outcome (option string);
  promptReply : Outcome string;
  pages : list (string * string)
}.

Definition backends (script : Script) : HostBackends (list string) :=
  {| JSON_parse := Json.parse;
     storageSync_geminiApiKey w :=
       (Returned (apiKey script), w ++ ["storage.sync.get"]);
     gemini_generateContent _ _ _ _ w :=
       (geminiReply script, w ++ ["POST gemini"]);
     ollama_generate _ _ w := (ollamaReply script, w ++ ["POST ollama"]);
     ai_languageModel _ := languageModel script;
     ai_capabilities w := (capabilities script, w ++ ["ai.capabilities"]);
     ai_prompt _ _ _ w := (promptReply script, w ++ ["ai.prompt"]) |}.

Definition networkError : Error.t :=
  {| Error.name := "TypeError"; Error.message := "Failed to fetch" |}.

(** The pages of the script answer a fetch; any other URL is
    unreachable.  [atob] decodes nothing and the decoder reads bytes as
    characters. *)
Definition web (script : Script) : HostWeb (list string) :=
  {| fetch url w :=
       (match snd <$> list_find (fun page => page.1 = url) (pages script) with
        | Some page => Returned (true, 200, page.2)
        | None => Threw networkError
        end, w ++ ["GET " +:+ url]);
     atob _ :=
       Threw {| Error.name := "InvalidCharacterError";
                Error.message := "The string to be decoded is not correctly encoded." |};
     TextDecoder_decode := string_of_list_ascii |}.

(** No key, no server, no on-device model. *)
Definition offline : Script :=
  {| apiKey := None;
     geminiReply := Threw networkError;
     ollamaReply := Threw networkError;
     languageModel := None;
     capabilities := Returned None;
     promptReply := Threw networkError;
     pages := [] |}.

(** No key for Gemini; the local server answers with [text]. *)
Definition ollamaAnswers (text : string) : Script :=
  {| apiKey := None;
     geminiReply := Threw networkError;
     ollamaReply := Returned (ReplyData (Some text));
     languageModel :=
       Some {| hasCapabilities := true; hasCreate := true |};
     capabilities := Returned (Some "readily");
     promptReply := Returned text;
     pages := [] |}.

(** A key for Gemini, which answers with [text]. *)
Definition geminiAnswers (text : string) : Script :=
  {| apiKey := Some "key";
     geminiReply := Returned (ReplyData (Some text));
     ollamaReply := Threw networkError;
     languageModel := None;
     capabilities := Returned None;
     promptReply := Threw networkError;
     pages := [] |}.

Definition settings : Settings.t :=
  {| Settings.mode := "autonomous";
     Settings.topic := Some "Learning how to learn";
     Settings.curatedSources := Some [];
     Settings.backendPreference := Some ["gemini"; "ollama"; "promptApi"];
     Settings.lessonLength := of_Z 750;
     Settings.flashcardCount := of_Z 6;
     Settings.ollamaModel := None;
     Settings.promptApiModel := Some "gemini-pro";
     Settings.promptApiTemperature := Some (decimal 7 1);
     Settings.notificationsEnabled := true |}.

Definition card (id question : string) (interval easeFactor repetitions : number)
  : Flashcard.t :=
  {| Flashcard.id := id;
     Flashcard.question := question;
     Flashcard.answer := "An answer.";
     Flashcard.sourceLessonId := Some "lesson-2024-03-01";
     Flashcard.interval := Some interval;
     Flashcard.easeFactor := Some easeFactor;
     Flashcard.repetitions := Some repetitions;
     Flashcard.dueDate := Some "2024-03-02T09:00:00.000Z";
     Flashcard.lastReviewedAt := None;
     Flashcard.lastGrade := None |}.

Definition context (due : list Flashcard.t) : Context.t :=
  {| Context.settings := settings;
     Context.recentLessons := [];
     Context.dueFlashcards := due;
     Context.curatedChunks := [] |}.

(** 2024-03-02T09:00:00.000Z *)
Definition now : Z := 1709370000000.

(** [s] between double quotes. *)
Definition quoted (s : string) : string :=
  String Json.quote (s +:+ String Json.quote EmptyString).

(** The JSON text of a lesson with three summary bullets and one card. *)
Definition lessonJson : string :=
  "{" +:+ quoted "title" +:+ ":" +:+ quoted "Spacing" +:+ ","
  +:+ quoted "summary" +:+ ":[" +:+ quoted "a" +:+ "," +:+ quoted "b" +:+ ","
  +:+ quoted "c" +:+ "],"
  +:+ quoted "lesson" +:+ ":" +:+ quoted "<p>Space it.</p>" +:+ ","
  +:+ quoted "flashcards" +:+ ":[{" +:+ quoted "question" +:+ ":"
  +:+ quoted "Why space?" +:+ "," +:+ quoted "answer" +:+ ":"
  +:+ quoted "Memory." +:+ "}],"
  +:+ quoted "sources" +:+ ":[],"
  +:+ quoted "exercise" +:+ ":" +:+ quoted "Plan a week." +:+ "}".

(** What [lessonJson] is normalised to. *)
Definition lesson : LessonResult.t :=
  {| LessonResult.title := "Spacing";
     LessonResult.summary := ["a"; "b"; "c"];
     LessonResult.lesson := "<p>Space it.</p>";
     LessonResult.flashcards :=
       [ Some {| ResultCard.question := "Why space?";
                 ResultCard.answer := "Memory.";
                 ResultCard.interval := None;
                 ResultCard.easeFactor := None;
                 ResultCard.repetitions := None |} ];
     LessonResult.sources := [];
     LessonResult.exercise := "Plan a week." |}.

(** A card as a later generation produces it. *)
Definition incomingCard (question : string) : Flashcard.t :=
  {| Flashcard.id := "card-2024-03-05-0";
     Flashcard.question := question;
     Flashcard.answer := "Another answer.";
     Flashcard.sourceLessonId := Some "lesson-2024-03-05";
     Flashcard.interval := Some (of_Z 1);
     Flashcard.easeFactor := Some (decimal 25 1);
     Flashcard.repetitions := Some (of_Z 0);
     Flashcard.dueDate := Some "2024-03-05T09:00:00.000Z";
     Flashcard.lastReviewedAt := None;
     Flashcard.lastGrade := None |}.

(** Six cards that are due. *)
Definition sixDue : list Flashcard.t :=
  (fun n : nat =>
     card ("card-" +:+ pretty n) ("Question " +:+ pretty n +:+ "?")
       (of_Z 1) (decimal 25 1) (of_Z 0))
  <$> seq 0 6.

Definition stats (streak : Z) (lastLessonDate : string) : Stats.t :=
  {| Stats.streak := Some (of_Z streak);
     Stats.lastLessonDate := Some lastLessonDate;
     Stats.totalLessons := Some (of_Z streak);
     Stats.totalFlashcardsReviewed := Some (of_Z 0);
     Stats.flashcardsGeneratedToday := Some (of_Z 1) |}.

(** The store of a fresh install. *)
Definition install : Store.t :=
  {| Store.lessons := Some [];
     Store.flashcards := Some [];
     Store.stats := Some defaultStats;
     Store.lastGeneratedAt := None |}.

(** A pasted note that holds a space and nothing else. *)
Definition blankNote : Source.t :=
  {| Source.id := Some "note-0-1709370000000";
     Source.type := Some "text";
     Source.url := None;
     Source.label := Some "Note 1";
     Source.title := None;
     Source.value := Some " ";
     Source.text := None;
     Source.content := None |}.

Definition note (value : string) : Source.t :=
  {| Source.id := Some "note-1-1709370000000";
     Source.type := Some "text";
     Source.url := None;
     Source.label := Some "Note 2";
     Source.title := None;
     Source.value := Some value;
     Source.text := None;
     Source.content := None |}.

(** An answer that is prose, not JSON. *)
Definition plainAnswer : string :=
  "Spaced repetition" +:+ newline +:+ "Review after one day."
  +:+ newline +:+ "Then after six.".

End Demo.

(** ** The due check (srs-engine.js) and the daily pipeline (background.js) *)

(** The settings of a fresh install.  The schedule and the time-zone
    offset, which the pipeline does not read, are left out. *)
Definition DEFAULT_SETTINGS : Settings.t :=
  {| Settings.mode := "autonomous";
     Settings.topic := Some "Learning how to learn";
     Settings.curatedSources := Some [];
     Settings.backendPreference := Some DEFAULT_backendPreference;
     Settings.lessonLength := of_Z 750;
     Settings.flashcardCount := of_Z 6;
     Settings.ollamaModel := None;
     Settings.promptApiModel := Some "gemini-pro";
     Settings.promptApiTemperature := Some (decimal 7 1);
     Settings.notificationsEnabled := true |}.

(** What fires the pipeline. *)
Inductive Trigger : Type := scheduled | manual | catchup.

(** The notification a run ends with. *)
Inductive Notification : Type :=
  (** [learnpulse-daily-ready] *)
  | NotifyReady
  (** [learnpulse-daily-error] *)
  | NotifyError.

(** The readings of the clock during a run: for today's key, for the
    due filter, for the offline lesson and for the persistence step. *)
Record Clock `{HostDate} : Type := {
  atStart : Date;
  atContext : Date;
  atFallback : Date;
  atPersist : Date
}.

Section DueCheck.

Context `{HostDate}.

(** [isCardDue]: a card without a due date is due. *)
Definition isCardDue (now : Date) (card : Flashcard.t) : bool :=
  match JsString.or_opt (Flashcard.dueDate card) None with
  | None => true
  | Some dueDate => Date_le (Date_parse dueDate) now
  end.

(** The filter of [prepareGenerationContext]:
    [dueDate = card.dueDate ? new Date(card.dueDate) : null] and then
    [!dueDate || dueDate <= new Date()]. *)
Definition dueForGeneration (now : Date) (card : Flashcard.t) : bool :=
  let dueDate :=
    match Flashcard.dueDate card with
    | Some EmptyString | None => None
    | Some s => Some (Date_parse s)
    end in
  match dueDate with
  | None => true
  | Some d => Date_le d now
  end.

End DueCheck.

Section Pipeline.

Context {World : Type} `{HostWeb World} `{HostBackends World} `{HostDate}.

(** What a run leaves behind. *)
Record Run : Type := {
  runStore : Store.t;
  runNotification : option Notification;
  runWorld : World
}.

(** [None] is a run that does not end. *)
Definition prepareGenerationContext (settings : Settings.t) (now : Date)
    (store : Store.t) (w : World) : option (Outcome Context.t * World) :=
  let lessons := default [] (Store.lessons store) in
  let flashcards := default [] (Store.flashcards store) in
  let recentLessons := takeLast 5 lessons in
  let dueFlashcards :=
    filter (fun card => dueForGeneration now card = true) flashcards in
  if String.eqb (Settings.mode settings) "curated" then
    match chunkSources (default [] (Settings.curatedSources settings)) w with
    | (Some [], w') =>
        Some (Threw (Error.new
                       "Curated mode requires at least one processed source."),
              w')
    | (Some curatedChunks, w') =>
        Some (Returned {| Context.settings := settings;
                          Context.recentLessons := recentLessons;
                          Context.dueFlashcards := dueFlashcards;
                          Context.curatedChunks := curatedChunks |}, w')
    | (None, _) => None
    end
  else
    Some (Returned {| Context.settings := settings;
                      Context.recentLessons := recentLessons;
                      Context.dueFlashcards := dueFlashcards;
                      Context.curatedChunks := [] |}, w).

(** [new Date().toISOString().slice(0, 10)] *)
Definition todayKeyOf (now : Date) : string :=
  substring 0 10 (Date_toISOString now).

(** [storedSettings] is the value under the settings key, if any.  The
    reads and writes of the store and the notifications are taken to
    succeed.  Whatever the [try] block throws ends in the error
    notification: the failure to build the context, and the failure of
    the persistence step after the orchestrator has run. *)
Definition runDailyLessonPipeline (triggerSource : Trigger)
    (storedSettings : option Settings.t) (clock : Clock)
    (store : Store.t) (w : World) : option Run :=
  let settings := default DEFAULT_SETTINGS storedSettings in
  let lastGenerated := Store.lastGeneratedAt store in
  let todayKey := todayKeyOf (atStart clock) in
  if bool_decide (lastGenerated = Some todayKey)
     && match triggerSource with scheduled => true | _ => false end
  then Some {| runStore := store; runNotification := None; runWorld := w |}
  else
    match prepareGenerationContext settings (atContext clock) store w with
    | None => None
    | Some (Threw _, w1) =>
        Some {| runStore := store;
                runNotification := Some NotifyError;
                runWorld := w1 |}
    | Some (Returned generationContext, w1) =>
        let '(generationResult, w2) :=
          executeWithFallback (Settings.backendPreference settings)
            generationContext (atFallback clock) w1 in
        match persistDailyContent generationResult todayKey settings
                (atPersist clock) store with
        | Returned store' =>
            Some {| runStore := store';
                    runNotification :=
                      if Settings.notificationsEnabled settings
                      then Some NotifyReady else None;
                    runWorld := w2 |}
        | Threw _ =>
            Some {| runStore := store;
                    runNotification := Some NotifyError;
                    runWorld := w2 |}
        end
    end.

End Pipeline.

(** [a] is of an earlier day than [b]. *)
Definition dateBefore (a b : Lesson.t) : Prop :=
  String.ltb (Lesson.date a) (Lesson.date b) = true.

(** [tidyFrom inRun s]: the only whitespace of [s] is the space, and
    no space follows a space; [inRun] tells that a space precedes [s]. *)
Fixpoint tidyFrom (inRun : bool) (s : string) : bool :=
  match s with
  | String c s' =>
      if JsString.isWhitespace c then
        Ascii.eqb c JsString.space && negb inRun && tidyFrom true s'
      else tidyFrom false s'
  | EmptyString => true
  end.

(** *** Data for runs of the pipeline on the scripted browser *)
Module DemoRun.

(** A run at 2024-03-02T09:00:00.000Z that takes no time. *)
Definition clock : Clock (H := Utc.host) :=
  Build_Clock Utc.host Demo.now Demo.now Demo.now Demo.now.

(** The same run an hour later. *)
Definition later : Clock (H := Utc.host) :=
  Build_Clock Utc.host (Demo.now + 3600000)%Z (Demo.now + 3600000)%Z
    (Demo.now + 3600000)%Z (Demo.now + 3600000)%Z.

(** Curated mode over [sources]. *)
Definition curated (sources : list Source.t) : Settings.t :=
  {| Settings.mode := "curated";
     Settings.topic := Some "Learning how to learn";
     Settings.curatedSources := Some sources;
     Settings.backendPreference := Some ["gemini"; "ollama"; "promptApi"];
     Settings.lessonLength := of_Z 750;
     Settings.flashcardCount := of_Z 6;
     Settings.ollamaModel := None;
     Settings.promptApiModel := Some "gemini-pro";
     Settings.promptApiTemperature := Some (decimal 7 1);
     Settings.notificationsEnabled := true |}.

(** A page of a site the scripted browser cannot reach. *)
Definition page : Source.t :=
  {| Source.id := Some "url-0-1709370000000";
     Source.type := Some "url";
     Source.url := Some "https://example.org/spacing";
     Source.label := Some "Spacing";
     Source.title := None;
     Source.value := None;
     Source.text := None;
     Source.content := None |}.

(** The lesson of a day, as it is stored. *)
Definition lessonOf (date : string) : Lesson.t :=
  {| Lesson.id := "lesson-" +:+ date;
     Lesson.date := date;
     Lesson.title := "Spacing";
     Lesson.summary := ["a"];
     Lesson.body := "<p>Space it.</p>";
     Lesson.sources := [];
     Lesson.exercise := "Plan a week.";
     Lesson.generatedAt := date +:+ "T09:00:00.000Z";
     Lesson.mode := "autonomous" |}.

(** A store with two cards and no lesson. *)
Definition twoCards : Store.t :=
  {| Store.lessons := Some [];
     Store.flashcards :=
       Some [ Demo.card "card-a" "Why space?" (of_Z 6) (decimal 25 1) (of_Z 2);
              Demo.card "card-b" "Why test?" (of_Z 1) (decimal 25 1) (of_Z 0) ];
     Store.stats := Some defaultStats;
     Store.lastGeneratedAt := None |}.

(** What [Demo.lessonJson] parses to. *)
Definition lessonPayload : Payload.t :=
  {| Payload.title := Some "Spacing";
     Payload.summary := Payload.SummaryArray ["a"; "b"; "c"];
     Payload.lesson := Some "<p>Space it.</p>";
     Payload.flashcards :=
       Some [ Some {| ResultCard.question := "Why space?";
                      ResultCard.answer := "Memory.";
                      ResultCard.interval := None;
                      ResultCard.easeFactor := None;
                      ResultCard.repetitions := None |} ];
     Payload.sources := Some [];
     Payload.exercise := Some "Plan a week." |}.

(** A card that has not been reviewed yet. *)
Definition fresh : Flashcard.t :=
  Demo.card "card-b" "Why test?" (of_Z 1) (decimal 25 1) (of_Z 0).

(** A second lesson for a day. *)
Definition secondLesson : LessonResult.t :=
  {| LessonResult.title := "Interleaving";
     LessonResult.summary := ["Mix topics."];
     LessonResult.lesson := "<p>Mix it.</p>";
     LessonResult.flashcards :=
       [ Some {| ResultCard.question := "Why mix?";
                 ResultCard.answer := "Contrast.";
                 ResultCard.interval := None;
                 ResultCard.easeFactor := None;
                 ResultCard.repetitions := None |} ];
     LessonResult.sources := [];
     LessonResult.exercise := "Mix two topics." |}.

(** The store after [Demo.lesson] has been persisted on a fresh
    install. *)
Definition afterFirst : Store.t :=
  match persistDailyContent (H := Utc.host) Demo.lesson "2024-03-02"
          Demo.settings Demo.now Demo.install with
  | Returned store => store
  | Threw _ => Demo.install
  end.

(** A reply whose one flashcard is [null]. *)
Definition nullCardJson : string :=
  "{" +:+ Demo.quoted "title" +:+ ":" +:+ Demo.quoted "Spacing" +:+ ","
  +:+ Demo.quoted "flashcards" +:+ ":[null]}".

(** [card] after [n] reviews in a row with grade 5, all at [Demo.now]. *)
Fixpoint reviewedInARow (n : nat) (card : Flashcard.t) : Outcome Flashcard.t :=
  match n with
  | O => Returned card
  | S n' =>
      match reviewedInARow n' card with
      | Returned reviewed =>
          applySm2Review_call (H := Utc.host) Demo.now reviewed (of_Z 5)
      | Threw error => Threw error
      end
  end.

(** [fresh] after fifteen such reviews. *)
Definition seasoned : Flashcard.t :=
  match reviewedInARow 15 fresh with
  | Returned card => card
  | Threw _ => fresh
  end.

(** A store that holds [seasoned] and nothing else. *)
Definition seasonedStore : Store.t :=
  {| Store.lessons := Some [];
     Store.flashcards := Some [seasoned];
     Store.stats := Some defaultStats;
     Store.lastGeneratedAt := None |}.

End DemoRun.
(** * Properties *)

(** ** Number literals and rounding, evaluated *)

Example decimal_1_3 : decimal 13 1 = S754_finite false 5854679515581645 (-52).
Proof. vm_compute. reflexivity. Qed.

Example round_half_up : Math_round (decimal 25 1) = of_Z 3.
Proof. vm_compute. reflexivity. Qed.

Example round_half_up_neg : Math_round (decimal (-25) 1) = of_Z (-2).
Proof. vm_compute. reflexivity. Qed.

Example add_25_01 : add (decimal 25 1) (decimal 1 1) = decimal 26 1.
Proof. vm_compute. reflexivity. Qed.


Example utc_iso :
  Utc.toISOString (Utc.addDays (Utc.parse "2024-03-01") (of_Z (-1)))
  = "2024-02-29T00:00:00.000Z".
Proof. vm_compute. reflexivity. Qed.

Example utc_iso_time :
  Utc.toISOString (Utc.addDays 1730678400123 (of_Z 6))
  = "2024-11-10T00:00:00.123Z".
Proof. vm_compute. reflexivity. Qed.

(** ** Facts about binary64 arithmetic *)

Section FloatFacts.

Lemma digits2_pos_size (p : positive) : digits2_pos p = Pos.size p.
Proof. induction p; simpl; congruence. Qed.

Lemma digits2_pos_upper (p : positive) : Z.pos p < 2 ^ Z.pos (digits2_pos p).
Proof.
  rewrite digits2_pos_size.
  pose proof (Pos.size_gt p) as Hgt.
  apply Pos2Z.pos_lt_pos in Hgt.
  now rewrite Pos2Z.inj_pow in Hgt.
Qed.

Lemma digits2_pos_lower (p : positive) : 2 ^ (Z.pos (digits2_pos p) - 1) <= Z.pos p.
Proof.
  rewrite digits2_pos_size.
  pose proof (Pos.size_le p) as Hle.
  apply Pos2Z.pos_le_pos in Hle.
  rewrite Pos2Z.inj_pow in Hle.
  change (Z.pos p~0) with (2 * Z.pos p) in Hle.
  replace (Z.pos (Pos.size p)) with (Z.succ (Z.pos (Pos.size p) - 1)) in Hle
    by lia.
  rewrite Z.pow_succ_r in Hle by lia.
  lia.
Qed.

(** The number of binary digits is bounded by any power of two above
    the number. *)
Lemma Zdigits2_le (m k : Z) : 0 <= k -> Z.abs m < 2 ^ k -> Zdigits2 m <= k.
Proof.
  intros Hk Hm.
  destruct m as [|p|p]; simpl in *; try lia.
  - destruct (Z_lt_le_dec k (Z.pos (digits2_pos p))) as [Hlt|]; [|lia].
    pose proof (digits2_pos_lower p) as Hlow.
    assert (2 ^ k <= 2 ^ (Z.pos (digits2_pos p) - 1))
      by (apply Z.pow_le_mono_r; lia).
    lia.
  - destruct (Z_lt_le_dec k (Z.pos (digits2_pos p))) as [Hlt|]; [|lia].
    pose proof (digits2_pos_lower p) as Hlow.
    assert (2 ^ k <= 2 ^ (Z.pos (digits2_pos p) - 1))
      by (apply Z.pow_le_mono_r; lia).
    lia.
Qed.

Lemma Zdigits2_upper (m : Z) : Z.abs m < 2 ^ Zdigits2 m.
Proof.
  destruct m as [|p|p]; simpl; try lia; apply digits2_pos_upper.
Qed.

Lemma Zdigits2_nonneg (m : Z) : 0 <= Zdigits2 m.
Proof. destruct m; simpl; lia. Qed.

(** *** Right shifts *)

Lemma shr_1_m (mrs : shr_record) :
  0 <= shr_m mrs -> shr_m (shr_1 mrs) = shr_m mrs / 2.
Proof.
  destruct mrs as [m r s]; simpl.
  destruct m as [|[p|p|]|p]; simpl; intros Hm; try lia.
  all: try reflexivity.
  - apply Z.div_unique with (r := 1); lia.
  - apply Z.div_unique with (r := 0); lia.
Qed.

Lemma iter_shr_1_m (p : positive) : forall mrs : shr_record,
  0 <= shr_m mrs ->
  shr_m (SpecFloat.iter_pos shr_1 p mrs) = shr_m mrs / 2 ^ Z.pos p.
Proof.
  induction p as [p IH|p IH|]; intros mrs Hm; simpl SpecFloat.iter_pos.
  - assert (H1 : 0 <= shr_m (shr_1 mrs))
      by (rewrite shr_1_m by lia; apply Z.div_pos; lia).
    assert (H2 : 0 <= shr_m (SpecFloat.iter_pos shr_1 p (shr_1 mrs)))
      by (rewrite IH by lia; apply Z.div_pos; lia).
    rewrite IH, IH, shr_1_m by lia.
    rewrite !Z.div_div by lia.
    f_equal. replace (Z.pos p~1) with (1 + Z.pos p + Z.pos p) by lia.
    rewrite !Z.pow_add_r by lia. change (2 ^ 1) with 2. ring.
  - assert (H2 : 0 <= shr_m (SpecFloat.iter_pos shr_1 p mrs))
      by (rewrite IH by lia; apply Z.div_pos; lia).
    rewrite IH, IH by lia.
    rewrite !Z.div_div by lia.
    f_equal. replace (Z.pos p~0) with (Z.pos p + Z.pos p) by lia.
    rewrite !Z.pow_add_r by lia. ring.
  - rewrite shr_1_m by lia. reflexivity.
Qed.

Lemma shr_record_of_loc_m (m : Z) (l : location) :
  shr_m (shr_record_of_loc m l) = m.
Proof. destruct l as [|[]]; reflexivity. Qed.

(** Shifting to the format's exponent keeps the mantissa non-negative
    and raises neither the magnitude nor the exponent above a bound they
    both met. *)
Lemma shr_fexp_bound (m e : Z) (l : location) (K : Z) :
  0 <= m -> Zdigits2 m + e <= K -> e <= K -> -1074 <= K ->
  0 <= shr_m (fst (shr_fexp prec emax m e l)) /\
  Zdigits2 (shr_m (fst (shr_fexp prec emax m e l)))
    + snd (shr_fexp prec emax m e l) <= K /\
  snd (shr_fexp prec emax m e l) <= K.
Proof.
  intros Hm HK He Hmin. unfold shr_fexp, shr.
  assert (Hfexp : fexp prec emax (Zdigits2 m + e) <= K)
    by (unfold fexp, SpecFloat.emin, prec, emax; lia).
  destruct (fexp prec emax (Zdigits2 m + e) - e) as [|n|n] eqn:Hn;
    cbn [fst snd].
  - rewrite shr_record_of_loc_m. lia.
  - pose proof (shr_record_of_loc_m m l) as Hrec.
    rewrite iter_shr_1_m by (rewrite Hrec; lia). rewrite Hrec.
    assert (Hdiv : 0 <= m / 2 ^ Z.pos n) by (apply Z.div_pos; lia).
    split; [exact Hdiv|]. split; [|lia].
    destruct (Z_lt_le_dec (Zdigits2 m) (Z.pos n)) as [Hsmall|Hbig].
    + assert (Hz : m / 2 ^ Z.pos n = 0).
      { apply Z.div_small. split; [lia|].
        pose proof (Zdigits2_upper m).
        assert (2 ^ Zdigits2 m <= 2 ^ Z.pos n)
          by (apply Z.pow_le_mono_r; lia).
        lia. }
      rewrite Hz. simpl. lia.
    + assert (Zdigits2 (m / 2 ^ Z.pos n) <= Zdigits2 m - Z.pos n).
      { apply Zdigits2_le; [lia|].
        rewrite Z.abs_eq by lia.
        apply Z.div_lt_upper_bound; [lia|].
        rewrite <- Z.pow_add_r by lia.
        replace (Z.pos n + (Zdigits2 m - Z.pos n)) with (Zdigits2 m) by lia.
        pose proof (Zdigits2_upper m). lia. }
      lia.
  - rewrite shr_record_of_loc_m. lia.
Qed.

Lemma round_nearest_even_bound (m : Z) (l : location) :
  0 <= m ->
  0 <= round_nearest_even m l /\
  Zdigits2 (round_nearest_even m l) <= Zdigits2 m + 1.
Proof.
  intros Hm.
  assert (Hcases : round_nearest_even m l = m \/ round_nearest_even m l = m + 1).
  { destruct l as [|[]]; simpl; auto. destruct (Z.even m); auto. }
  pose proof (Zdigits2_upper m) as Hup.
  pose proof (Zdigits2_nonneg m) as Hnn.
  assert (Hpow : 2 ^ (Zdigits2 m + 1) = 2 * 2 ^ Zdigits2 m)
    by (rewrite Z.pow_add_r by lia; change (2 ^ 1) with 2; ring).
  destruct Hcases as [-> | ->]; (split; [lia|]);
    apply Zdigits2_le; lia.
Qed.

(** Rounding a non-negative mantissa whose magnitude is well below the
    overflow threshold yields a zero or a finite number, at most one
    binade up. *)
Lemma binary_round_aux_mag (sx : bool) (m e : Z) (l : location) (K : Z) :
  0 <= m -> Zdigits2 m + e <= K -> e <= K -> -1074 <= K -> K <= 970 ->
  mag_le (K + 1) (binary_round_aux prec emax sx m e l).
Proof.
  intros Hm HK He Hmin Hmax. unfold binary_round_aux.
  pose proof (shr_fexp_bound m e l K Hm HK He Hmin) as (H1 & H2 & H3).
  destruct (shr_fexp prec emax m e l) as [mrs' e'] eqn:E1. cbn [fst snd] in *.
  pose proof (round_nearest_even_bound (shr_m mrs') (loc_of_shr_record mrs') H1)
    as (R1 & R2).
  set (m2 := round_nearest_even (shr_m mrs') (loc_of_shr_record mrs')) in *.
  pose proof (shr_fexp_bound m2 e' loc_Exact (K + 1) R1) as Hsecond.
  destruct (shr_fexp prec emax m2 e' loc_Exact) as [mrs'' e''] eqn:E2.
  cbn [fst snd] in *.
  destruct Hsecond as (S1 & S2 & S3); try lia.
  destruct (shr_m mrs'') as [|p|p] eqn:E3; simpl; try lia.
  assert (Hfexp2 : e'' <= 971).
  { clear - E2 H3 R2 H2 Hmin Hmax.
    unfold shr_fexp, shr in E2.
    destruct (fexp prec emax (Zdigits2 m2 + e') - e') as [|n|n] eqn:Hn;
      inversion E2; subst; try lia.
    unfold fexp, SpecFloat.emin, prec, emax in *. lia. }
  replace (e'' <=? emax - prec) with true
    by (symmetry; apply Z.leb_le; unfold emax, prec; lia).
  simpl in S2. simpl. lia.
Qed.

(** Rounding never produces NaN. *)
Lemma binary_round_aux_not_nan (sx : bool) (m e : Z) (l : location) :
  0 <= m -> binary_round_aux prec emax sx m e l <> S754_nan.
Proof.
  intros Hm. unfold binary_round_aux.
  assert (Hshr : forall m0 e0 l0, 0 <= m0 ->
            0 <= shr_m (fst (shr_fexp prec emax m0 e0 l0))).
  { intros m0 e0 l0 H0. unfold shr_fexp, shr.
    destruct (fexp prec emax (Zdigits2 m0 + e0) - e0) as [|n|n];
      cbn [fst]; rewrite ?shr_record_of_loc_m; try lia.
    rewrite iter_shr_1_m by (rewrite shr_record_of_loc_m; lia).
    rewrite shr_record_of_loc_m. apply Z.div_pos; lia. }
  pose proof (Hshr m e l Hm) as H1.
  destruct (shr_fexp prec emax m e l) as [mrs' e']. cbn [fst] in H1.
  pose proof (round_nearest_even_bound (shr_m mrs') (loc_of_shr_record mrs') H1)
    as (R1 & _).
  pose proof (Hshr _ e' loc_Exact R1) as H2.
  destruct (shr_fexp prec emax _ e' loc_Exact) as [mrs'' e'']. cbn [fst] in H2.
  destruct (shr_m mrs'') as [|p|p]; try lia; try discriminate.
  destruct (e'' <=? emax - prec); discriminate.
Qed.

(** *** Left alignment *)

Lemma digits2_pos_iter_xO (d m : positive) :
  Z.pos (digits2_pos (Pos.iter xO m d)) = Z.pos (digits2_pos m) + Z.pos d.
Proof.
  induction d as [|d IH] using Pos.peano_ind.
  - simpl. lia.
  - rewrite Pos.iter_succ. simpl digits2_pos. lia.
Qed.

Lemma shl_align_digits (mx : positive) (ex ex' : Z) :
  Z.pos (digits2_pos (fst (shl_align mx ex ex'))) + snd (shl_align mx ex ex')
  = Z.pos (digits2_pos mx) + ex.
Proof.
  unfold shl_align.
  destruct (ex' - ex) as [|d|d] eqn:Hd; cbn [fst snd]; try reflexivity.
  rewrite digits2_pos_iter_xO. lia.
Qed.

Lemma shl_align_exponent (mx : positive) (ex ex' : Z) :
  snd (shl_align mx ex ex') <= ex.
Proof.
  unfold shl_align.
  destruct (ex' - ex) as [|d|d] eqn:Hd; cbn [fst snd]; lia.
Qed.

Lemma shl_align_value (mx : positive) (ex ex' : Z) :
  ex' <= ex ->
  Z.pos (fst (shl_align mx ex ex')) = Z.pos mx * 2 ^ (ex - ex').
Proof.
  intros Hle. unfold shl_align.
  destruct (ex' - ex) as [|d|d] eqn:Hd; cbn [fst]; try lia.
  - replace (ex - ex') with 0 by lia. simpl. lia.
  - replace (ex - ex') with (Z.pos d) by lia.
    clear. induction d as [|d IH] using Pos.peano_ind.
    + simpl. lia.
    + rewrite Pos.iter_succ, Pos2Z.inj_succ, Z.pow_succ_r by lia.
      change (Z.pos (Pos.iter xO mx d)~0) with (2 * Z.pos (Pos.iter xO mx d)).
      rewrite IH. ring.
Qed.

Lemma binary_round_mag (sx : bool) (m : positive) (e K : Z) :
  Z.pos (digits2_pos m) + e <= K -> -1074 <= K -> K <= 970 ->
  mag_le (K + 1) (binary_round prec emax sx m e).
Proof.
  intros HK Hmin Hmax. unfold binary_round.
  pose proof (shl_align_digits m e
                (fexp prec emax (Z.pos (digits2_pos m) + e))) as Hd.
  destruct (shl_align m e (fexp prec emax (Z.pos (digits2_pos m) + e)))
    as [mz ez]. cbn [fst snd] in Hd.
  apply binary_round_aux_mag; simpl; lia.
Qed.

Lemma binary_normalize_mag (m e : Z) (sz : bool) (K : Z) :
  Zdigits2 m + e <= K -> -1074 <= K -> K <= 970 ->
  mag_le (K + 1) (binary_normalize prec emax m e sz).
Proof.
  intros HK Hmin Hmax.
  destruct m as [|p|p]; simpl in *; [exact I| |];
    apply binary_round_mag; assumption.
Qed.

Lemma binary_normalize_not_nan (m e : Z) (sz : bool) :
  binary_normalize prec emax m e sz <> S754_nan.
Proof.
  destruct m as [|p|p]; simpl; [discriminate| |]; unfold binary_round;
    destruct (shl_align p e _) as [mz ez];
    apply binary_round_aux_not_nan; lia.
Qed.

(** *** Magnitudes of products, sums and differences *)

Lemma mag_le_weaken (K K' : Z) (x : number) :
  K <= K' -> mag_le K x -> mag_le K' x.
Proof. destruct x; simpl; intros; try assumption; lia. Qed.

Lemma mul_mag (K1 K2 : Z) (x y : number) :
  mag_le K1 x -> mag_le K2 y ->
  -1074 <= K1 + K2 -> K1 + K2 <= 970 ->
  mag_le (K1 + K2 + 1) (mul x y).
Proof.
  destruct x as [sx|sx| |sx mx ex], y as [sy|sy| |sy my ey];
    simpl; try tauto.
  intros Hx Hy Hmin Hmax.
  apply binary_round_aux_mag; try lia.
  - apply Z.le_trans with (Z.pos (digits2_pos mx) + Z.pos (digits2_pos my) + (ex + ey)); [|lia].
    apply Z.add_le_mono_r.
    apply Zdigits2_le; [lia|].
    rewrite Z.abs_eq by lia. rewrite Pos2Z.inj_mul, Z.pow_add_r by lia.
    pose proof (digits2_pos_upper mx). pose proof (digits2_pos_upper my).
    nia.
Qed.

Lemma shl_align_snd (mx : positive) (ex ez : Z) :
  ez <= ex -> snd (shl_align mx ex ez) = ez.
Proof.
  intros Hle. unfold shl_align.
  destruct (ez - ex) as [|d|d] eqn:Hd; cbn [snd]; lia.
Qed.

Lemma aligned_upper (mx : positive) (ex ez K : Z) :
  ez <= ex -> Z.pos (digits2_pos mx) + ex <= K ->
  Z.pos (fst (shl_align mx ex ez)) < 2 ^ (K - ez).
Proof.
  intros Hle HK.
  pose proof (shl_align_digits mx ex ez) as Hd.
  rewrite shl_align_snd in Hd by assumption.
  pose proof (digits2_pos_upper (fst (shl_align mx ex ez))) as Hup.
  assert (2 ^ Z.pos (digits2_pos (fst (shl_align mx ex ez))) <= 2 ^ (K - ez))
    by (apply Z.pow_le_mono_r; lia).
  lia.
Qed.

Lemma sum_mag (sx sy : bool) (mx my : positive) (ex ey K1 K2 : Z) (neg : bool) :
  Z.pos (digits2_pos mx) + ex <= K1 ->
  Z.pos (digits2_pos my) + ey <= K2 ->
  -1074 <= Z.max K1 K2 + 1 -> Z.max K1 K2 + 1 <= 970 ->
  let ez := Z.min ex ey in
  let a := cond_Zopp sx (Z.pos (fst (shl_align mx ex ez))) in
  let b := cond_Zopp sy (Z.pos (fst (shl_align my ey ez))) in
  mag_le (Z.max K1 K2 + 2)
    (binary_normalize prec emax (if neg then a - b else a + b) ez false).
Proof.
  intros Hx Hy Hmin Hmax ez a b.
  replace (Z.max K1 K2 + 2) with (Z.max K1 K2 + 1 + 1) by lia.
  apply binary_normalize_mag; try assumption.
  assert (Ha : Z.abs a < 2 ^ (Z.max K1 K2 - ez)).
  { subst a. apply Z.lt_le_trans with (2 ^ (K1 - ez)).
    - destruct sx; simpl; apply aligned_upper; subst ez; lia.
    - apply Z.pow_le_mono_r; lia. }
  assert (Hb : Z.abs b < 2 ^ (Z.max K1 K2 - ez)).
  { subst b. apply Z.lt_le_trans with (2 ^ (K2 - ez)).
    - destruct sy; simpl; apply aligned_upper; subst ez; lia.
    - apply Z.pow_le_mono_r; lia. }
  assert (Hpos : 0 <= Z.max K1 K2 - ez).
  { pose proof (Pos2Z.is_pos (digits2_pos mx)). subst ez. lia. }
  assert (Hpow : 2 ^ (Z.max K1 K2 + 1 - ez) = 2 * 2 ^ (Z.max K1 K2 - ez)).
  { replace (Z.max K1 K2 + 1 - ez) with (Z.succ (Z.max K1 K2 - ez)) by lia.
    apply Z.pow_succ_r. assumption. }
  assert (Zdigits2 (if neg then a - b else a + b) <= Z.max K1 K2 + 1 - ez).
  { apply Zdigits2_le; [lia|]. rewrite Hpow. destruct neg; lia. }
  lia.
Qed.

Lemma add_mag (K1 K2 : Z) (x y : number) :
  mag_le K1 x -> mag_le K2 y ->
  -1074 <= Z.max K1 K2 + 1 -> Z.max K1 K2 + 1 <= 970 ->
  mag_le (Z.max K1 K2 + 2) (add x y).
Proof.
  destruct x as [sx|sx| |sx mx ex], y as [sy|sy| |sy my ey];
    simpl; try tauto; intros Hx Hy Hmin Hmax.
  - destruct sx, sy; exact I.
  - lia.
  - lia.
  - apply (sum_mag sx sy mx my ex ey K1 K2 false); assumption.
Qed.

Lemma sub_mag (K1 K2 : Z) (x y : number) :
  mag_le K1 x -> mag_le K2 y ->
  -1074 <= Z.max K1 K2 + 1 -> Z.max K1 K2 + 1 <= 970 ->
  mag_le (Z.max K1 K2 + 2) (sub x y).
Proof.
  destruct x as [sx|sx| |sx mx ex], y as [sy|sy| |sy my ey];
    simpl; try tauto; intros Hx Hy Hmin Hmax.
  - destruct sx, sy; exact I.
  - lia.
  - lia.
  - apply (sum_mag sx sy mx my ex ey K1 K2 true); assumption.
Qed.

Lemma mag_le_not_nan (K : Z) (x : number) : mag_le K x -> x <> S754_nan.
Proof. destruct x; simpl; intros; try discriminate; tauto. Qed.

(** A sum is NaN only if an operand is, or if the operands are
    infinities of opposite signs. *)
Lemma add_not_nan_finite (x y : number) (K : Z) :
  x <> S754_nan -> mag_le K y -> add x y <> S754_nan.
Proof.
  destruct x as [sx|sx| |sx mx ex], y as [sy|sy| |sy my ey];
    simpl; try tauto; try discriminate; intros Hx Hy.
  - destruct sx, sy; discriminate.
  - apply binary_normalize_not_nan.
Qed.

(** *** Comparison *)

Lemma SFcompare_antisym (x y : number) :
  SFcompare y x = CompOpp <$> SFcompare x y.
Proof.
  destruct x as [sx|sx| |sx mx ex], y as [sy|sy| |sy my ey]; simpl;
    try reflexivity;
    try (destruct sx; reflexivity); try (destruct sy; reflexivity);
    try (destruct sx, sy; reflexivity).
  destruct sx, sy; simpl; try reflexivity.
  - rewrite (Z.compare_antisym ey ex).
    destruct (ey ?= ex); simpl; try reflexivity.
    change (Pos.compare_cont Eq mx my) with (Pos.compare mx my).
    change (Pos.compare_cont Eq my mx) with (Pos.compare my mx).
    rewrite (Pos.compare_antisym my mx).
    destruct (my ?= mx)%positive; reflexivity.
  - rewrite (Z.compare_antisym ey ex).
    destruct (ey ?= ex); simpl; try reflexivity.
    change (Pos.compare_cont Eq mx my) with (Pos.compare mx my).
    change (Pos.compare_cont Eq my mx) with (Pos.compare my mx).
    rewrite (Pos.compare_antisym my mx).
    destruct (my ?= mx)%positive; reflexivity.
Qed.

Lemma SFcompare_refl (x : number) : x <> S754_nan -> SFcompare x x = Some Eq.
Proof.
  destruct x as [sx|sx| |sx mx ex]; simpl; intros Hx; try congruence.
  - destruct sx; reflexivity.
  - destruct sx; rewrite Z.compare_refl;
      change (Pos.compare_cont Eq mx mx) with (Pos.compare mx mx);
      rewrite Pos.compare_refl; reflexivity.
Qed.

Lemma SFcompare_not_nan (x y : number) :
  x <> S754_nan -> y <> S754_nan -> SFcompare x y <> None.
Proof.
  destruct x, y; simpl; congruence.
Qed.

Lemma le_not_nan_l (x y : number) : le x y = true -> x <> S754_nan.
Proof. destruct x; simpl; discriminate. Qed.

Lemma le_not_nan_r (x y : number) : le x y = true -> y <> S754_nan.
Proof.
  destruct y; try discriminate. unfold le, SFleb.
  destruct x; simpl; discriminate.
Qed.

(** On numbers that are not NaN, [x < y] fails exactly when [y <= x]. *)
Lemma lt_false_le (x y : number) :
  x <> S754_nan -> y <> S754_nan -> lt x y = false -> le y x = true.
Proof.
  intros Hx Hy. unfold lt, le, SFltb, SFleb.
  rewrite (SFcompare_antisym x y).
  pose proof (SFcompare_not_nan x y Hx Hy).
  destruct (SFcompare x y) as [[]|]; simpl; congruence.
Qed.

Lemma le_lt_false (x y : number) : le y x = true -> lt x y = false.
Proof.
  unfold lt, le, SFltb, SFleb.
  rewrite (SFcompare_antisym x y).
  destruct (SFcompare x y) as [[]|]; simpl; congruence.
Qed.

Lemma lt_le_false (x y : number) : lt x y = true -> le y x = false.
Proof.
  unfold lt, le, SFltb, SFleb.
  rewrite (SFcompare_antisym x y).
  destruct (SFcompare x y) as [[]|]; simpl; congruence.
Qed.

Lemma SFcompare_Eq_finite (s1 s2 : bool) (m1 m2 : positive) (e1 e2 : Z) :
  SFcompare (S754_finite s1 m1 e1) (S754_finite s2 m2 e2) = Some Eq ->
  S754_finite s1 m1 e1 = S754_finite s2 m2 e2.
Proof.
  simpl. destruct s1, s2; try discriminate;
    destruct (e1 ?= e2) eqn:He; try discriminate;
    apply Z.compare_eq in He; subst;
    change (Pos.compare_cont Eq m1 m2) with (Pos.compare m1 m2);
    destruct (m1 ?= m2)%positive eqn:Hm; try discriminate;
    apply Pos.compare_eq in Hm; subst; reflexivity.
Qed.

(** Two numbers that compare equal are the same number, unless both
    are zeros. *)
Lemma SFcompare_Eq (x y : number) :
  SFcompare x y = Some Eq ->
  x = y \/ (exists sx sy, x = S754_zero sx /\ y = S754_zero sy).
Proof.
  destruct x as [sx|sx| |sx mx ex], y as [sy|sy| |sy my ey];
    try (simpl; discriminate);
    try (simpl; destruct sx; discriminate);
    try (simpl; destruct sy; discriminate).
  - right. eauto.
  - simpl. destruct sx, sy; try discriminate; auto.
  - intros Heq. left. now apply SFcompare_Eq_finite.
Qed.

(** *** [Math.max] and [Math.min] *)

Lemma Math_max_lower (x y : number) :
  x <> S754_nan -> y <> S754_nan -> le x (Math_max x y) = true.
Proof.
  intros Hx Hy. unfold Math_max.
  pose proof (SFcompare_not_nan x y Hx Hy) as Hc.
  pose proof (SFcompare_refl x Hx) as Hr.
  assert (Hxx : le x x = true) by (unfold le, SFleb; now rewrite Hr).
  destruct (SFcompare x y) as [[]|] eqn:E; try congruence.
  - assert (Hxy : le x y = true) by (unfold le, SFleb; now rewrite E).
    destruct x as [[]| | |], y; try congruence.
  - assert (Hxy : le x y = true) by (unfold le, SFleb; now rewrite E).
    destruct x, y; congruence.
  - destruct x, y; congruence.
Qed.

Lemma Math_max_right (x y : number) :
  le x y = true ->
  Math_max x y = y \/ (exists sx sy, x = S754_zero sx /\ y = S754_zero sy).
Proof.
  intros Hle.
  pose proof (le_not_nan_l _ _ Hle) as Hx.
  pose proof (le_not_nan_r _ _ Hle) as Hy.
  unfold le, SFleb in Hle. unfold Math_max.
  destruct (SFcompare x y) as [[]|] eqn:E; try discriminate.
  - destruct (SFcompare_Eq _ _ E) as [->|Hz]; [|now right].
    left. destruct y as [[]| | |]; congruence.
  - left. destruct x, y; congruence.
Qed.

Lemma Math_min_right (x y : number) :
  le y x = true ->
  Math_min x y = y \/ (exists sx sy, x = S754_zero sx /\ y = S754_zero sy).
Proof.
  intros Hle.
  pose proof (le_not_nan_l _ _ Hle) as Hy.
  pose proof (le_not_nan_r _ _ Hle) as Hx.
  unfold le, SFleb in Hle. rewrite (SFcompare_antisym x y) in Hle.
  unfold Math_min.
  destruct (SFcompare x y) as [[]|] eqn:E; try discriminate.
  - destruct (SFcompare_Eq _ _ E) as [->|Hz]; [|now right].
    left. destruct y as [[]| | |]; congruence.
  - left. destruct x, y; congruence.
Qed.

End FloatFacts.

(** ** The SM-2 engine *)

Section Sm2Facts.

Context `{HostDate}.

(** A grade within [0, 5] is its own clamp, except that [-0] becomes
    [0]. *)
Lemma clampGrade_in_range (grade : number) :
  le (of_Z 0) grade = true -> le grade (of_Z 5) = true ->
  clampGrade grade = grade \/ exists s, grade = S754_zero s.
Proof.
  intros H0 H5. unfold clampGrade.
  destruct (Math_min_right (of_Z 5) grade H5) as [-> | (sx & sy & E & _)];
    [|vm_compute in E; discriminate].
  destruct (Math_max_right (of_Z 0) grade H0) as [-> | (sx & sy & _ & E)];
    eauto.
Qed.

Lemma clampGrade_zero (s : bool) : clampGrade (S754_zero s) = of_Z 0.
Proof. destruct s; vm_compute; reflexivity. Qed.

(** A binary64 grade within [0, 5] is below [2^3]. *)
Lemma grade_mag (grade : number) :
  is_double grade = true ->
  le (of_Z 0) grade = true -> le grade (of_Z 5) = true ->
  mag_le 3 grade.
Proof.
  destruct grade as [s|s| |s m e]; intros Hd H0 H5; simpl.
  - exact I.
  - destruct s; vm_compute in H0, H5; discriminate.
  - vm_compute in H0. discriminate.
  - destruct s; [vm_compute in H0; discriminate|].
    unfold is_double, valid_binary, bounded, canonical_mantissa in Hd.
    apply andb_prop in Hd as [Hc _]. apply Z.eqb_eq in Hc.
    unfold fexp, SpecFloat.emin, prec, emax in Hc.
    assert (He : e <= -50).
    { unfold le, SFleb, of_Z in H5.
      change (binary_normalize prec emax 5 0 false)
        with (S754_finite false 5629499534213120 (-50)) in H5.
      unfold SFcompare in H5. destruct (e ?= -50) eqn:Ecmp; try discriminate.
      - apply Z.compare_eq in Ecmp. lia.
      - pose proof (proj1 (Z.compare_lt_iff _ _) Ecmp). lia. }
    lia.
Qed.

Lemma clampGrade_mag (grade : number) :
  is_double grade = true ->
  le (of_Z 0) grade = true -> le grade (of_Z 5) = true ->
  mag_le 3 (clampGrade grade).
Proof.
  intros Hd H0 H5.
  destruct (clampGrade_in_range grade H0 H5) as [-> | [s ->]].
  - now apply grade_mag.
  - rewrite clampGrade_zero. exact I.
Qed.

(** The ease adjustment [0.1 - (5 - g) * (0.08 + (5 - g) * 0.02)] of a
    clamped grade is a finite number. *)
Lemma easeDelta_mag (g : number) :
  mag_le 3 g ->
  mag_le 11
    (sub (decimal 1 1)
       (mul (sub (of_Z 5) g)
          (add (decimal 8 2) (mul (sub (of_Z 5) g) (decimal 2 2))))).
Proof.
  intros Hg.
  assert (H5 : mag_le 3 (of_Z 5)) by (vm_compute; discriminate).
  assert (H002 : mag_le (-5) (decimal 2 2)) by (vm_compute; discriminate).
  assert (H008 : mag_le (-3) (decimal 8 2)) by (vm_compute; discriminate).
  assert (H01 : mag_le (-3) (decimal 1 1)) by (vm_compute; discriminate).
  pose proof (sub_mag 3 3 _ _ H5 Hg ltac:(lia) ltac:(lia)) as Hd.
  simpl Z.add in Hd. change (Z.max 3 3 + 2) with 5 in Hd.
  pose proof (mul_mag 5 (-5) _ _ Hd H002 ltac:(lia) ltac:(lia)) as Ht1.
  change (5 + -5 + 1) with 1 in Ht1.
  pose proof (add_mag (-3) 1 _ _ H008 Ht1 ltac:(lia) ltac:(lia)) as Ht2.
  change (Z.max (-3) 1 + 2) with 3 in Ht2.
  pose proof (mul_mag 5 3 _ _ Hd Ht2 ltac:(lia) ltac:(lia)) as Ht3.
  change (5 + 3 + 1) with 9 in Ht3.
  pose proof (sub_mag (-3) 9 _ _ H01 Ht3 ltac:(lia) ltac:(lia)) as Ht4.
  exact Ht4.
Qed.

(** An ease factor of at least 1.3 is truthy, so that the default does
    not replace it. *)
Lemma ease_ge_truthy (e : number) :
  le (decimal 13 1) e = true -> truthy e = true.
Proof.
  destruct e as [s|s| |s m ex]; try reflexivity.
  - destruct s; vm_compute; discriminate.
  - vm_compute. discriminate.
Qed.

(** The fields the review computes, branch by branch. *)
Lemma applySm2Review_fail (now : Date) (card : Flashcard.t) (grade : number) :
  lt (clampGrade grade) (of_Z 3) = true ->
  Flashcard.repetitions (applySm2Review now card grade) = Some (of_Z 0) /\
  Flashcard.interval (applySm2Review now card grade) = Some (of_Z 1) /\
  Flashcard.easeFactor (applySm2Review now card grade)
    = Some (priorEaseFactor card).
Proof.
  intros Hlt. unfold applySm2Review. fold (clampGrade grade).
  rewrite Hlt. cbn. auto.
Qed.

Lemma applySm2Review_pass (now : Date) (card : Flashcard.t) (grade : number) :
  lt (clampGrade grade) (of_Z 3) = false ->
  Flashcard.interval (applySm2Review now card grade)
    = Some (if strict_eq (priorRepetitions card) (of_Z 0) then of_Z 1
            else if strict_eq (priorRepetitions card) (of_Z 1) then of_Z 6
            else Math_round (mul (priorInterval card) (priorEaseFactor card))) /\
  Flashcard.repetitions (applySm2Review now card grade)
    = Some (add (priorRepetitions card) (of_Z 1)) /\
  Flashcard.easeFactor (applySm2Review now card grade)
    = Some (Math_max (decimal 13 1)
              (add (priorEaseFactor card)
                 (sub (decimal 1 1)
                    (mul (sub (of_Z 5) (clampGrade grade))
                       (add (decimal 8 2)
                          (mul (sub (of_Z 5) (clampGrade grade))
                             (decimal 2 2))))))).
Proof.
  intros Hlt. unfold applySm2Review. fold (clampGrade grade).
  rewrite Hlt. cbn. auto.
Qed.

(** The card a review builds, for a grade in [0, 5].  A clamped grade
    below 3 resets repetitions to 0 and the interval to 1 whatever the
    prior state.  A clamped grade of at least 3 sets the interval to 1
    when the prior repetitions are 0, to 6 when they are 1 and to
    round(prior interval x prior ease factor) otherwise, adds 1 to the
    repetitions, and sets the ease factor to
    max(1.3, ease + (0.1 - (5 - grade) x (0.08 + (5 - grade) x 0.02))).
    The prior state is the card's after its lazily applied defaults.
    Whether the call returns that card is [applySm2Review_call]'s
    matter: it does when the due date of the card is a date. *)
Lemma applySm2Review_sm2_postcondition
    (now : Date) (card : Flashcard.t) (grade : number) :
  le (of_Z 0) grade = true -> le grade (of_Z 5) = true ->
  let updated := applySm2Review now card grade in
  (lt (clampGrade grade) (of_Z 3) = true \/
   le (of_Z 3) (clampGrade grade) = true) /\
  (lt (clampGrade grade) (of_Z 3) = true ->
     Flashcard.repetitions updated = Some (of_Z 0) /\
     Flashcard.interval updated = Some (of_Z 1)) /\
  (le (of_Z 3) (clampGrade grade) = true ->
     Flashcard.interval updated
       = Some (if strict_eq (priorRepetitions card) (of_Z 0) then of_Z 1
               else if strict_eq (priorRepetitions card) (of_Z 1) then of_Z 6
               else Math_round
                      (mul (priorInterval card) (priorEaseFactor card))) /\
     Flashcard.repetitions updated
       = Some (add (priorRepetitions card) (of_Z 1)) /\
     Flashcard.easeFactor updated
       = Some (Math_max (decimal 13 1)
                 (add (priorEaseFactor card)
                    (sub (decimal 1 1)
                       (mul (sub (of_Z 5) grade)
                          (add (decimal 8 2)
                             (mul (sub (of_Z 5) grade) (decimal 2 2)))))))) /\
  (grade = of_Z 5 ->
   Flashcard.interval card = Some (of_Z 6) ->
   Flashcard.easeFactor card = Some (decimal 25 1) ->
   Flashcard.repetitions card = Some (of_Z 2) ->
     Flashcard.interval updated = Some (of_Z 15) /\
     Flashcard.repetitions updated = Some (of_Z 3) /\
     Flashcard.easeFactor updated = Some (decimal 26 1)).
Proof.
  intros H0 H5 updated. subst updated.
  assert (Hclamp : clampGrade grade <> S754_nan).
  { destruct (clampGrade_in_range grade H0 H5) as [-> | [s ->]].
    - eapply le_not_nan_r; eassumption.
    - rewrite clampGrade_zero. vm_compute. discriminate. }
  assert (H3 : of_Z 3 <> S754_nan) by (vm_compute; discriminate).
  split; [|split; [|split]].
  - destruct (lt (clampGrade grade) (of_Z 3)) eqn:Hlt; [now left|right].
    now apply lt_false_le.
  - intros Hlt.
    destruct (applySm2Review_fail now card grade Hlt) as (Hr & Hi & _).
    now split.
  - intros Hge.
    pose proof (applySm2Review_pass now card grade (le_lt_false _ _ Hge))
      as (Hi & Hr & Hease).
    split; [exact Hi|]. split; [exact Hr|].
    destruct (clampGrade_in_range grade H0 H5) as [Heq | [s ->]].
    + now rewrite Heq in Hease.
    + rewrite clampGrade_zero in Hge. vm_compute in Hge. discriminate.
  - intros -> Hi He Hr. unfold applySm2Review. rewrite Hi, He, Hr.
    vm_compute. auto.
Qed.

(** The ease factor after a review is at least 1.3 when it was before,
    or was absent. *)
Lemma applySm2Review_ease (now : Date) (card : Flashcard.t) (grade : number) :
  match Flashcard.easeFactor card with
  | Some e => le (decimal 13 1) e = true
  | None => True
  end ->
  is_double grade = true ->
  le (of_Z 0) grade = true -> le grade (of_Z 5) = true ->
  exists e', Flashcard.easeFactor (applySm2Review now card grade) = Some e' /\
             le (decimal 13 1) e' = true.
Proof.
  intros Hease Hd H0 H5.
  assert (Hprior : le (decimal 13 1) (priorEaseFactor card) = true).
  { unfold priorEaseFactor, or_else.
    destruct (Flashcard.easeFactor card) as [e|]; [|vm_compute; reflexivity].
    now rewrite (ease_ge_truthy e Hease). }
  destruct (lt (clampGrade grade) (of_Z 3)) eqn:Hlt.
  - destruct (applySm2Review_fail now card grade Hlt) as (_ & _ & ->). eauto.
  - destruct (applySm2Review_pass now card grade Hlt) as (_ & _ & ->).
    eexists; split; [reflexivity|].
    apply Math_max_lower; [vm_compute; discriminate|].
    eapply add_not_nan_finite.
    + eapply le_not_nan_r; eassumption.
    + apply easeDelta_mag. now apply clampGrade_mag.
Qed.

End Sm2Facts.

(** ** The fallback orchestrator *)

Section OrchestratorFacts.

Context {World : Type} `{HostBackends World} `{HostDate}.

Lemma attempt_unknown (backend : string) (context : Context.t) (w : World) :
  knownBackend backend = false -> attempt backend context w = None.
Proof.
  unfold knownBackend, attempt. intros Hk.
  apply orb_false_elim in Hk as [Hk Hp].
  apply orb_false_elim in Hk as [Hg Ho].
  now rewrite Hg, Ho, Hp.
Qed.

Lemma attempt_known (backend : string) (context : Context.t) (w : World) :
  knownBackend backend = true -> attempt backend context w <> None.
Proof.
  unfold knownBackend, attempt. intros Hk.
  destruct (String.eqb backend "gemini"); [discriminate|].
  destruct (String.eqb backend "ollama"); [discriminate|].
  destruct (String.eqb backend "promptApi"); [discriminate|].
  discriminate.
Qed.

(** Backends that all fail are gone through without a result; the loop
    goes on with what follows them. *)
Lemma loop_after_failures (context : Context.t) (pre : list string)
    (w : World) (failed : list ErrorRecord.t) (w1 : World) :
  AllFail context pre w failed w1 ->
  forall rest errors,
    executeWithFallback_loop (pre ++ rest) context errors w
    = executeWithFallback_loop rest context (errors ++ failed) w1.
Proof.
  induction 1 as [w|backend pre w error w' failed w'' Hattempt _ IH
                   |backend pre w failed w'' Hattempt _ IH];
    intros rest errors; simpl.
  - now rewrite app_nil_r.
  - rewrite Hattempt, IH. now rewrite <- app_assoc.
  - now rewrite Hattempt, IH.
Qed.

Lemma loop_all_fail (context : Context.t) (order : list string)
    (w : World) (failed : list ErrorRecord.t) (w' : World) :
  AllFail context order w failed w' ->
  forall errors,
    executeWithFallback_loop order context errors w
    = (None, errors ++ failed, w').
Proof.
  intros Hfail errors.
  rewrite <- (app_nil_r order).
  now rewrite (loop_after_failures _ _ _ _ _ Hfail).
Qed.

Lemma loop_first_success (context : Context.t) (pre : list string)
    (backend : string) (post : list string) (w : World)
    (failed : list ErrorRecord.t) (w1 w2 : World) (result : LessonResult.t) :
  AllFail context pre w failed w1 ->
  attempt backend context w1 = Some (Returned result, w2) ->
  forall errors,
    executeWithFallback_loop (pre ++ backend :: post) context errors w
    = (Some result, errors ++ failed, w2).
Proof.
  intros Hfail Hok errors.
  rewrite (loop_after_failures _ _ _ _ _ Hfail). simpl. now rewrite Hok.
Qed.

(** Every run is of one of two kinds: some backend is the first to
    succeed, or all fail. *)
Lemma run_cases (context : Context.t) (order : list string) :
  forall w : World,
    (exists pre backend post failed w1 result w2,
        order = pre ++ backend :: post /\
        AllFail context pre w failed w1 /\
        attempt backend context w1 = Some (Returned result, w2))
    \/ (exists failed w', AllFail context order w failed w').
Proof.
  induction order as [|backend rest IH]; intros w.
  - right. exists [], w. constructor.
  - destruct (attempt backend context w) as [[[result|error] w']|] eqn:Hattempt.
    + left. exists [], backend, rest, [], w, result, w'.
      repeat split; [constructor|exact Hattempt].
    + destruct (IH w') as
        [(pre & b & post & failed & w1 & result & w2 & -> & Hfail & Hok)
        |(failed & w'' & Hfail)].
      * left. exists (backend :: pre), b, post.
        eexists _, w1, result, w2. repeat split; [|exact Hok].
        eapply AllFail_threw; eassumption.
      * right. eexists _, w''. eapply AllFail_threw; eassumption.
    + destruct (IH w) as
        [(pre & b & post & failed & w1 & result & w2 & -> & Hfail & Hok)
        |(failed & w'' & Hfail)].
      * left. exists (backend :: pre), b, post.
        exists failed, w1, result, w2. repeat split; [|exact Hok].
        now apply AllFail_unknown.
      * right. exists failed, w''. now apply AllFail_unknown.
Qed.

(** Failure records come one per failed backend, in the order of the
    list. *)
Lemma AllFail_backends (context : Context.t) (order : list string)
    (w : World) (failed : list ErrorRecord.t) (w' : World) :
  AllFail context order w failed w' ->
  ErrorRecord.backend <$> failed
  = filter (fun b => knownBackend b = true) order.
Proof.
  induction 1 as [w|backend pre w error w' failed w'' Hattempt _ IH
                   |backend pre w failed w'' Hattempt _ IH]; simpl.
  - reflexivity.
  - rewrite filter_cons. destruct (decide (knownBackend backend = true)) as [|Hn].
    + now rewrite <- IH.
    + apply not_true_is_false in Hn.
      rewrite (attempt_unknown _ _ _ Hn) in Hattempt. discriminate.
  - rewrite filter_cons. destruct (decide (knownBackend backend = true)) as [Hk|].
    + now apply attempt_known with (context := context) (w := w) in Hk.
    + exact IH.
Qed.

(** C3. The orchestrator tries the backends in list order.  When the
    backends before one all fail or are passed over and that one
    succeeds, its result is returned at once: the failures before it
    have been recorded as [{backend, errorMessage}] in order, and the
    world is left as the successful call left it, so that no later
    backend has been called.  Every run either has such a first
    success or fails throughout.  A preference that is empty or not an
    array stands for [gemini, ollama, promptApi]. *)
Theorem executeWithFallback_first_success
    (context : Context.t) (now : Date) (w : World) :
  (forall pre backend post failed w1 result w2,
      AllFail context pre w failed w1 ->
      attempt backend context w1 = Some (Returned result, w2) ->
      executeWithFallback_loop (pre ++ backend :: post) context [] w
        = (Some result, failed, w2) /\
      executeWithFallback (Some (pre ++ backend :: post)) context now w
        = (result, w2)) /\
  (forall order,
      (exists pre backend post failed w1 result w2,
          order = pre ++ backend :: post /\
          AllFail context pre w failed w1 /\
          attempt backend context w1 = Some (Returned result, w2))
      \/ (exists failed w', AllFail context order w failed w')) /\
  executeWithFallback None context now w
    = executeWithFallback (Some ["gemini"; "ollama"; "promptApi"]) context now w /\
  executeWithFallback (Some []) context now w
    = executeWithFallback (Some ["gemini"; "ollama"; "promptApi"]) context now w.
Proof.
  split; [|split; [|split]].
  - intros pre backend post failed w1 result w2 Hfail Hok.
    pose proof (loop_first_success context pre backend post w failed w1 w2
                  result Hfail Hok []) as Hloop.
    split; [exact Hloop|].
    unfold executeWithFallback.
    replace (preferenceOrderOf (Some (pre ++ backend :: post)))
      with (pre ++ backend :: post) by (destruct pre; reflexivity).
    now rewrite Hloop.
  - intros order. apply run_cases.
  - reflexivity.
  - reflexivity.
Qed.

(** What the offline lesson holds as flashcards. *)
Lemma buildOfflineFallbackLesson_flashcards (context : Context.t)
    (errors : list ErrorRecord.t) (now : Date) :
  let cards :=
    LessonResult.flashcards (buildOfflineFallbackLesson context errors now) in
  (1 <= length cards <= 5)%nat /\
  (Context.dueFlashcards context = [] ->
     cards = [selfCheckCard
                (JsString.or_else (Settings.topic (Context.settings context))
                   "Independent learning")]) /\
  (Context.dueFlashcards context <> [] ->
     cards = questionAndAnswer <$> take 5 (Context.dueFlashcards context)).
Proof.
  unfold buildOfflineFallbackLesson. cbn [LessonResult.flashcards].
  destruct (Context.dueFlashcards context) as [|card due] eqn:Hdue.
  - simpl. repeat split; [lia|lia|congruence].
  - cbn [take fmap list_fmap]. repeat split.
    + simpl. lia.
    + change (S (length (questionAndAnswer <$> take 4 due)) <= 5)%nat.
      rewrite length_fmap, length_take. lia.
    + discriminate.
Qed.

(** C4. When every backend of the preference order fails the
    orchestrator returns the offline fallback lesson, built from the
    recorded failures, instead of raising an error.  Its flashcards are
    the due cards of the context, at most the first five and in their
    order, each with the question and the answer of the due card and
    no scheduling field; when no card is due they are one self-check
    card, whose question names the topic.  They are between one and
    five in all. *)
Theorem executeWithFallback_offline
    (preferences : option (list string)) (context : Context.t) (now : Date)
    (w : World) (failed : list ErrorRecord.t) (w' : World) :
  AllFail context (preferenceOrderOf preferences) w failed w' ->
  let lesson := buildOfflineFallbackLesson context failed now in
  let topic :=
    JsString.or_else (Settings.topic (Context.settings context))
      "Independent learning" in
  executeWithFallback preferences context now w = (lesson, w') /\
  (1 <= length (LessonResult.flashcards lesson) <= 5)%nat /\
  (Context.dueFlashcards context = [] ->
     LessonResult.flashcards lesson
     = [ Some {| ResultCard.question :=
                   "What is one insight about " +:+ topic
                   +:+ " you can recall without assistance?";
                 ResultCard.answer :=
                   "Write your answer in your notes to reinforce memory.";
                 ResultCard.interval := None;
                 ResultCard.easeFactor := None;
                 ResultCard.repetitions := None |} ]) /\
  (Context.dueFlashcards context <> [] ->
     LessonResult.flashcards lesson
     = (fun card =>
          Some {| ResultCard.question := Flashcard.question card;
                  ResultCard.answer := Flashcard.answer card;
                  ResultCard.interval := None;
                  ResultCard.easeFactor := None;
                  ResultCard.repetitions := None |})
       <$> take 5 (Context.dueFlashcards context)).
Proof.
  intros Hfail lesson topic. split.
  - unfold executeWithFallback.
    now rewrite (loop_all_fail _ _ _ _ _ Hfail []).
  - destruct (buildOfflineFallbackLesson_flashcards context failed now)
      as (Hlen & Hnone & Hdue).
    split; [exact Hlen|]. split.
    + intros Hempty. fold lesson in Hnone. rewrite (Hnone Hempty). reflexivity.
    + intros Hsome. fold lesson in Hdue. rewrite (Hdue Hsome). reflexivity.
Qed.

(** The loop takes no notice of a backend it does not know. *)
Lemma loop_skip_unknown (context : Context.t) (backend : string)
    (pre post : list string) :
  knownBackend backend = false ->
  forall (errors : list ErrorRecord.t) (w : World),
    executeWithFallback_loop (pre ++ backend :: post) context errors w
    = executeWithFallback_loop (pre ++ post) context errors w.
Proof.
  intros Hk. induction pre as [|b pre IH]; intros errors w; simpl.
  - now rewrite (attempt_unknown _ _ _ Hk).
  - destruct (attempt b context w) as [[[result|error] w1]|]; auto.
Qed.

Lemma AllFail_all_unknown (context : Context.t) (order : list string) (w : World) :
  Forall (fun b => knownBackend b = false) order ->
  AllFail context order w [] w.
Proof.
  induction 1 as [|backend rest Hk _ IH].
  - constructor.
  - apply AllFail_unknown; [now apply attempt_unknown|exact IH].
Qed.

(** C10. A backend identifier that is none of [gemini], [ollama] and
    [promptApi] is skipped in silence: its [try] block calls nothing,
    and a run with it equals the run without it in result, recorded
    errors and world.  The offline lesson quotes the number of recorded
    errors, so that a preference list of unknown identifiers only yields
    the offline lesson with no error recorded and "0 errors" in its
    text. *)
Theorem executeWithFallback_unknown_backend
    (context : Context.t) (now : Date) :
  (forall backend w,
      knownBackend backend = false -> attempt backend context w = None) /\
  (forall backend pre post errors w,
      knownBackend backend = false ->
      executeWithFallback_loop (pre ++ backend :: post) context errors w
      = executeWithFallback_loop (pre ++ post) context errors w) /\
  (forall errors, exists rest,
      LessonResult.lesson (buildOfflineFallbackLesson context errors now)
      = newline +:+ "    <h2>Offline Study Day</h2>" +:+ newline
        +:+ "    <p>Our AI backends were unreachable ("
        +:+ pretty (length errors) +:+ " errors)." +:+ rest) /\
  (forall backend rest (w : World),
      Forall (fun b => knownBackend b = false) (backend :: rest) ->
      executeWithFallback (Some (backend :: rest)) context now w
      = (buildOfflineFallbackLesson context [] now, w)).
Proof.
  split; [|split; [|split]].
  - intros backend w Hk. now apply attempt_unknown.
  - intros backend pre post errors w Hk. now apply loop_skip_unknown.
  - intros errors. eexists. unfold buildOfflineFallbackLesson.
    cbn [LessonResult.lesson]. reflexivity.
  - intros backend rest w Hall.
    unfold executeWithFallback. cbn [preferenceOrderOf].
    now rewrite (loop_all_fail _ _ _ _ _ (AllFail_all_unknown context _ w Hall) []).
Qed.

End OrchestratorFacts.

(** ** The connectors' normalisation *)

Section ConnectorFacts.

Context {World : Type} `{HostBackends World}.

Lemma or_else_nonempty (a : option string) (d d' : string) :
  d <> "" ->
  JsString.or_else (Some (JsString.or_else a d)) d' = JsString.or_else a d.
Proof.
  intros Hd. destruct a as [[|c s]|]; simpl; try reflexivity;
    destruct d; congruence.
Qed.

Lemma split_nonempty (c : ascii) (s : string) : JsString.split c s <> [].
Proof.
  destruct s as [|x s]; simpl; [discriminate|].
  destruct (Ascii.eqb x c); [discriminate|].
  destruct (JsString.split c s); discriminate.
Qed.

(** What the heuristic parser makes of a text: the title is the first
    line without [#], [*] and [-], trimmed; the summary is what is left
    of the next three lines once trimmed, blank ones dropped. *)
Lemma canonicalise_fallbackParser (text : string) (context : Context.t) :
  let lines := JsString.split JsString.newline text in
  let result := canonicalise (fallbackParser text) context in
  LessonResult.title result
    = JsString.or_else
        (Some (JsString.trim
                 (JsString.removeChars isHeadingMark (default "" (head lines)))))
        "LearnPulse Daily Lesson" /\
  LessonResult.summary result
    = match filter (fun s => nonEmpty s = true)
              (JsString.trim <$> take 3 (tail lines)) with
      | [] => ["Daily concept update from LearnPulse."]
      | bullets => bullets
      end /\
  LessonResult.lesson result
    = "<p>" +:+ JsString.join " " (tail lines) +:+ "</p>".
Proof.
  intros lines result. subst lines result. unfold fallbackParser.
  pose proof (split_nonempty JsString.newline text) as Hne.
  destruct (JsString.split JsString.newline text) as [|firstLine rest];
    [congruence|].
  unfold canonicalise. cbn [Payload.title Payload.summary Payload.lesson
    LessonResult.title LessonResult.summary LessonResult.lesson
    summaryBullets head tail default].
  split; [|split].
  - apply or_else_nonempty. discriminate.
  - destruct (filter _ _); reflexivity.
  - reflexivity.
Qed.

(** C5, as the code has it.  When the response text does not parse as
    JSON, the normalisation of the Gemini connector, which the
    on-device connector shares, returns the best-effort result of the
    heuristic parser: the first line is the title and the following
    lines give the summary.  The normalisation of the Ollama connector
    raises an error instead, and the connector's call fails with it. *)
Theorem parse_failure_by_connector
    (rawText : string) (context : Context.t) (error : Error.t) :
  JSON_parse (stripCodeFence rawText) = Threw error ->
  let lines := JsString.split JsString.newline (stripCodeFence rawText) in
  (exists result,
      normaliseModelOutput rawText context = Returned result /\
      result = canonicalise (fallbackParser (stripCodeFence rawText)) context /\
      LessonResult.title result
        = JsString.or_else
            (Some (JsString.trim
                     (JsString.removeChars isHeadingMark
                        (default "" (head lines)))))
            "LearnPulse Daily Lesson" /\
      LessonResult.summary result
        = match filter (fun s => nonEmpty s = true)
                  (JsString.trim <$> take 3 (tail lines)) with
          | [] => ["Daily concept update from LearnPulse."]
          | bullets => bullets
          end) /\
  normaliseOutput rawText context
    = Threw (Error.new ("Ollama response was not valid JSON: "
                        +:+ Error.message error)) /\
  (forall model w w',
      rawText <> "" ->
      ollama_generate model context w = (Returned (ReplyData (Some rawText)), w') ->
      generateLessonWithOllama model context w
      = (Threw (Error.new ("Ollama response was not valid JSON: "
                           +:+ Error.message error)), w')) /\
  (forall apiKey model temperature w w',
      rawText <> "" -> apiKey <> "" ->
      gemini_generateContent apiKey model temperature context w
        = (Returned (ReplyData (Some rawText)), w') ->
      generateLessonWithGemini (Some apiKey) model context false temperature w
      = (Returned (canonicalise (fallbackParser (stripCodeFence rawText)) context),
         w')).
Proof.
  intros Hparse lines.
  assert (Hgemini : normaliseModelOutput rawText context
            = Returned (canonicalise (fallbackParser (stripCodeFence rawText))
                          context))
    by (unfold normaliseModelOutput; now rewrite Hparse).
  assert (Hollama : normaliseOutput rawText context
            = Threw (Error.new ("Ollama response was not valid JSON: "
                                +:+ Error.message error)))
    by (unfold normaliseOutput; now rewrite Hparse).
  split; [|split; [|split]].
  - eexists. split; [exact Hgemini|]. split; [reflexivity|].
    destruct (canonicalise_fallbackParser (stripCodeFence rawText) context)
      as (Ht & Hs & _).
    split; assumption.
  - exact Hollama.
  - intros model w w' Hne Hreply. unfold generateLessonWithOllama.
    rewrite Hreply. destruct rawText; [congruence|].
    cbn [JsString.or_opt]. now rewrite Hollama.
  - intros apiKey model temperature w w' Hne Hkey Hreply.
    unfold generateLessonWithGemini.
    destruct apiKey; [congruence|]. cbn [JsString.or_opt].
    rewrite Hreply. destruct rawText; [congruence|].
    cbn [JsString.or_opt]. now rewrite Hgemini.
Qed.

End ConnectorFacts.

(** C5 as stated fails for the Ollama connector: on a response that is
    not empty and does not parse as JSON, its normalisation raises an
    error, the connector's call fails, and the orchestrator records the
    failure and goes on to the next backend. *)
Lemma ollama_parse_failure_propagates :
  Demo.plainAnswer <> "" /\
  Json.parse (stripCodeFence Demo.plainAnswer) = Threw Json.syntaxError /\
  normaliseOutput (H := Demo.backends (Demo.ollamaAnswers Demo.plainAnswer))
    Demo.plainAnswer (Demo.context [])
  = Threw (Error.new
             "Ollama response was not valid JSON: Unexpected token in JSON") /\
  generateLessonWithOllama (H := Demo.backends (Demo.ollamaAnswers Demo.plainAnswer))
    "mistral" (Demo.context []) []
  = (Threw (Error.new
              "Ollama response was not valid JSON: Unexpected token in JSON"),
     ["POST ollama"]) /\
  fst (fst (executeWithFallback_loop
              (H := Demo.backends (Demo.ollamaAnswers Demo.plainAnswer))
              ["ollama"] (Demo.context []) [] []))
  = None.
Proof.
  split; [discriminate|]. repeat split; vm_compute; reflexivity.
Qed.

(** ** The content chunker *)

Section SubstringFacts.

Lemma substring_length (s : string) : forall n m,
  String.length (substring n m s) = Nat.min m (String.length s - n).
Proof.
  induction s as [|c s IH]; intros [|n] [|m]; simpl; try reflexivity.
  - now rewrite IH, Nat.sub_0_r.
  - now rewrite IH.
  - now rewrite IH.
Qed.

Lemma substring_zero (s : string) (n : nat) : substring n 0 s = "".
Proof.
  revert n. induction s as [|c s IH]; intros [|n]; simpl; auto.
Qed.

Lemma substring_past (s : string) : forall n m,
  (String.length s <= n)%nat -> substring n m s = "".
Proof.
  induction s as [|c s IH]; intros [|n] [|m] Hlen; simpl in *;
    try reflexivity; try lia; apply IH; lia.
Qed.

Lemma substring_all (s : string) (m : nat) :
  (String.length s <= m)%nat -> substring 0 m s = s.
Proof.
  revert m. induction s as [|c s IH]; intros [|m] Hlen; simpl in *;
    try reflexivity; try lia.
  f_equal. apply IH. lia.
Qed.

Lemma append_cons (c : ascii) (x y : string) :
  String c x +:+ y = String c (x +:+ y).
Proof. reflexivity. Qed.

Lemma append_empty_r (x : string) : x +:+ "" = x.
Proof. induction x as [|c x IH]; [reflexivity|]. now rewrite append_cons, IH. Qed.

(** A window and the one that follows it make up the window of both. *)
Lemma substring_split (s : string) : forall n a b,
  substring n (a + b) s = substring n a s +:+ substring (n + a) b s.
Proof.
  induction s as [|c s IH]; intros n a b.
  - destruct n, a, b; reflexivity.
  - destruct n as [|n].
    + destruct a as [|a]; simpl.
      * destruct b; reflexivity.
      * rewrite append_cons. f_equal. apply (IH 0%nat).
    + simpl. apply IH.
Qed.

End SubstringFacts.

Section SplitFacts.

Lemma windowCount_zero (chunkSize : nat) :
  (0 < chunkSize)%nat -> windowCount 0 chunkSize = O.
Proof.
  intros Hpos. unfold windowCount. apply Nat.div_small. lia.
Qed.

Lemma windowCount_step (len chunkSize : nat) :
  (0 < chunkSize)%nat -> (0 < len)%nat ->
  windowCount len chunkSize = S (windowCount (len - chunkSize) chunkSize).
Proof.
  intros Hpos Hlen. unfold windowCount.
  destruct (Nat.le_gt_cases chunkSize len) as [Hbig|Hsmall].
  - replace (len + chunkSize - 1)%nat
      with ((len - chunkSize + chunkSize - 1) + 1 * chunkSize)%nat by lia.
    rewrite Nat.div_add by lia. lia.
  - replace (len - chunkSize)%nat with O by lia.
    rewrite (Nat.div_small (0 + chunkSize - 1)) by lia.
    replace (len + chunkSize - 1)%nat
      with ((len - 1) + 1 * chunkSize)%nat by lia.
    rewrite Nat.div_add by lia. rewrite Nat.div_small by lia. lia.
Qed.

(** The loop, given enough fuel, appends the windows that cover what is
    left of the text. *)
Lemma splitIntoChunks_loop_windows (text : string) (chunkSize : nat) :
  (0 < chunkSize)%nat ->
  forall fuel cursor chunks,
    (String.length text - cursor <= fuel)%nat ->
    splitIntoChunks_loop fuel text chunkSize cursor chunks
    = Some (chunks
            ++ windowsFrom (windowCount (String.length text - cursor) chunkSize)
                 text chunkSize cursor).
Proof.
  intros Hpos. induction fuel as [|fuel IH]; intros cursor chunks Hfuel.
  - simpl. destruct (Nat.ltb_spec cursor (String.length text)); [lia|].
    replace (String.length text - cursor)%nat with O by lia.
    rewrite windowCount_zero by assumption. simpl. now rewrite app_nil_r.
  - simpl. destruct (Nat.ltb_spec cursor (String.length text)) as [Hlt|Hge].
    + rewrite IH by lia.
      rewrite (windowCount_step (String.length text - cursor)) by lia.
      simpl. rewrite <- app_assoc. simpl.
      replace (String.length text - (cursor + chunkSize))%nat
        with (String.length text - cursor - chunkSize)%nat by lia.
      reflexivity.
    + replace (String.length text - cursor)%nat with O by lia.
      rewrite windowCount_zero by assumption. simpl. now rewrite app_nil_r.
Qed.

(** With a window that is not empty the split ends, and yields the
    windows of the text. *)
Lemma splitIntoChunks_windows (text : string) (chunkSize : nat) :
  (0 < chunkSize)%nat ->
  splitIntoChunks text chunkSize = Some (windows text chunkSize).
Proof.
  intros Hpos. unfold splitIntoChunks, windows.
  rewrite splitIntoChunks_loop_windows by (assumption || lia).
  now rewrite Nat.sub_0_r.
Qed.

Lemma windowsFrom_lookup (text : string) (chunkSize : nat) :
  forall count cursor i,
    (i < count)%nat ->
    windowsFrom count text chunkSize cursor !! i
    = Some (substring (cursor + i * chunkSize) chunkSize text).
Proof.
  induction count as [|count IH]; intros cursor i Hi; [lia|].
  destruct i as [|i]; simpl.
  - now rewrite Nat.add_0_r.
  - rewrite IH by lia. do 2 f_equal. lia.
Qed.

Lemma windowsFrom_length (text : string) (chunkSize : nat) :
  forall count cursor, length (windowsFrom count text chunkSize cursor) = count.
Proof.
  induction count as [|count IH]; intros cursor; simpl; [reflexivity|].
  now rewrite IH.
Qed.

Lemma windowsFrom_concat (text : string) (chunkSize : nat) :
  forall count cursor,
    String.concat "" (windowsFrom count text chunkSize cursor)
    = substring cursor (count * chunkSize) text.
Proof.
  induction count as [|count IH]; intros cursor.
  - simpl. now rewrite substring_zero.
  - cbn [windowsFrom Nat.mul]. rewrite substring_split, <- IH.
    destruct (windowsFrom count text chunkSize (cursor + chunkSize)) eqn:E.
    + destruct count; [|discriminate].
      simpl. now rewrite append_empty_r.
    + reflexivity.
Qed.

End SplitFacts.

Section WindowFacts.

Variable text : string.
Variable chunkSize : nat.
Hypothesis chunkSize_pos : (0 < chunkSize)%nat.

Lemma windowCount_covers :
  (String.length text <= windowCount (String.length text) chunkSize * chunkSize)%nat.
Proof.
  unfold windowCount.
  pose proof (Nat.mul_succ_div_gt (String.length text + chunkSize - 1) chunkSize
                ltac:(lia)) as Hgt.
  nia.
Qed.

Lemma windowCount_tight (i : nat) :
  (i < windowCount (String.length text) chunkSize)%nat ->
  (i * chunkSize < String.length text)%nat.
Proof.
  unfold windowCount. intros Hi.
  pose proof (Nat.Div0.mul_div_le (String.length text + chunkSize - 1) chunkSize)
    as Hle.
  nia.
Qed.

Lemma windows_concat : String.concat "" (windows text chunkSize) = text.
Proof.
  unfold windows. rewrite windowsFrom_concat.
  apply substring_all, windowCount_covers.
Qed.

Lemma windows_lookup (i : nat) (part : string) :
  windows text chunkSize !! i = Some part ->
  part = substring (i * chunkSize) chunkSize text /\
  (1 <= String.length part <= chunkSize)%nat /\
  (S i < length (windows text chunkSize) -> String.length part = chunkSize)%nat.
Proof.
  unfold windows. intros Hlookup.
  assert (Hi : (i < windowCount (String.length text) chunkSize)%nat).
  { apply lookup_lt_Some in Hlookup. now rewrite windowsFrom_length in Hlookup. }
  rewrite windowsFrom_lookup in Hlookup by assumption.
  injection Hlookup as <-. simpl.
  pose proof (windowCount_tight i Hi) as Htight.
  split; [reflexivity|]. rewrite substring_length. split; [lia|].
  rewrite windowsFrom_length. intros Hnext.
  pose proof (windowCount_tight (S i) Hnext). simpl in *. lia.
Qed.

Lemma windows_short :
  text <> "" -> (String.length text <= chunkSize)%nat ->
  windows text chunkSize = [text].
Proof.
  intros Hne Hlen. unfold windows.
  assert (Hpos : (0 < String.length text)%nat)
    by (destruct text; [congruence|simpl; lia]).
  rewrite windowCount_step by assumption.
  replace (String.length text - chunkSize)%nat with O by lia.
  rewrite windowCount_zero by assumption. simpl.
  now rewrite substring_all.
Qed.

End WindowFacts.

Section ChunkerFacts.

Context {World : Type} `{HostWeb World}.

Lemma imap_texts (parts : list string) :
  forall f : nat -> string -> Chunk.t,
    (forall i part, Chunk.text (f i part) = part) ->
    Chunk.text <$> imap f parts = parts.
Proof.
  induction parts as [|part parts IH]; intros f Hf; simpl; [reflexivity|].
  rewrite Hf. f_equal. apply IH. intros i p. apply Hf.
Qed.

(** The texts of a source's chunks are the windows, in order. *)
Lemma chunkSet_texts (source : Source.t) (parts : list string) :
  Chunk.text <$> chunkSet source parts = parts.
Proof. apply imap_texts. reflexivity. Qed.

(** A chunking pass ends, with the chunks of the sources in the order
    of the sources. *)
Lemma chunkSources_in_order (sources : list Source.t) :
  forall w : World,
    chunkSources sources w
    = (Some (chunksInOrder sources w).1, (chunksInOrder sources w).2).
Proof.
  induction sources as [|source rest IH]; intros w; simpl; [reflexivity|].
  destruct (resolveSourceText source w) as [text w1].
  destruct text as [|c text].
  - rewrite IH. destruct (chunksInOrder rest w1) as [tail w2]. reflexivity.
  - rewrite splitIntoChunks_windows by (unfold DEFAULT_CHUNK_SIZE; lia).
    rewrite IH. destruct (chunksInOrder rest w1) as [tail w2]. reflexivity.
Qed.

Lemma chunksInOrder_app (first second : list Source.t) :
  forall w : World,
    chunksInOrder (first ++ second) w
    = ((chunksInOrder first w).1
       ++ (chunksInOrder second (chunksInOrder first w).2).1,
       (chunksInOrder second (chunksInOrder first w).2).2).
Proof.
  induction first as [|source first IH]; intros w; simpl.
  - now destruct (chunksInOrder second w).
  - destruct (resolveSourceText source w) as [text w1].
    rewrite IH. destruct (chunksInOrder first w1) as [tail w2]. simpl.
    now rewrite app_assoc.
Qed.

(** C9, as the code has it.  A text is split into consecutive windows
    of 900 characters whose concatenation is the text: every window but
    the last holds 900 characters and the last holds what is left, at
    least one.  A text that is not empty and no longer than the window
    yields one chunk, the text itself; an empty text yields none.  A
    chunking pass always ends; a source whose text resolves to nothing
    adds no chunk, any other adds the windows of its normalised text,
    and the chunks follow the order of the sources. *)
Theorem chunking_by_windows :
  (forall text : string,
      let parts := windows text 900 in
      splitIntoChunks text DEFAULT_CHUNK_SIZE = Some parts /\
      String.concat "" parts = text /\
      (text = "" -> parts = []) /\
      (text <> "" -> (String.length text <= 900)%nat -> parts = [text]) /\
      (forall i part,
          parts !! i = Some part ->
          part = substring (i * 900) 900 text /\
          (1 <= String.length part <= 900)%nat /\
          (S i < length parts -> String.length part = 900)%nat)) /\
  (forall (sources : list Source.t) (w : World),
      chunkSources sources w
      = (Some (chunksInOrder sources w).1, (chunksInOrder sources w).2)) /\
  (forall (first second : list Source.t) (w : World),
      (chunksInOrder (first ++ second) w).1
      = (chunksInOrder first w).1
        ++ (chunksInOrder second (chunksInOrder first w).2).1) /\
  (forall (source : Source.t) (w : World),
      (chunksInOrder [source] w).1
      = sourceChunks source (resolveSourceText source w).1 /\
      Chunk.text <$> sourceChunks source (resolveSourceText source w).1
      = match (resolveSourceText source w).1 with
        | "" => []
        | text => windows (sanitiseText text) 900
        end).
Proof.
  assert (Hpos : (0 < 900)%nat) by lia.
  split; [|split; [|split]].
  - intros text parts. subst parts.
    split; [now apply splitIntoChunks_windows|].
    split; [now apply windows_concat|].
    split; [intros ->; reflexivity|].
    split; [now apply windows_short|].
    intros i part. now apply windows_lookup.
  - apply chunkSources_in_order.
  - intros first second w. now rewrite chunksInOrder_app.
  - intros source w. simpl.
    destruct (resolveSourceText source w) as [text w1]. simpl.
    split; [now rewrite app_nil_r|].
    destruct text; [reflexivity|]. apply chunkSet_texts.
Qed.

End ChunkerFacts.

(** C9 as stated fails on a text that normalises to the empty string:
    it is shorter than the window, and it yields no chunk.  A pasted
    note that holds one space is such a source. *)
Lemma blank_source_yields_no_chunk :
  (resolveSourceText (H := Demo.web Demo.offline) Demo.blankNote []).1 = " " /\
  sanitiseText " " = "" /\
  (String.length (sanitiseText " ") < 900)%nat /\
  chunkSources (H := Demo.web Demo.offline) [Demo.blankNote] [] = (Some [], []).
Proof.
  repeat split; vm_compute; reflexivity || lia.
Qed.

(** ** The persistence step *)

Section SortFacts.

Context {A : Type}.
Variable after : A -> A -> bool.

Lemma sortInsert_Permutation (x : A) (l : list A) :
  sortInsert after x l ≡ₚ x :: l.
Proof.
  induction l as [|y l IH]; simpl; [reflexivity|].
  destruct (after x y); [|reflexivity].
  rewrite IH. apply Permutation_swap.
Qed.

(** Sorting rearranges; it neither drops nor repeats an element. *)
Lemma sortWith_Permutation (l : list A) : sortWith after l ≡ₚ l.
Proof.
  unfold sortWith. induction l as [|x l IH]; simpl; [reflexivity|].
  now rewrite sortInsert_Permutation, IH.
Qed.

Lemma sortInsert_last (x y : A) (l : list A) :
  last l = Some x -> after y x = false -> last (sortInsert after y l) = Some x.
Proof.
  induction l as [|z l IH]; intros Hlast Hafter; [discriminate|].
  simpl. destruct l as [|z' l].
  - simpl in Hlast. injection Hlast as ->.
    rewrite Hafter. reflexivity.
  - destruct (after y z); [|exact Hlast].
    assert (Hrec : last (sortInsert after y (z' :: l)) = Some x)
      by (apply IH; assumption).
    destruct (sortInsert after y (z' :: l)) eqn:E; [discriminate|exact Hrec].
Qed.

(** An element that none of the others comes after is sorted to the
    end. *)
Lemma sortWith_last (x : A) (l : list A) :
  Forall (fun y => after y x = false) l ->
  last (sortWith after (l ++ [x])) = Some x.
Proof.
  unfold sortWith. rewrite foldr_app. simpl.
  induction 1 as [|y l Hy _ IH]; simpl; [reflexivity|].
  now apply sortInsert_last.
Qed.

Lemma takeLast_length (n : nat) (l : list A) :
  (length (takeLast n l) <= n)%nat.
Proof. unfold takeLast. rewrite length_drop. lia. Qed.

Lemma takeLast_all (n : nat) (l : list A) :
  (length l <= n)%nat -> takeLast n l = l.
Proof.
  intros Hlen. unfold takeLast.
  replace (length l - n)%nat with O by lia. reflexivity.
Qed.

Lemma takeLast_sublist (n : nat) (l : list A) : takeLast n l `sublist_of` l.
Proof. apply sublist_drop. Qed.

Lemma takeLast_last (n : nat) (l : list A) (x : A) :
  (0 < n)%nat -> last l = Some x -> x ∈ takeLast n l.
Proof.
  intros Hn Hlast. unfold takeLast.
  rewrite last_lookup in Hlast.
  assert (Hlen : (0 < length l)%nat)
    by (destruct l; [discriminate|simpl; lia]).
  apply list_elem_of_lookup.
  exists (pred (length l) - (length l - n))%nat.
  rewrite lookup_drop, <- Hlast. f_equal. lia.
Qed.

End SortFacts.

Section PersistenceFacts.

Context `{HostDate}.

(** The three cases of the streak, by the key that the code takes for
    yesterday's: the streak becomes the prior streak plus one when the
    last lesson's date is that key, stays as it is when that date is
    today's key, and becomes 1 for any other date, a missing one
    included. *)
Lemma updateStats_streak
    (stats : Stats.t) (todayKey : string) (newCardCount : number) :
  let updated := updateStats stats todayKey newCardCount in
  (Stats.lastLessonDate stats = Some (yesterdayKeyOf todayKey) ->
   yesterdayKeyOf todayKey <> todayKey ->
     Stats.streak updated
     = Some (add (or_else (Stats.streak stats) (of_Z 0)) (of_Z 1))) /\
  (Stats.lastLessonDate stats = Some todayKey ->
     Stats.streak updated = Stats.streak stats) /\
  (Stats.lastLessonDate stats <> Some todayKey ->
   Stats.lastLessonDate stats <> Some (yesterdayKeyOf todayKey) ->
     Stats.streak updated = Some (of_Z 1)) /\
  (Stats.lastLessonDate stats = None ->
     Stats.streak updated = Some (of_Z 1)).
Proof.
  intros updated. subst updated. unfold updateStats. cbn [Stats.streak].
  split; [|split; [|split]].
  - intros Hy Hne.
    rewrite bool_decide_eq_false_2 by (rewrite Hy; congruence).
    now rewrite bool_decide_eq_true_2 by assumption.
  - intros Ht. now rewrite bool_decide_eq_true_2 by assumption.
  - intros Ht Hy.
    rewrite bool_decide_eq_false_2 by assumption.
    now rewrite bool_decide_eq_false_2 by assumption.
  - intros Hnone.
    rewrite bool_decide_eq_false_2 by (rewrite Hnone; discriminate).
    now rewrite bool_decide_eq_false_2 by (rewrite Hnone; discriminate).
Qed.

(** *** The lesson list *)

Lemma updatedLessonsOf_length (lessons : list Lesson.t) (newLesson : Lesson.t) :
  (length (updatedLessonsOf lessons newLesson) <= 60)%nat.
Proof. apply takeLast_length. Qed.

Lemma kept_dates_NoDup (lessons : list Lesson.t) (newLesson : Lesson.t) :
  NoDup (Lesson.date <$> lessons) ->
  NoDup (Lesson.date
           <$> (filter (fun lesson => Lesson.date lesson <> Lesson.date newLesson)
                  lessons ++ [newLesson])).
Proof.
  intros Hdup. rewrite fmap_app. apply NoDup_app. split; [|split].
  - eapply sublist_NoDup; [exact Hdup|].
    apply fmap_sublist, sublist_filter.
  - intros d Hd Hin. simpl in Hin. apply list_elem_of_singleton in Hin as ->.
    apply list_elem_of_fmap in Hd as (lesson & Heq & Hl).
    apply list_elem_of_filter in Hl as [Hne _]. congruence.
  - simpl. apply NoDup_singleton.
Qed.

Lemma updatedLessonsOf_NoDup (lessons : list Lesson.t) (newLesson : Lesson.t) :
  NoDup (Lesson.date <$> lessons) ->
  NoDup (Lesson.date <$> updatedLessonsOf lessons newLesson).
Proof.
  intros Hdup. unfold updatedLessonsOf.
  eapply sublist_NoDup; [|apply fmap_sublist, takeLast_sublist].
  rewrite (sortWith_Permutation lessonAfter).
  now apply kept_dates_NoDup.
Qed.

(** An entry of the new list is the new lesson or an entry of the old
    list for another day. *)
Lemma updatedLessonsOf_elem (lessons : list Lesson.t) (newLesson lesson : Lesson.t) :
  lesson ∈ updatedLessonsOf lessons newLesson ->
  lesson = newLesson \/
  (lesson ∈ lessons /\ Lesson.date lesson <> Lesson.date newLesson).
Proof.
  unfold updatedLessonsOf. intros Hin.
  apply (fun H => elem_of_sublist _ _ _ H (takeLast_sublist _ _)) in Hin.
  rewrite (sortWith_Permutation lessonAfter) in Hin.
  apply elem_of_app in Hin as [Hin|Hin].
  - apply list_elem_of_filter in Hin as [Hne Hin]. now right.
  - apply list_elem_of_singleton in Hin. now left.
Qed.

Lemma filter_none {A : Type} (P : A -> Prop) `{!forall x, Decision (P x)}
    (l : list A) :
  (forall x, x ∈ l -> ~ P x) -> filter P l = [].
Proof.
  induction l as [|x l IH]; intros Hnone; [reflexivity|].
  rewrite filter_cons, decide_False by (apply Hnone; left).
  apply IH. intros y Hy. apply Hnone. now right.
Qed.

(** The entries for a day, when days do not repeat and the day's
    lesson is in the list. *)
Lemma entries_for_day (lessons : list Lesson.t) (lesson : Lesson.t) :
  NoDup (Lesson.date <$> lessons) -> lesson ∈ lessons ->
  filter (fun l => Lesson.date l = Lesson.date lesson) lessons = [lesson].
Proof.
  induction lessons as [|x lessons IH]; intros Hdup Hin.
  - now apply elem_of_nil in Hin.
  - rewrite fmap_cons in Hdup. apply NoDup_cons in Hdup as [Hx Hdup].
    rewrite filter_cons.
    apply elem_of_cons in Hin as [->|Hin].
    + rewrite decide_True by reflexivity. f_equal.
      apply filter_none. intros y Hy Heq.
      apply Hx. rewrite <- Heq. now apply list_elem_of_fmap_2.
    + rewrite decide_False.
      * now apply IH.
      * intros Heq. apply Hx. rewrite Heq. now apply list_elem_of_fmap_2.
Qed.

(** The new lesson stays in the list when the list is not full, when it
    replaces a lesson of its day, or when no stored lesson is of a
    later day. *)
Lemma updatedLessonsOf_retains (lessons : list Lesson.t) (newLesson : Lesson.t) :
  (length lessons <= 60)%nat ->
  (length lessons < 60)%nat
  \/ Lesson.date newLesson ∈ Lesson.date <$> lessons
  \/ Forall (fun lesson => lessonAfter lesson newLesson = false) lessons ->
  newLesson ∈ updatedLessonsOf lessons newLesson.
Proof.
  intros Hcap Hcond. unfold updatedLessonsOf.
  set (kept := filter (fun lesson => Lesson.date lesson <> Lesson.date newLesson)
                 lessons).
  assert (Hin : newLesson ∈ sortWith lessonAfter (kept ++ [newLesson])).
  { rewrite (sortWith_Permutation lessonAfter). apply elem_of_app. right.
    now apply list_elem_of_singleton. }
  assert (Hlen : length (sortWith lessonAfter (kept ++ [newLesson]))
                 = S (length kept)).
  { rewrite (sortWith_Permutation lessonAfter), length_app. simpl. lia. }
  destruct Hcond as [Hroom|[Hday|Hlate]].
  - rewrite takeLast_all; [exact Hin|].
    rewrite Hlen. pose proof (length_filter
      (fun lesson => Lesson.date lesson <> Lesson.date newLesson) lessons).
    subst kept. lia.
  - rewrite takeLast_all; [exact Hin|].
    rewrite Hlen.
    apply list_elem_of_fmap in Hday as (old & Hdate & Hold).
    pose proof (length_filter_lt
      (fun lesson => Lesson.date lesson <> Lesson.date newLesson) lessons old Hold)
      as Hlt.
    subst kept. specialize (Hlt ltac:(intros Hne; congruence)). lia.
  - apply takeLast_last; [lia|].
    apply sortWith_last. subst kept.
    apply Forall_forall. intros lesson Hl.
    apply list_elem_of_filter in Hl as [_ Hl].
    rewrite Forall_forall in Hlate. now apply Hlate.
Qed.

(** A persistence step returns unless an entry of the result's
    flashcards is [null]. *)
Lemma newCardsOf_outcome (result : LessonResult.t) (todayKey : string)
    (newLesson : Lesson.t) (now : Date) :
  match newCardsOf result todayKey newLesson now with
  | Returned cards =>
      (None ∉ LessonResult.flashcards result) /\
      length cards = length (LessonResult.flashcards result)
  | Threw error =>
      (None ∈ LessonResult.flashcards result) /\ error = nullCardError
  end.
Proof.
  unfold newCardsOf.
  destruct (mapM id (LessonResult.flashcards result)) as [cards|] eqn:Hcards.
  - split.
    + intros Hnull.
      assert (Hall : Forall (is_Some ∘ id) (LessonResult.flashcards result))
        by (apply mapM_is_Some; eauto).
      rewrite Forall_forall in Hall. destruct (Hall None Hnull) as [x Hx].
      discriminate Hx.
    + rewrite length_imap. symmetry. eapply length_mapM. exact Hcards.
  - split; [|reflexivity].
    apply mapM_None_1, Exists_exists in Hcards as (entry & Hin & Hnull).
    simpl in Hnull. now subst entry.
Qed.

(** A persistence step throws exactly on a result with a flashcard
    that is [null]. *)
Lemma persistDailyContent_outcome (result : LessonResult.t) (todayKey : string)
    (settings : Settings.t) (now : Date) (store : Store.t) :
  match persistDailyContent result todayKey settings now store with
  | Returned _ => None ∉ LessonResult.flashcards result
  | Threw error =>
      (None ∈ LessonResult.flashcards result) /\ error = nullCardError
  end.
Proof.
  unfold persistDailyContent.
  pose proof (newCardsOf_outcome result todayKey
                (newLessonOf result todayKey settings now) now) as Hcards.
  destruct (newCardsOf result todayKey _ now); [now destruct Hcards|exact Hcards].
Qed.

(** What a persistence step that returns makes of the lesson list and
    of the day's mark. *)
Lemma persistDailyContent_lessons (result : LessonResult.t) (todayKey : string)
    (settings : Settings.t) (now : Date) (store store' : Store.t) :
  persistDailyContent result todayKey settings now store = Returned store' ->
  Store.lessons store'
  = Some (updatedLessonsOf (default [] (Store.lessons store))
            (newLessonOf result todayKey settings now)) /\
  Store.lastGeneratedAt store' = Some todayKey.
Proof.
  unfold persistDailyContent.
  destruct (newCardsOf result todayKey _ now); [|discriminate].
  intros [= <-]. split; reflexivity.
Qed.

Lemma gradeFlashcard_lessons (cardId : string) (grade : number) (now : Date)
    (store : Store.t) :
  Store.lessons (gradeFlashcard cardId grade now store) = Store.lessons store.
Proof.
  unfold gradeFlashcard, gradeFlashcard_call.
  destruct (findIndexById cardId (default [] (Store.flashcards store)))
    as [index|]; [|reflexivity].
  destruct (default [] (Store.flashcards store) !! index) as [card|];
    [|reflexivity].
  now destruct (applySm2Review_call now card grade).
Qed.

(** The lesson list of every state the worker can bring about has at
    most 60 entries, no two of one day. *)
Lemma reachable_lessons (store : Store.t) :
  StoreReachable store ->
  (length (default [] (Store.lessons store)) <= 60)%nat /\
  NoDup (Lesson.date <$> default [] (Store.lessons store)).
Proof.
  induction 1 as [|result todayKey settings now store store' _ [_ IH] Hstep
                  |cardId grade now store _ IH].
  - simpl. split; [lia|constructor].
  - apply persistDailyContent_lessons in Hstep as [-> _]. simpl. split.
    + apply updatedLessonsOf_length.
    + now apply updatedLessonsOf_NoDup.
  - now rewrite gradeFlashcard_lessons.
Qed.

(** C7. A persistence step returns unless a flashcard of the result is
    [null]; it then throws and writes nothing.  After a step that
    returns, the stored lesson list has at most 60 entries, and in
    every state the worker can bring about no two entries are of one
    calendar day.  Persisting a lesson for a day that has a record
    replaces that record by the later one: the list then holds exactly
    one entry for the day, and that entry carries the title, summary,
    body, sources and exercise of the result just persisted, with the
    time of this step.  The same holds when the list was not full or no
    stored lesson was of a later day. *)
Theorem persistDailyContent_lesson_list
    (result : LessonResult.t) (todayKey : string) (settings : Settings.t)
    (now : Date) (store : Store.t) :
  let lessonsOf (s : Store.t) := default [] (Store.lessons s) in
  match persistDailyContent result todayKey settings now store with
  | Threw error =>
      (None ∈ LessonResult.flashcards result) /\ error = nullCardError
  | Returned after =>
      (None ∉ LessonResult.flashcards result) /\
      (length (lessonsOf after) <= 60)%nat /\
      (StoreReachable store ->
         NoDup (Lesson.date <$> lessonsOf after) /\
         (todayKey ∈ Lesson.date <$> lessonsOf store
          \/ (length (lessonsOf store) < 60)%nat
          \/ Forall (fun lesson => stringGt (Lesson.date lesson) todayKey = false)
               (lessonsOf store) ->
            filter (fun lesson => Lesson.date lesson = todayKey) (lessonsOf after)
            = [ {| Lesson.id := "lesson-" +:+ todayKey;
                   Lesson.date := todayKey;
                   Lesson.title := LessonResult.title result;
                   Lesson.summary := LessonResult.summary result;
                   Lesson.body := LessonResult.lesson result;
                   Lesson.sources := LessonResult.sources result;
                   Lesson.exercise := LessonResult.exercise result;
                   Lesson.generatedAt := Date_toISOString now;
                   Lesson.mode := Settings.mode settings |} ]))
  end.
Proof.
  intros lessonsOf. subst lessonsOf. cbn beta.
  pose proof (persistDailyContent_outcome result todayKey settings now store)
    as Houtcome.
  destruct (persistDailyContent result todayKey settings now store)
    as [after|error] eqn:Hstep; [|exact Houtcome].
  pose proof (persistDailyContent_lessons _ _ _ _ _ _ Hstep) as [Hlessons _].
  rewrite Hlessons. cbn [default].
  split; [exact Houtcome|].
  split; [apply updatedLessonsOf_length|].
  intros Hreach. destruct (reachable_lessons store Hreach) as [Hcap Hdup].
  split; [now apply updatedLessonsOf_NoDup|].
  intros Hcond.
  change {| Lesson.id := "lesson-" +:+ todayKey;
            Lesson.date := todayKey;
            Lesson.title := LessonResult.title result;
            Lesson.summary := LessonResult.summary result;
            Lesson.body := LessonResult.lesson result;
            Lesson.sources := LessonResult.sources result;
            Lesson.exercise := LessonResult.exercise result;
            Lesson.generatedAt := Date_toISOString now;
            Lesson.mode := Settings.mode settings |}
    with (newLessonOf result todayKey settings now).
  apply (entries_for_day _ (newLessonOf result todayKey settings now)).
  - now apply updatedLessonsOf_NoDup.
  - apply updatedLessonsOf_retains; [exact Hcap|].
    destruct Hcond as [Hday|[Hroom|Hlate]];
      [right; now left|now left|right; right; exact Hlate].
Qed.

End PersistenceFacts.

(** ** Merging flashcards *)

Section MergeFacts.

Implicit Types existing incoming merged : list Flashcard.t.

Lemma indexByQuestion_snoc existing (card : Flashcard.t) :
  indexByQuestion (existing ++ [card])
  = <[Flashcard.question card := length existing]> (indexByQuestion existing).
Proof.
  unfold indexByQuestion. rewrite imap_app, foldl_app. simpl.
  now rewrite Nat.add_0_r.
Qed.

(** The map holds, for a question, the index of the last existing card
    that asks it. *)
Lemma indexByQuestion_Some existing : forall q i,
  indexByQuestion existing !! q = Some i ->
  (exists e, existing !! i = Some e /\ Flashcard.question e = q) /\
  (forall j e', (i < j)%nat -> existing !! j = Some e' ->
                Flashcard.question e' <> q).
Proof.
  induction existing as [|card existing IH] using rev_ind; intros q i Hi.
  - unfold indexByQuestion in Hi. simpl in Hi. now rewrite lookup_empty in Hi.
  - rewrite indexByQuestion_snoc in Hi.
    destruct (decide (Flashcard.question card = q)) as [<-|Hne].
    + rewrite lookup_insert_eq in Hi. injection Hi as <-. split.
      * exists card. split; [|reflexivity].
        rewrite lookup_app_r by lia. now rewrite Nat.sub_diag.
      * intros j e' Hj Hlookup. apply lookup_lt_Some in Hlookup.
        rewrite length_app in Hlookup. simpl in Hlookup. lia.
    + rewrite lookup_insert_ne in Hi by assumption.
      destruct (IH q i Hi) as [(e & He & Hq) Hlast]. split.
      * exists e. split; [|exact Hq].
        rewrite lookup_app_l; [exact He|]. now apply lookup_lt_Some in He.
      * intros j e' Hj Hlookup.
        destruct (decide (j < length existing)%nat) as [Hlt|Hge].
        -- rewrite lookup_app_l in Hlookup by assumption. eauto.
        -- rewrite lookup_app_r in Hlookup by lia.
           destruct (j - length existing)%nat; simpl in Hlookup;
             [|now rewrite lookup_nil in Hlookup].
           injection Hlookup as <-. exact Hne.
Qed.

Lemma indexByQuestion_None existing (q : string) :
  indexByQuestion existing !! q = None <->
  q ∉ Flashcard.question <$> existing.
Proof.
  induction existing as [|card existing IH] using rev_ind.
  - unfold indexByQuestion. simpl. rewrite lookup_empty.
    split; [intros _; apply not_elem_of_nil|reflexivity].
  - rewrite indexByQuestion_snoc, fmap_app. simpl.
    rewrite not_elem_of_app, <- IH, lookup_insert_None.
    rewrite not_elem_of_cons. split.
    + intros [Hn Hne]. split; [exact Hn|]. split; [congruence|apply not_elem_of_nil].
    + intros [Hn [Hne _]]. split; [exact Hn|congruence].
Qed.

(** The last existing card of a question is the one the map points to. *)
Lemma indexByQuestion_last existing (i : nat) (e : Flashcard.t) :
  existing !! i = Some e ->
  (forall j e', (i < j)%nat -> existing !! j = Some e' ->
                Flashcard.question e' <> Flashcard.question e) ->
  indexByQuestion existing !! Flashcard.question e = Some i.
Proof.
  intros He Hlast.
  destruct (indexByQuestion existing !! Flashcard.question e) as [i'|] eqn:Hi.
  - destruct (indexByQuestion_Some existing _ _ Hi) as [(e' & He' & Hq) Hlast'].
    destruct (Nat.lt_trichotomy i i') as [Hlt|[->|Hgt]].
    + now apply (Hlast i' e') in Hlt.
    + reflexivity.
    + now apply (Hlast' i e) in Hgt.
  - apply indexByQuestion_None in Hi. exfalso. apply Hi.
    apply list_elem_of_fmap_2. eapply list_elem_of_lookup_2. exact He.
Qed.

Lemma indexByQuestion_bound existing (q : string) (i : nat) :
  indexByQuestion existing !! q = Some i -> (i < length existing)%nat.
Proof.
  intros Hi. destruct (indexByQuestion_Some existing q i Hi) as [(e & He & _) _].
  now apply lookup_lt_Some in He.
Qed.

Section Fold.

Variable index : gmap string nat.

Lemma mergeStep_length merged (card : Flashcard.t) :
  (length merged <= length (mergeStep index merged card))%nat.
Proof.
  unfold mergeStep. destruct (index !! Flashcard.question card).
  - now rewrite length_alter.
  - rewrite length_app. lia.
Qed.

(** The cards that are appended do not get in the way of the cards
    that are refreshed: the merge is the refreshing of the list it
    started from, followed by what was appended. *)
Lemma merge_appended incoming : forall merged extra,
  (forall q i, index !! q = Some i -> (i < length merged)%nat) ->
  foldl (mergeStep index) (merged ++ extra) incoming
  = foldl (mergeStep index) merged
      (filter (fun card => index !! Flashcard.question card <> None) incoming)
    ++ extra
    ++ filter (fun card => index !! Flashcard.question card = None) incoming.
Proof.
  induction incoming as [|card incoming IH]; intros merged extra Hbound.
  - simpl. now rewrite app_nil_r.
  - cbn [foldl]. rewrite !filter_cons.
    destruct (index !! Flashcard.question card) as [i|] eqn:Hi.
    + assert (Hstep : forall l, mergeStep index l card
                                = alter (refreshCard card) i l)
        by (intros l; unfold mergeStep; now rewrite Hi).
      rewrite decide_True by congruence.
      rewrite decide_False by congruence.
      rewrite Hstep, alter_app_l by eauto.
      rewrite IH by (intros q j Hq; rewrite length_alter; eauto).
      cbn [foldl]. now rewrite Hstep.
    + assert (Hstep : forall l, mergeStep index l card = l ++ [card])
        by (intros l; unfold mergeStep; now rewrite Hi).
      rewrite decide_False by congruence.
      rewrite decide_True by reflexivity.
      rewrite Hstep, <- app_assoc. rewrite IH by assumption.
      now rewrite <- app_assoc.
Qed.

Lemma merge_refresh_length incoming : forall merged,
  Forall (fun card => index !! Flashcard.question card <> None) incoming ->
  length (foldl (mergeStep index) merged incoming) = length merged.
Proof.
  induction incoming as [|card incoming IH]; intros merged Hall; [reflexivity|].
  apply Forall_cons in Hall as [Hcard Hall]. cbn [foldl].
  rewrite IH by assumption. unfold mergeStep.
  destruct (index !! Flashcard.question card); [|congruence].
  apply length_alter.
Qed.

(** A card at an index that only the question [q] points to ends as
    that card refreshed by the incoming cards of question [q], one
    after the other. *)
Lemma merge_lookup (q : string) (i : nat) incoming : forall merged m,
  (forall card, index !! Flashcard.question card = Some i <->
                Flashcard.question card = q) ->
  merged !! i = Some m ->
  foldl (mergeStep index) merged incoming !! i
  = Some (foldl (fun m card => refreshCard card m) m
            (filter (fun card => Flashcard.question card = q) incoming)).
Proof.
  induction incoming as [|card incoming IH]; intros merged m Hq Hm;
    [exact Hm|].
  cbn [foldl]. rewrite filter_cons.
  destruct (decide (Flashcard.question card = q)) as [Heq|Hne].
  - apply Hq in Heq as Hi. cbn [foldl].
    apply IH; [exact Hq|]. unfold mergeStep. rewrite Hi.
    now rewrite list_lookup_alter_eq, Hm.
  - apply IH; [exact Hq|]. unfold mergeStep.
    destruct (index !! Flashcard.question card) as [j|] eqn:Hj.
    + rewrite list_lookup_alter_ne; [exact Hm|].
      intros ->. apply Hne. now apply Hq.
    + rewrite lookup_app_l; [exact Hm|]. now apply lookup_lt_Some in Hm.
Qed.

(** A card at an index that no question points to stays as it is. *)
Lemma merge_lookup_untouched (i : nat) incoming : forall merged m,
  (forall q, index !! q <> Some i) ->
  merged !! i = Some m ->
  foldl (mergeStep index) merged incoming !! i = Some m.
Proof.
  induction incoming as [|card incoming IH]; intros merged m Hq Hm;
    [exact Hm|].
  cbn [foldl]. apply IH; [exact Hq|]. unfold mergeStep.
  destruct (index !! Flashcard.question card) as [j|] eqn:Hj.
  - rewrite list_lookup_alter_ne; [exact Hm|].
    intros ->. now apply (Hq (Flashcard.question card)).
  - rewrite lookup_app_l; [exact Hm|]. now apply lookup_lt_Some in Hm.
Qed.

End Fold.

(** *** What refreshing keeps and what it takes over *)

Lemma or_else_idem (r : option number) :
  or_else (Some (or_else r (of_Z 0))) (of_Z 0) = or_else r (of_Z 0).
Proof.
  destruct r as [x|]; simpl; [|reflexivity].
  destruct (truthy x) eqn:Hx; simpl; [now rewrite Hx|reflexivity].
Qed.

Lemma refresh_fold_kept (e : Flashcard.t) (cards : list Flashcard.t) :
  let m := foldl (fun m card => refreshCard card m) e cards in
  Flashcard.id m = Flashcard.id e /\
  Flashcard.question m = Flashcard.question e /\
  Flashcard.answer m = Flashcard.answer e /\
  Flashcard.lastReviewedAt m = Flashcard.lastReviewedAt e /\
  Flashcard.lastGrade m = Flashcard.lastGrade e /\
  (forall x, Flashcard.easeFactor e = Some x -> truthy x = true ->
             Flashcard.easeFactor m = Some x) /\
  (cards <> [] ->
   Flashcard.repetitions m = Some (or_else (Flashcard.repetitions e) (of_Z 0))).
Proof.
  revert e. induction cards as [|card cards IH]; intros e m; subst m.
  - simpl. repeat split; auto. congruence.
  - cbn [foldl].
    destruct (IH (refreshCard card e)) as (Hid & Hq & Ha & Hl & Hg & He & Hr).
    rewrite Hid, Hq, Ha, Hl, Hg. repeat split; try reflexivity.
    + intros x Hx Ht. apply He; [|exact Ht].
      cbn [refreshCard Flashcard.easeFactor]. now rewrite Hx, Ht.
    + intros _. destruct cards as [|card' cards]; [reflexivity|].
      rewrite Hr by discriminate. cbn [refreshCard Flashcard.repetitions].
      now rewrite or_else_idem.
Qed.

Lemma refresh_fold_taken (e : Flashcard.t) (cards : list Flashcard.t)
    (card : Flashcard.t) :
  let m := foldl (fun m card => refreshCard card m) e (cards ++ [card]) in
  Flashcard.sourceLessonId m = Flashcard.sourceLessonId card /\
  Flashcard.interval m = Flashcard.interval card /\
  Flashcard.dueDate m = Flashcard.dueDate card.
Proof.
  intros m. subst m. rewrite foldl_app. simpl. auto.
Qed.

(** What the merge appends and how long what it refreshes is. *)
Lemma mergeFlashcards_shape existing incoming :
  exists refreshed,
    mergeFlashcards existing incoming
    = refreshed
      ++ filter (fun card => Flashcard.question card
                             ∉ Flashcard.question <$> existing) incoming /\
    length refreshed = length existing.
Proof.
  exists (foldl (mergeStep (indexByQuestion existing)) existing
            (filter (fun card => indexByQuestion existing
                                 !! Flashcard.question card <> None) incoming)).
  split.
  - unfold mergeFlashcards.
    rewrite <- (app_nil_r existing) at 2.
    rewrite merge_appended by apply indexByQuestion_bound.
    simpl. f_equal. apply list_filter_iff. intros card.
    apply indexByQuestion_None.
  - apply merge_refresh_length. apply Forall_forall. intros card Hcard.
    now apply list_elem_of_filter in Hcard as [Hseen _].
Qed.

Lemma mergeFlashcards_lookup_last existing incoming (i : nat) (e : Flashcard.t) :
  existing !! i = Some e ->
  indexByQuestion existing !! Flashcard.question e = Some i ->
  mergeFlashcards existing incoming !! i
  = Some (foldl (fun m card => refreshCard card m) e
            (filter (fun card => Flashcard.question card = Flashcard.question e)
               incoming)).
Proof.
  intros He Hi. unfold mergeFlashcards.
  apply merge_lookup; [|exact He].
  intros card. split.
  - intros Hcard.
    destruct (indexByQuestion_Some existing _ _ Hcard) as [(e' & He' & Hq) _].
    congruence.
  - intros ->. exact Hi.
Qed.

(** C6, as the code has it.  The merge leaves the existing cards in
    place, refreshed or not, and appends the incoming cards whose
    question no existing card asks.  Of the existing cards that ask one
    question the last is the one that is refreshed: it keeps its
    identity and answer, its repetitions (0 when it has none) and its
    ease factor when that is at least 1.3, and takes the source lesson,
    the interval and the due date of the last incoming card that asks
    the question.  An existing card that a later existing card repeats,
    or that no incoming card matches, stays as it is. *)
Theorem mergeFlashcards_refresh (existing incoming : list Flashcard.t) :
  (exists refreshed,
      mergeFlashcards existing incoming
      = refreshed
        ++ filter (fun card => Flashcard.question card
                               ∉ Flashcard.question <$> existing) incoming /\
      length refreshed = length existing) /\
  (forall i e before card after,
      existing !! i = Some e ->
      (forall j e', (i < j)%nat -> existing !! j = Some e' ->
                    Flashcard.question e' <> Flashcard.question e) ->
      incoming = before ++ card :: after ->
      Flashcard.question card = Flashcard.question e ->
      Forall (fun c => Flashcard.question c <> Flashcard.question e) after ->
      exists m,
        mergeFlashcards existing incoming !! i = Some m /\
        Flashcard.id m = Flashcard.id e /\
        Flashcard.question m = Flashcard.question e /\
        Flashcard.answer m = Flashcard.answer e /\
        Flashcard.sourceLessonId m = Flashcard.sourceLessonId card /\
        Flashcard.interval m = Flashcard.interval card /\
        Flashcard.dueDate m = Flashcard.dueDate card /\
        Flashcard.repetitions m
          = Some (or_else (Flashcard.repetitions e) (of_Z 0)) /\
        (forall r, Flashcard.repetitions e = Some r -> truthy r = true ->
                   Flashcard.repetitions m = Some r) /\
        (forall x, Flashcard.easeFactor e = Some x ->
                   le (decimal 13 1) x = true ->
                   Flashcard.easeFactor m = Some x)) /\
  (forall i e,
      existing !! i = Some e ->
      Flashcard.question e ∉ Flashcard.question <$> incoming
      \/ (exists j e', (i < j)%nat /\ existing !! j = Some e' /\
                       Flashcard.question e' = Flashcard.question e) ->
      mergeFlashcards existing incoming !! i = Some e).
Proof.
  split; [apply mergeFlashcards_shape|]. split.
  - intros i e before card after He Hlast -> Hq Hafter.
    pose proof (indexByQuestion_last existing i e He Hlast) as Hi.
    rewrite (mergeFlashcards_lookup_last existing _ i e He Hi).
    rewrite filter_app, filter_cons, decide_True by exact Hq.
    rewrite (filter_none _ after)
      by (intros c Hc; rewrite Forall_forall in Hafter; now apply Hafter).
    set (cards := filter _ before).
    destruct (refresh_fold_kept e (cards ++ [card]))
      as (Hid & Hqm & Ha & _ & _ & Hease & Hrep).
    destruct (refresh_fold_taken e cards card) as (Hs & Hint & Hdue).
    specialize (Hrep ltac:(destruct cards; discriminate)).
    eexists. split; [reflexivity|].
    repeat (split; [assumption|]). split.
    + intros r Hr Ht. rewrite Hrep, Hr. simpl. now rewrite Ht.
    + intros x Hx Hle. apply Hease; [exact Hx|]. now apply ease_ge_truthy.
  - intros i e He Hcond.
    destruct (decide (indexByQuestion existing !! Flashcard.question e = Some i))
      as [Hi|Hi].
    + destruct Hcond as [Hnone|(j & e' & Hj & He' & Hq)].
      * rewrite (mergeFlashcards_lookup_last existing incoming i e He Hi).
        rewrite filter_none; [reflexivity|].
        intros c Hc Hqc. apply Hnone. rewrite <- Hqc.
        now apply list_elem_of_fmap_2.
      * destruct (indexByQuestion_Some existing _ _ Hi) as [_ Hlast].
        now apply (Hlast j e') in Hj.
    + unfold mergeFlashcards. apply merge_lookup_untouched; [|exact He].
      intros q Hq. apply Hi.
      destruct (indexByQuestion_Some existing _ _ Hq) as [(e' & He' & <-) _].
      congruence.
Qed.

End MergeFacts.

(** ** Reviews and the ease factor *)

Section ReviewFacts.

Context `{HostDate}.

(** C2. A review of a card whose ease factor is at least 1.3, or is
    absent so that 2.5 stands for it, with a grade in [0, 5], returns a
    card whose ease factor is at least 1.3; grading a stored card keeps
    that bound on every card of the store. *)
Theorem review_keeps_ease_floor
    (now : Date) (card : Flashcard.t) (grade : number) :
  is_double grade = true ->
  le (of_Z 0) grade = true -> le grade (of_Z 5) = true ->
  (easeFactorValid card ->
   exists e', Flashcard.easeFactor (applySm2Review now card grade) = Some e' /\
              le (decimal 13 1) e' = true) /\
  (forall cardId store,
      Forall easeFactorValid (default [] (Store.flashcards store)) ->
      Forall easeFactorValid
        (default [] (Store.flashcards (gradeFlashcard cardId grade now store)))).
Proof.
  intros Hd H0 H5. split.
  - intros Hvalid. now apply applySm2Review_ease.
  - intros cardId store Hall. unfold gradeFlashcard, gradeFlashcard_call.
    destruct (findIndexById cardId (default [] (Store.flashcards store)))
      as [index|]; [|exact Hall].
    destruct (default [] (Store.flashcards store) !! index) as [stored|]
      eqn:Hstored; [|exact Hall].
    assert (Hkept : easeFactorValid (applySm2Review now stored grade)).
    { destruct (applySm2Review_ease now stored grade) as (e' & He' & Hle);
        try assumption.
      - exact (proj1 (Forall_lookup _ _) Hall _ _ Hstored).
      - unfold easeFactorValid. now rewrite He'. }
    unfold applySm2Review_call.
    destruct (Flashcard.interval (applySm2Review now stored grade))
      as [interval|];
      [destruct (Date_isValid (Date_addDays now interval)); [|exact Hall]|];
      cbn [Store.flashcards default]; now apply Forall_insert.
Qed.

End ReviewFacts.

(** ** Concrete runs *)

(** The card of the scenario: interval 6, ease factor 2.5 and 2
    repetitions, graded 5. *)
Example applySm2Review_scenario :
  let updated :=
    applySm2Review (H := Utc.host) Demo.now
      (Demo.card "card-1" "Why space?" (of_Z 6) (decimal 25 1) (of_Z 2))
      (of_Z 5) in
  applySm2Review_call (H := Utc.host) Demo.now
    (Demo.card "card-1" "Why space?" (of_Z 6) (decimal 25 1) (of_Z 2)) (of_Z 5)
  = Returned updated /\
  Flashcard.interval updated = Some (of_Z 15) /\
  Flashcard.repetitions updated = Some (of_Z 3) /\
  Flashcard.easeFactor updated = Some (decimal 26 1) /\
  Flashcard.dueDate updated = Some "2024-03-17T09:00:00.000Z".
Proof. vm_compute. repeat split. Qed.

(** C1. A card that is new and is graded 5 sixteen times in a row.
    The first fifteen reviews return, the fifteenth with an interval of
    30216170 days.  For the sixteenth the formula gives 16
    repetitions and an interval of round(30216170 x ease factor) =
    120864680 days, but the due date that many days from
    2024-03-02 is beyond the last date there is, the 100,000,000th day
    from 1970: [toISOString] throws, and the call returns no card. *)
Theorem applySm2Review_throws_on_far_due_date :
  le (of_Z 0) (of_Z 5) = true /\ le (of_Z 5) (of_Z 5) = true /\
  DemoRun.reviewedInARow 15 DemoRun.fresh = Returned DemoRun.seasoned /\
  Flashcard.interval DemoRun.seasoned = Some (of_Z 30216170) /\
  Flashcard.repetitions DemoRun.seasoned = Some (of_Z 15) /\
  Flashcard.dueDate DemoRun.seasoned = Some "+084753-03-26T09:00:00.000Z" /\
  Flashcard.interval
    (applySm2Review (H := Utc.host) Demo.now DemoRun.seasoned (of_Z 5))
  = Some (Math_round (mul (priorInterval DemoRun.seasoned)
                        (priorEaseFactor DemoRun.seasoned))) /\
  Math_round (mul (priorInterval DemoRun.seasoned)
                (priorEaseFactor DemoRun.seasoned))
  = of_Z 120864680 /\
  Utc.isValid (Utc.addDays Demo.now (of_Z 120864680)) = false /\
  applySm2Review_call (H := Utc.host) Demo.now DemoRun.seasoned (of_Z 5)
  = Threw rangeError /\
  gradeFlashcard_call (H := Utc.host) "card-b" (of_Z 5) Demo.now
    DemoRun.seasonedStore
  = Threw rangeError /\
  gradeFlashcard (H := Utc.host) "card-b" (of_Z 5) Demo.now DemoRun.seasonedStore
  = DemoRun.seasonedStore.
Proof. vm_compute. repeat split. Qed.

(** C2 on a card at the floor of 1.3, graded 3. *)
Lemma review_keeps_ease_floor_witness :
  is_double (of_Z 3) = true /\
  le (of_Z 0) (of_Z 3) = true /\ le (of_Z 3) (of_Z 5) = true /\
  easeFactorValid
    (Demo.card "card-1" "Why space?" (of_Z 6) (decimal 13 1) (of_Z 2)) /\
  exists e',
    Flashcard.easeFactor
      (applySm2Review (H := Utc.host) Demo.now
         (Demo.card "card-1" "Why space?" (of_Z 6) (decimal 13 1) (of_Z 2))
         (of_Z 3)) = Some e' /\
    le (decimal 13 1) e' = true.
Proof.
  split; [vm_compute; reflexivity|]. split; [vm_compute; reflexivity|].
  split; [vm_compute; reflexivity|]. split; [vm_compute; reflexivity|].
  apply (review_keeps_ease_floor (H := Utc.host) Demo.now
           (Demo.card "card-1" "Why space?" (of_Z 6) (decimal 13 1) (of_Z 2))
           (of_Z 3));
    vm_compute; reflexivity.
Defined.

(** C3 on the order gemini, ollama, promptApi, where no key is stored
    for Gemini and the local server answers: the log of the browser
    shows the key being read and the POST to the server, and no call
    to the on-device model. *)
Lemma executeWithFallback_first_success_witness :
  AllFail (H := Demo.backends (Demo.ollamaAnswers Demo.lessonJson))
    (Demo.context []) ["gemini"] []
    [ {| ErrorRecord.backend := "gemini";
         ErrorRecord.error := "Missing Gemini API key" |} ]
    ["storage.sync.get"] /\
  attempt (H := Demo.backends (Demo.ollamaAnswers Demo.lessonJson))
    "ollama" (Demo.context []) ["storage.sync.get"]
  = Some (Returned Demo.lesson, ["storage.sync.get"; "POST ollama"]) /\
  executeWithFallback (H := Demo.backends (Demo.ollamaAnswers Demo.lessonJson))
    (H0 := Utc.host)
    (Some ["gemini"; "ollama"; "promptApi"]) (Demo.context []) Demo.now []
  = (Demo.lesson, ["storage.sync.get"; "POST ollama"]).
Proof.
  assert (Hfail :
    AllFail (H := Demo.backends (Demo.ollamaAnswers Demo.lessonJson))
      (Demo.context []) ["gemini"] []
      [ {| ErrorRecord.backend := "gemini";
           ErrorRecord.error := "Missing Gemini API key" |} ]
      ["storage.sync.get"]).
  { eapply (AllFail_threw _ "gemini" [] [] (Error.new "Missing Gemini API key")).
    - vm_compute. reflexivity.
    - constructor. }
  assert (Hok :
    attempt (H := Demo.backends (Demo.ollamaAnswers Demo.lessonJson))
      "ollama" (Demo.context []) ["storage.sync.get"]
    = Some (Returned Demo.lesson, ["storage.sync.get"; "POST ollama"]))
    by (vm_compute; reflexivity).
  split; [exact Hfail|]. split; [exact Hok|].
  exact (proj2 (proj1 (executeWithFallback_first_success
                         (H := Demo.backends (Demo.ollamaAnswers Demo.lessonJson))
                         (H0 := Utc.host) (Demo.context []) Demo.now [])
                  ["gemini"] "ollama" ["promptApi"] _ _ _ _ Hfail Hok)).
Defined.

(** C4 with nothing reachable and six cards due: three failures are
    recorded and the offline lesson carries the first five of the
    cards. *)
Lemma executeWithFallback_offline_witness :
  let failed :=
    [ {| ErrorRecord.backend := "gemini";
         ErrorRecord.error := "Missing Gemini API key" |};
      {| ErrorRecord.backend := "ollama";
         ErrorRecord.error := "Failed to fetch" |};
      {| ErrorRecord.backend := "promptApi";
         ErrorRecord.error := "Chrome Prompt API unavailable" |} ] in
  let asked (question : string) : ResultCard.entry :=
    Some {| ResultCard.question := question;
            ResultCard.answer := "An answer.";
            ResultCard.interval := None;
            ResultCard.easeFactor := None;
            ResultCard.repetitions := None |} in
  AllFail (H := Demo.backends Demo.offline) (Demo.context Demo.sixDue)
    (preferenceOrderOf None) [] failed ["storage.sync.get"; "POST ollama"] /\
  Context.dueFlashcards (Demo.context Demo.sixDue) <> [] /\
  Flashcard.question <$> Demo.sixDue
  = ["Question 0?"; "Question 1?"; "Question 2?"; "Question 3?";
     "Question 4?"; "Question 5?"] /\
  exists lesson,
    executeWithFallback (H := Demo.backends Demo.offline) (H0 := Utc.host)
      None (Demo.context Demo.sixDue) Demo.now []
    = (lesson, ["storage.sync.get"; "POST ollama"]) /\
    LessonResult.flashcards lesson
    = [asked "Question 0?"; asked "Question 1?"; asked "Question 2?";
       asked "Question 3?"; asked "Question 4?"].
Proof.
  intros failed asked.
  assert (Hfail :
    AllFail (H := Demo.backends Demo.offline) (Demo.context Demo.sixDue)
      (preferenceOrderOf None) [] failed ["storage.sync.get"; "POST ollama"]).
  { eapply (AllFail_threw _ "gemini" _ [] (Error.new "Missing Gemini API key"));
      [vm_compute; reflexivity|].
    eapply (AllFail_threw _ "ollama" _ _ Demo.networkError);
      [vm_compute; reflexivity|].
    eapply (AllFail_threw _ "promptApi" _ _
              (Error.new "Chrome Prompt API unavailable"));
      [vm_compute; reflexivity|].
    constructor. }
  assert (Hdue : Context.dueFlashcards (Demo.context Demo.sixDue) <> [])
    by discriminate.
  split; [exact Hfail|]. split; [exact Hdue|].
  split; [vm_compute; reflexivity|].
  destruct (executeWithFallback_offline (H := Demo.backends Demo.offline)
              (H0 := Utc.host) None (Demo.context Demo.sixDue) Demo.now []
              failed _ Hfail) as (Hrun & _ & _ & Hcards).
  eexists. split; [exact Hrun|].
  rewrite (Hcards Hdue). vm_compute. reflexivity.
Defined.

(** C5 on an answer in prose: the Gemini normalisation makes a lesson
    of it. *)
Lemma parse_failure_by_connector_witness :
  JSON_parse (HostBackends := Demo.backends (Demo.geminiAnswers Demo.plainAnswer))
    (stripCodeFence Demo.plainAnswer) = Threw Json.syntaxError /\
  exists result,
    normaliseModelOutput (H := Demo.backends (Demo.geminiAnswers Demo.plainAnswer))
      Demo.plainAnswer (Demo.context []) = Returned result /\
    LessonResult.title result = "Spaced repetition" /\
    LessonResult.summary result = ["Review after one day."; "Then after six."].
Proof.
  assert (Hparse :
    JSON_parse (HostBackends := Demo.backends (Demo.geminiAnswers Demo.plainAnswer))
      (stripCodeFence Demo.plainAnswer) = Threw Json.syntaxError)
    by (vm_compute; reflexivity).
  split; [exact Hparse|].
  destruct (parse_failure_by_connector
              (H := Demo.backends (Demo.geminiAnswers Demo.plainAnswer))
              Demo.plainAnswer (Demo.context []) Json.syntaxError Hparse)
    as ((result & Hresult & _ & Htitle & Hsummary) & _).
  exists result. split; [exact Hresult|]. split.
  - rewrite Htitle. vm_compute. reflexivity.
  - rewrite Hsummary. vm_compute. reflexivity.
Defined.

(** C6 as stated fails when two existing cards ask one question: an
    incoming card that asks it refreshes the later one, and the earlier
    one keeps its due date, source lesson and interval. *)
Lemma duplicate_question_not_refreshed :
  let first := Demo.card "card-1" "Why space?" (of_Z 6) (decimal 25 1) (of_Z 2) in
  let second := Demo.card "card-2" "Why space?" (of_Z 1) (decimal 25 1) (of_Z 0) in
  let merged := mergeFlashcards [first; second] [Demo.incomingCard "Why space?"] in
  Flashcard.question (Demo.incomingCard "Why space?") = Flashcard.question first /\
  merged !! 0%nat = Some first /\
  Flashcard.dueDate first <> Flashcard.dueDate (Demo.incomingCard "Why space?") /\
  Flashcard.sourceLessonId first
    <> Flashcard.sourceLessonId (Demo.incomingCard "Why space?") /\
  Flashcard.interval first <> Flashcard.interval (Demo.incomingCard "Why space?").
Proof.
  cbv zeta. split; [reflexivity|]. split; [vm_compute; reflexivity|].
  repeat split; vm_compute; discriminate.
Qed.

(** C6 on two existing cards with questions of their own. *)
Lemma mergeFlashcards_refresh_witness :
  let first := Demo.card "card-1" "Why space?" (of_Z 6) (decimal 25 1) (of_Z 2) in
  let second := Demo.card "card-2" "Why test?" (of_Z 6) (decimal 25 1) (of_Z 2) in
  exists m,
    mergeFlashcards [first; second]
      [Demo.incomingCard "Why test?"; Demo.incomingCard "Why sleep?"] !! 1%nat
    = Some m /\
    Flashcard.id m = "card-2" /\
    Flashcard.dueDate m = Some "2024-03-05T09:00:00.000Z" /\
    Flashcard.sourceLessonId m = Some "lesson-2024-03-05" /\
    Flashcard.interval m = Some (of_Z 1) /\
    Flashcard.repetitions m = Some (of_Z 2) /\
    Flashcard.easeFactor m = Some (decimal 25 1).
Proof.
  intros first second.
  destruct (proj1 (proj2 (mergeFlashcards_refresh [first; second]
              [Demo.incomingCard "Why test?"; Demo.incomingCard "Why sleep?"]))
              1%nat second [] (Demo.incomingCard "Why test?")
              [Demo.incomingCard "Why sleep?"])
    as (m & Hm & Hid & _ & _ & Hsrc & Hint & Hdue & _ & Hrep & Hease).
  - reflexivity.
  - intros [|[|j]] e' Hj Hlookup; [lia|lia|discriminate].
  - reflexivity.
  - reflexivity.
  - constructor; [discriminate|constructor].
  - exists m. split; [exact Hm|]. split; [exact Hid|].
    split; [exact Hdue|]. split; [exact Hsrc|]. split; [exact Hint|]. split.
    + apply Hrep; vm_compute; reflexivity.
    + apply Hease; vm_compute; reflexivity.
Defined.

(** C7 on a second lesson for the day of a first: the record of the
    day is the second lesson's. *)
Lemma persistDailyContent_lesson_list_witness :
  persistDailyContent (H := Utc.host) Demo.lesson "2024-03-02" Demo.settings
    Demo.now Demo.install
  = Returned DemoRun.afterFirst /\
  Lesson.title <$> default [] (Store.lessons DemoRun.afterFirst) = ["Spacing"] /\
  StoreReachable (H := Utc.host) DemoRun.afterFirst /\
  ("2024-03-02" ∈ Lesson.date <$> default [] (Store.lessons DemoRun.afterFirst)) /\
  exists after,
    persistDailyContent (H := Utc.host) DemoRun.secondLesson "2024-03-02"
      Demo.settings (Demo.now + 3600000)%Z DemoRun.afterFirst
    = Returned after /\
    filter (fun lesson => Lesson.date lesson = "2024-03-02")
      (default [] (Store.lessons after))
    = [ {| Lesson.id := "lesson-2024-03-02";
           Lesson.date := "2024-03-02";
           Lesson.title := "Interleaving";
           Lesson.summary := ["Mix topics."];
           Lesson.body := "<p>Mix it.</p>";
           Lesson.sources := [];
           Lesson.exercise := "Mix two topics.";
           Lesson.generatedAt := "2024-03-02T10:00:00.000Z";
           Lesson.mode := "autonomous" |} ].
Proof.
  assert (Hfirst :
    persistDailyContent (H := Utc.host) Demo.lesson "2024-03-02" Demo.settings
      Demo.now Demo.install
    = Returned DemoRun.afterFirst) by (vm_compute; reflexivity).
  assert (Hreach : StoreReachable (H := Utc.host) DemoRun.afterFirst)
    by (eapply reachable_persist; [apply reachable_install|exact Hfirst]).
  assert (Hday : "2024-03-02"
                 ∈ Lesson.date <$> default [] (Store.lessons DemoRun.afterFirst))
    by (vm_compute; left).
  split; [exact Hfirst|]. split; [vm_compute; reflexivity|].
  split; [exact Hreach|]. split; [exact Hday|].
  pose proof (persistDailyContent_lesson_list (H := Utc.host)
                DemoRun.secondLesson "2024-03-02" Demo.settings
                (Demo.now + 3600000)%Z DemoRun.afterFirst) as Hstep.
  cbv zeta in Hstep.
  destruct (persistDailyContent (H := Utc.host) DemoRun.secondLesson
              "2024-03-02" Demo.settings (Demo.now + 3600000)%Z
              DemoRun.afterFirst) as [after|error].
  - destruct Hstep as (_ & _ & Hlist).
    destruct (Hlist Hreach) as [_ Hentry].
    exists after. split; [reflexivity|].
    rewrite (Hentry (or_introl Hday)). vm_compute. reflexivity.
  - destruct Hstep as [Hnull _]. exfalso.
    apply list_elem_of_singleton in Hnull. discriminate Hnull.
Defined.

(** C8. In the time zone America/New_York on 2024-11-04, the day after
    the clocks went back an hour.  [new Date("2024-11-04")] is midnight
    UTC, which is 19:00 of 3 November there; [setDate] with the day
    before gives 19:00 of 2 November, which was 23:00 UTC of
    2 November, and [toISOString] makes "2024-11-02" of it.  A streak
    of three whose last lesson was on 2024-11-03, the day before, is
    reset to 1.  A host in UTC takes "2024-11-03" for yesterday and
    counts four. *)
Theorem updateStats_streak_lost_after_clock_change :
  Date_parse (HostDate := Eastern.host) "2024-11-04" = 1730678400000%Z /\
  Eastern.toLocaleDateString 1730678400000 = "11/3/2024" /\
  Date_addDays (HostDate := Eastern.host) 1730678400000%Z (of_Z (-1))
  = 1730588400000%Z /\
  Date_toISOString (HostDate := Eastern.host) 1730588400000%Z
  = "2024-11-02T23:00:00.000Z" /\
  yesterdayKeyOf (H := Eastern.host) "2024-11-04" = "2024-11-02" /\
  Stats.lastLessonDate (Demo.stats 3 "2024-11-03") = Some "2024-11-03" /\
  Stats.streak (Demo.stats 3 "2024-11-03") = Some (of_Z 3) /\
  Stats.streak
    (updateStats (H := Eastern.host) (Demo.stats 3 "2024-11-03") "2024-11-04"
       (of_Z 1))
  = Some (of_Z 1) /\
  yesterdayKeyOf (H := Utc.host) "2024-11-04" = "2024-11-03" /\
  Stats.streak
    (updateStats (H := Utc.host) (Demo.stats 3 "2024-11-03") "2024-11-04"
       (of_Z 1))
  = Some (of_Z 4).
Proof. vm_compute. repeat split. Qed.

(** C9 on a short note. *)
Lemma chunking_by_windows_witness :
  "Spacing works." <> "" /\
  (String.length "Spacing works." <= 900)%nat /\
  windows "Spacing works." 900 = ["Spacing works."].
Proof.
  assert (Hne : "Spacing works." <> "") by discriminate.
  assert (Hlen : (String.length "Spacing works." <= 900)%nat)
    by (vm_compute; lia).
  split; [exact Hne|]. split; [exact Hlen|].
  destruct (proj1 (chunking_by_windows (H := Demo.web Demo.offline))
              "Spacing works.") as (_ & _ & _ & Hshort & _).
  exact (Hshort Hne Hlen).
Defined.

(** C10 on a preference list of two unknown identifiers. *)
Lemma executeWithFallback_unknown_backend_witness :
  knownBackend "claude" = false /\
  Forall (fun b => knownBackend b = false) ["claude"; "gpt"] /\
  executeWithFallback (H := Demo.backends Demo.offline) (H0 := Utc.host)
    (Some ["claude"; "gpt"]) (Demo.context []) Demo.now []
  = (buildOfflineFallbackLesson (H0 := Utc.host) (Demo.context []) [] Demo.now, []).
Proof.
  assert (Hall : Forall (fun b => knownBackend b = false) ["claude"; "gpt"])
    by (repeat constructor).
  split; [reflexivity|]. split; [exact Hall|].
  exact (proj2 (proj2 (proj2 (executeWithFallback_unknown_backend
                                (H := Demo.backends Demo.offline)
                                (H0 := Utc.host) (Demo.context []) Demo.now)))
           "claude" ["gpt"] [] Hall).
Defined.

(** ** The daily pipeline *)

Section PipelineFacts.

Context {World : Type} `{HostWeb World} `{HostBackends World} `{HostDate}.

(** The popup's due check and the worker's due filter are one
    predicate. *)
Lemma isCardDue_dueForGeneration (now : Date) (card : Flashcard.t) :
  isCardDue now card = dueForGeneration now card.
Proof.
  unfold isCardDue, dueForGeneration.
  destruct (Flashcard.dueDate card) as [[|c s]|]; reflexivity.
Qed.

(** The three ways building the context ends. *)
Lemma prepareGenerationContext_cases
    (settings : Settings.t) (now : Date) (store : Store.t) (w : World) :
  let chunked := chunksInOrder (default [] (Settings.curatedSources settings)) w in
  let contextWith curatedChunks :=
    {| Context.settings := settings;
       Context.recentLessons := takeLast 5 (default [] (Store.lessons store));
       Context.dueFlashcards :=
         filter (fun card => dueForGeneration now card = true)
           (default [] (Store.flashcards store));
       Context.curatedChunks := curatedChunks |} in
  (Settings.mode settings <> "curated" ->
     prepareGenerationContext settings now store w
     = Some (Returned (contextWith []), w)) /\
  (Settings.mode settings = "curated" -> chunked.1 = [] ->
     prepareGenerationContext settings now store w
     = Some (Threw (Error.new
                      "Curated mode requires at least one processed source."),
             chunked.2)) /\
  (Settings.mode settings = "curated" -> chunked.1 <> [] ->
     prepareGenerationContext settings now store w
     = Some (Returned (contextWith chunked.1), chunked.2)).
Proof.
  intros chunked contextWith. unfold prepareGenerationContext.
  split; [|split].
  - intros Hmode. apply String.eqb_neq in Hmode. now rewrite Hmode.
  - intros Hmode Hnone. apply String.eqb_eq in Hmode. rewrite Hmode.
    rewrite chunkSources_in_order. fold chunked. now rewrite Hnone.
  - intros Hmode Hsome. apply String.eqb_eq in Hmode. rewrite Hmode.
    rewrite chunkSources_in_order. fold chunked.
    destruct chunked.1; [congruence|reflexivity].
Qed.

(** X1.  Building the context ends.  Outside curated mode it calls nothing
    and carries no chunk; in curated mode it fails exactly when the
    chunking pass yields no chunk.  The context it returns holds the
    stored settings, the last lessons, five at most, and the stored
    cards the popup's due check [isCardDue] holds of, in their order. *)
Theorem prepareGenerationContext_outcome
    (settings : Settings.t) (now : Date) (store : Store.t) (w : World) :
  let chunks :=
    (chunksInOrder (default [] (Settings.curatedSources settings)) w).1 in
  let w' :=
    (chunksInOrder (default [] (Settings.curatedSources settings)) w).2 in
  let contextWith curatedChunks :=
    {| Context.settings := settings;
       Context.recentLessons := takeLast 5 (default [] (Store.lessons store));
       Context.dueFlashcards :=
         filter (fun card => isCardDue now card = true)
           (default [] (Store.flashcards store));
       Context.curatedChunks := curatedChunks |} in
  (Settings.mode settings <> "curated" ->
     prepareGenerationContext settings now store w
     = Some (Returned (contextWith []), w)) /\
  (Settings.mode settings = "curated" -> chunks = [] ->
     prepareGenerationContext settings now store w
     = Some (Threw (Error.new
                      "Curated mode requires at least one processed source."),
             w')) /\
  (Settings.mode settings = "curated" -> chunks <> [] ->
     prepareGenerationContext settings now store w
     = Some (Returned (contextWith chunks), w')) /\
  (length (takeLast 5 (default [] (Store.lessons store))) <= 5)%nat /\
  filter (fun card => isCardDue now card = true)
    (default [] (Store.flashcards store))
  `sublist_of` default [] (Store.flashcards store).
Proof.
  intros chunks w' contextWith.
  assert (Hdue :
    filter (fun card => isCardDue now card = true)
      (default [] (Store.flashcards store))
    = filter (fun card => dueForGeneration now card = true)
        (default [] (Store.flashcards store))).
  { apply list_filter_iff. intros card.
    now rewrite isCardDue_dueForGeneration. }
  subst contextWith. cbv beta. rewrite Hdue.
  destruct (prepareGenerationContext_cases settings now store w)
    as (Hauto & Hnone & Hsome).
  split; [exact Hauto|]. split; [exact Hnone|]. split; [exact Hsome|].
  split; [apply takeLast_length|apply sublist_filter].
Qed.

(** X2.  Every run ends, in one of four ways.  A scheduled run on a
    day that is marked as generated changes nothing and notifies
    nothing.  A run whose context cannot be built, which is a curated
    run without a chunk, leaves the store as it was and notifies the
    failure, having called no backend.  Any other run goes through the
    orchestrator.  When no flashcard of the result is [null], the
    result is persisted under today's key, with the ready notification
    if notifications are enabled; when one is, the persistence step
    throws, nothing is stored and the failure is notified. *)
Theorem runDailyLessonPipeline_outcome
    (triggerSource : Trigger) (storedSettings : option Settings.t)
    (clock : Clock) (store : Store.t) (w : World) :
  let settings := default DEFAULT_SETTINGS storedSettings in
  let todayKey := todayKeyOf (atStart clock) in
  let chunked := chunksInOrder (default [] (Settings.curatedSources settings)) w in
  let suppressed :=
    triggerSource = scheduled /\ Store.lastGeneratedAt store = Some todayKey in
  let noChunk := Settings.mode settings = "curated" /\ chunked.1 = [] in
  (suppressed ->
     runDailyLessonPipeline triggerSource storedSettings clock store w
     = Some {| runStore := store; runNotification := None; runWorld := w |}) /\
  (~ suppressed -> noChunk ->
     runDailyLessonPipeline triggerSource storedSettings clock store w
     = Some {| runStore := store;
               runNotification := Some NotifyError;
               runWorld := chunked.2 |}) /\
  (~ suppressed -> ~ noChunk ->
     exists generationContext w1,
       prepareGenerationContext settings (atContext clock) store w
       = Some (Returned generationContext, w1) /\
       let generated :=
         executeWithFallback (Settings.backendPreference settings)
           generationContext (atFallback clock) w1 in
       (None ∉ LessonResult.flashcards generated.1 ->
          exists store',
            persistDailyContent generated.1 todayKey settings
              (atPersist clock) store
            = Returned store' /\
            runDailyLessonPipeline triggerSource storedSettings clock store w
            = Some {| runStore := store';
                      runNotification :=
                        if Settings.notificationsEnabled settings
                        then Some NotifyReady else None;
                      runWorld := generated.2 |}) /\
       (None ∈ LessonResult.flashcards generated.1 ->
          persistDailyContent generated.1 todayKey settings
            (atPersist clock) store
          = Threw nullCardError /\
          runDailyLessonPipeline triggerSource storedSettings clock store w
          = Some {| runStore := store;
                    runNotification := Some NotifyError;
                    runWorld := generated.2 |})).
Proof.
  intros settings todayKey chunked suppressed noChunk.
  subst suppressed noChunk.
  destruct (prepareGenerationContext_cases settings (atContext clock) store w)
    as (Hauto & Hnone & Hsome).
  fold chunked in Hnone, Hsome.
  unfold runDailyLessonPipeline. fold settings todayKey.
  split; [|split].
  - intros [-> Hlast]. now rewrite bool_decide_eq_true_2 by assumption.
  - intros Hnot [Hmode Hempty].
    assert (Hguard :
      bool_decide (Store.lastGeneratedAt store = Some todayKey)
      && match triggerSource with scheduled => true | _ => false end = false).
    { destruct triggerSource; try apply andb_false_r.
      rewrite bool_decide_eq_false_2; [reflexivity|]. intros Hlast.
      now apply Hnot. }
    rewrite Hguard. now rewrite (Hnone Hmode Hempty).
  - intros Hnot Hchunks.
    assert (Hguard :
      bool_decide (Store.lastGeneratedAt store = Some todayKey)
      && match triggerSource with scheduled => true | _ => false end = false).
    { destruct triggerSource; try apply andb_false_r.
      rewrite bool_decide_eq_false_2; [reflexivity|]. intros Hlast.
      now apply Hnot. }
    rewrite Hguard.
    assert (Hcontext : exists generationContext w1,
               prepareGenerationContext settings (atContext clock) store w
               = Some (Returned generationContext, w1)).
    { destruct (decide (Settings.mode settings = "curated")) as [Hmode|Hmode].
      - assert (Hne : chunked.1 <> []) by (intros Hempty; now apply Hchunks).
        rewrite (Hsome Hmode Hne). eauto.
      - rewrite (Hauto Hmode). eauto. }
    destruct Hcontext as (generationContext & w1 & ->).
    exists generationContext, w1. split; [reflexivity|].
    cbv zeta.
    destruct (executeWithFallback (Settings.backendPreference settings)
                generationContext (atFallback clock) w1) as [result w2].
    cbn [fst snd].
    pose proof (persistDailyContent_outcome result todayKey settings
                  (atPersist clock) store) as Houtcome.
    destruct (persistDailyContent result todayKey settings (atPersist clock)
                store) as [store'|error].
    + split; [intros _; now exists store'|]. intros Hnull. now destruct Houtcome.
    + destruct Houtcome as [Hnull ->].
      split; [intros Hclean; now destruct Hclean|]. intros _. now split.
Qed.

(** X3.  A run that generates marks the day: a scheduled trigger later that
    day finds the mark and changes nothing, whatever the settings are
    then and whatever the browser would answer. *)
Theorem generated_day_is_marked
    (triggerSource : Trigger) (storedSettings : option Settings.t)
    (clock : Clock) (store : Store.t) (w : World) (run : Run) :
  runDailyLessonPipeline triggerSource storedSettings clock store w = Some run ->
  runNotification run <> Some NotifyError ->
  Store.lastGeneratedAt (runStore run) = Some (todayKeyOf (atStart clock)) /\
  forall storedSettings' clock' w',
    todayKeyOf (atStart clock') = todayKeyOf (atStart clock) ->
    runDailyLessonPipeline scheduled storedSettings' clock' (runStore run) w'
    = Some {| runStore := runStore run;
              runNotification := None;
              runWorld := w' |}.
Proof.
  intros Hrun Hok.
  assert (Hmark :
    Store.lastGeneratedAt (runStore run) = Some (todayKeyOf (atStart clock))).
  { unfold runDailyLessonPipeline in Hrun.
    destruct (bool_decide _ && _) eqn:Hguard.
    - injection Hrun as <-. simpl.
      apply andb_prop in Hguard as [Hlast _].
      now apply bool_decide_eq_true in Hlast.
    - destruct (prepareGenerationContext _ _ _ _) as [[[context|error] w1]|];
        [|injection Hrun as <-; simpl in Hok; congruence|discriminate].
      destruct (executeWithFallback _ _ _ _) as [result w2].
      destruct (persistDailyContent result _ _ _ store) as [store'|error]
        eqn:Hstep; [|injection Hrun as <-; simpl in Hok; congruence].
      injection Hrun as <-. cbn [runStore].
      now apply persistDailyContent_lessons in Hstep as [_ Hmark]. }
  split; [exact Hmark|].
  intros storedSettings' clock' w' Hsame.
  unfold runDailyLessonPipeline.
  rewrite Hsame, bool_decide_eq_true_2 by exact Hmark. reflexivity.
Qed.

End PipelineFacts.

(** ** Grading, statistics and the stored lists *)

Section GradeFacts.

Context `{HostDate}.

Lemma findIndexById_None (cardId : string) (cards : list Flashcard.t) :
  cardId ∉ Flashcard.id <$> cards -> findIndexById cardId cards = None.
Proof.
  induction cards as [|card cards IH]; intros Hnot; [reflexivity|].
  rewrite fmap_cons, not_elem_of_cons in Hnot. destruct Hnot as [Hne Hnot].
  simpl. rewrite (proj2 (String.eqb_neq _ _)) by congruence.
  now rewrite IH.
Qed.

Lemma findIndexById_first (cardId : string)
    (before : list Flashcard.t) (card : Flashcard.t) (after : list Flashcard.t) :
  Flashcard.id card = cardId ->
  cardId ∉ Flashcard.id <$> before ->
  findIndexById cardId (before ++ card :: after) = Some (length before).
Proof.
  intros Hid. induction before as [|x before IH]; intros Hnot; simpl.
  - now rewrite (proj2 (String.eqb_eq _ _)) by assumption.
  - rewrite fmap_cons, not_elem_of_cons in Hnot. destruct Hnot as [Hne Hnot].
    rewrite (proj2 (String.eqb_neq _ _)) by congruence.
    now rewrite IH.
Qed.

Lemma insert_middle {A : Type} (y : A) (before : list A) (x : A)
    (after : list A) :
  <[length before := y]> (before ++ x :: after) = before ++ y :: after.
Proof.
  induction before as [|z before IH]; simpl; [reflexivity|].
  f_equal. exact IH.
Qed.

(** A review returns the card it has built when the due date of that
    card is a date, and throws a [RangeError] when it is not. *)
Lemma applySm2Review_call_outcome
    (now : Date) (card : Flashcard.t) (grade : number) :
  exists interval,
    Flashcard.interval (applySm2Review now card grade) = Some interval /\
    applySm2Review_call now card grade
    = if Date_isValid (Date_addDays now interval)
      then Returned (applySm2Review now card grade)
      else Threw rangeError.
Proof.
  unfold applySm2Review_call.
  assert (Hset : exists interval,
             Flashcard.interval (applySm2Review now card grade) = Some interval).
  { unfold applySm2Review.
    destruct (lt _ (of_Z 3)); cbn [Flashcard.interval]; eauto. }
  destruct Hset as [interval Hinterval]. exists interval.
  split; [exact Hinterval|]. now rewrite Hinterval.
Qed.

(** X4.  Grading a card the store does not hold changes nothing.
    Grading one it holds reviews the first card of that identifier.
    When the review returns, the reviewed card takes the place of the
    card, one more review is counted, and the other cards, the
    lessons, the streak and the day's mark are as they were.  When the
    review throws, which it does when the due date is out of the range
    of dates, the call throws and the store is as it was. *)
Theorem gradeFlashcard_effect
    (cardId : string) (grade : number) (now : Date) (store : Store.t) :
  let cards := default [] (Store.flashcards store) in
  let stats := default defaultStats (Store.stats store) in
  (cardId ∉ Flashcard.id <$> cards ->
     gradeFlashcard_call cardId grade now store = Returned store) /\
  (forall before card after,
      cards = before ++ card :: after ->
      Flashcard.id card = cardId ->
      cardId ∉ Flashcard.id <$> before ->
      exists interval,
        Flashcard.interval (applySm2Review now card grade) = Some interval /\
        (Date_isValid (Date_addDays now interval) = true ->
           applySm2Review_call now card grade
           = Returned (applySm2Review now card grade) /\
           gradeFlashcard_call cardId grade now store
           = Returned
               {| Store.lessons := Store.lessons store;
                  Store.flashcards :=
                    Some (before ++ applySm2Review now card grade :: after);
                  Store.stats :=
                    Some {| Stats.streak := Stats.streak stats;
                            Stats.lastLessonDate := Stats.lastLessonDate stats;
                            Stats.totalLessons := Stats.totalLessons stats;
                            Stats.totalFlashcardsReviewed :=
                              Some (add (or_else
                                           (Stats.totalFlashcardsReviewed stats)
                                           (of_Z 0))
                                      (of_Z 1));
                            Stats.flashcardsGeneratedToday :=
                              Stats.flashcardsGeneratedToday stats |};
                  Store.lastGeneratedAt := Store.lastGeneratedAt store |}) /\
        (Date_isValid (Date_addDays now interval) = false ->
           applySm2Review_call now card grade = Threw rangeError /\
           gradeFlashcard_call cardId grade now store = Threw rangeError /\
           gradeFlashcard cardId grade now store = store)).
Proof.
  intros cards stats. split.
  - intros Hnot. unfold gradeFlashcard_call. fold cards.
    now rewrite findIndexById_None.
  - intros before card after Hcards Hid Hnot.
    destruct (applySm2Review_call_outcome now card grade)
      as (interval & Hinterval & Hcall).
    exists interval. split; [exact Hinterval|].
    assert (Hfound : findIndexById cardId cards = Some (length before))
      by (rewrite Hcards; now apply findIndexById_first).
    assert (Hcard : cards !! length before = Some card)
      by (rewrite Hcards; apply list_lookup_middle; reflexivity).
    split.
    + intros Hvalid. rewrite Hvalid in Hcall. split; [exact Hcall|].
      unfold gradeFlashcard_call. fold cards stats.
      rewrite Hfound, Hcard, Hcall. rewrite Hcards at 1.
      now rewrite insert_middle.
    + intros Hinvalid. rewrite Hinvalid in Hcall. split; [exact Hcall|].
      unfold gradeFlashcard, gradeFlashcard_call. fold cards stats.
      rewrite Hfound, Hcard, Hcall. now split.
Qed.

(** X5.  Generating twice on one day: the second run leaves the streak and
    the count of reviews as the first left them, and the count of
    reviews is the stored one, or 0 when there is none.  The count of
    lessons goes up a second time. *)
Theorem updateStats_same_day
    (stats : Stats.t) (todayKey : string) (newCardCount newCardCount' : number) :
  let first := updateStats stats todayKey newCardCount in
  let second := updateStats first todayKey newCardCount' in
  Stats.streak second = Stats.streak first /\
  Stats.lastLessonDate second = Some todayKey /\
  Stats.totalFlashcardsReviewed first
    = Some (or_else (Stats.totalFlashcardsReviewed stats) (of_Z 0)) /\
  Stats.totalFlashcardsReviewed second = Stats.totalFlashcardsReviewed first /\
  Stats.totalLessons second
    = Some (add (or_else (Stats.totalLessons first) (of_Z 0)) (of_Z 1)) /\
  Stats.flashcardsGeneratedToday second = Some newCardCount'.
Proof.
  intros first second. subst first second. unfold updateStats.
  cbn [Stats.streak Stats.lastLessonDate Stats.totalFlashcardsReviewed
       Stats.totalLessons Stats.flashcardsGeneratedToday].
  rewrite (bool_decide_eq_true_2 (Some todayKey = Some todayKey)) by reflexivity.
  repeat split. now rewrite or_else_idem.
Qed.

End GradeFacts.

Section MergeKeeps.

Lemma fmap_alter_preserved {A B : Type} (g : A -> B) (f : A -> A) (i : nat)
    (l : list A) :
  (forall x, g (f x) = g x) -> g <$> alter f i l = g <$> l.
Proof.
  intros Hg. revert i. induction l as [|x l IH]; intros [|i]; simpl;
    try reflexivity.
  - now rewrite Hg.
  - f_equal. apply IH.
Qed.

Lemma merge_refresh_preserved {B : Type} (g : Flashcard.t -> B)
    (index : gmap string nat) (incoming : list Flashcard.t) :
  (forall card e, g (refreshCard card e) = g e) ->
  Forall (fun card => index !! Flashcard.question card <> None) incoming ->
  forall merged,
    g <$> foldl (mergeStep index) merged incoming = g <$> merged.
Proof.
  intros Hg. induction 1 as [|card incoming Hcard _ IH]; intros merged;
    [reflexivity|].
  cbn [foldl]. rewrite IH. unfold mergeStep.
  destruct (index !! Flashcard.question card); [|congruence].
  apply fmap_alter_preserved. intros e. apply Hg.
Qed.

(** X6.  The merge loses nothing: the existing cards keep their places,
    identifiers, questions and answers, every incoming question is
    asked by a card of the result, and the result is longer than the
    existing list by the incoming cards whose question is new. *)
Theorem mergeFlashcards_keeps (existing incoming : list Flashcard.t) :
  let merged := mergeFlashcards existing incoming in
  Flashcard.id <$> take (length existing) merged = Flashcard.id <$> existing /\
  Flashcard.question <$> take (length existing) merged
    = Flashcard.question <$> existing /\
  Flashcard.answer <$> take (length existing) merged
    = Flashcard.answer <$> existing /\
  length merged
    = (length existing
       + length (filter (fun card => Flashcard.question card
                                     ∉ Flashcard.question <$> existing)
                   incoming))%nat /\
  (forall card, card ∈ incoming ->
                Flashcard.question card ∈ Flashcard.question <$> merged).
Proof.
  intros merged. subst merged.
  assert (Hshape : mergeFlashcards existing incoming
                   = foldl (mergeStep (indexByQuestion existing)) existing
                       (filter (fun card => indexByQuestion existing
                                  !! Flashcard.question card <> None) incoming)
                     ++ filter (fun card => Flashcard.question card
                                  ∉ Flashcard.question <$> existing) incoming).
  { unfold mergeFlashcards.
    rewrite <- (app_nil_r existing) at 2.
    rewrite merge_appended by apply indexByQuestion_bound.
    simpl. f_equal. apply list_filter_iff. intros card.
    apply indexByQuestion_None. }
  rewrite Hshape. clear Hshape.
  set (index := indexByQuestion existing).
  set (seen := filter (fun card => index !! Flashcard.question card <> None)
                 incoming).
  set (unseen := filter (fun card => Flashcard.question card
                                     ∉ Flashcard.question <$> existing)
                   incoming).
  assert (Hseen : Forall (fun card => index !! Flashcard.question card <> None)
                    seen).
  { apply Forall_forall. intros card Hcard.
    now apply list_elem_of_filter in Hcard as [Hs _]. }
  assert (Hlen : length (foldl (mergeStep index) existing seen)
                 = length existing) by now apply merge_refresh_length.
  rewrite take_app_length' by (symmetry; exact Hlen).
  split; [now apply merge_refresh_preserved|].
  split; [now apply merge_refresh_preserved|].
  split; [now apply merge_refresh_preserved|].
  split; [rewrite length_app; lia|].
  intros card Hcard. rewrite fmap_app, elem_of_app.
  destruct (decide (Flashcard.question card ∈ Flashcard.question <$> existing))
    as [Hin|Hnot].
  - left. now rewrite (merge_refresh_preserved Flashcard.question).
  - right. apply list_elem_of_fmap_2. subst unseen.
    apply list_elem_of_filter. now split.
Qed.

End MergeKeeps.

(** ** The order of the stored lessons *)

Section DayOrder.

Lemma ltb_trans (a b c : string) :
  String.ltb a b = true -> String.ltb b c = true -> String.ltb a c = true.
Proof.
  unfold String.ltb. intros Hab Hbc.
  destruct (String.compare a b) eqn:Eab; try discriminate.
  destruct (String.compare b c) eqn:Ebc; try discriminate.
  assert (Hle : String.le a c).
  { transitivity b; unfold String.le, String.leb;
      [rewrite Eab|rewrite Ebc]; exact I. }
  unfold String.le, String.leb in Hle.
  destruct (String.compare a c) eqn:Eac; [|reflexivity|destruct Hle].
  apply String.compare_eq_iff in Eac. subst c.
  rewrite String.compare_antisym, Eab in Ebc. discriminate.
Qed.

Lemma ltb_asym (a b : string) :
  String.ltb a b = true -> String.ltb b a = false.
Proof.
  unfold String.ltb. rewrite (String.compare_antisym a b).
  now destruct (String.compare b a).
Qed.

Lemma ltb_total (a b : string) :
  a <> b -> String.ltb a b = false -> String.ltb b a = true.
Proof.
  unfold String.ltb. intros Hne. rewrite (String.compare_antisym b a).
  destruct (String.compare a b) eqn:Eab; try discriminate; [|reflexivity].
  now apply String.compare_eq_iff in Eab.
Qed.

#[local] Instance dateBefore_trans : Transitive dateBefore.
Proof. intros a b c. apply ltb_trans. Qed.

Lemma dateBefore_asym (a b : Lesson.t) : dateBefore a b -> ~ dateBefore b a.
Proof.
  unfold dateBefore. intros Hab Hba. apply ltb_asym in Hab. congruence.
Qed.

Lemma dateBefore_ne (a b : Lesson.t) :
  dateBefore a b -> Lesson.date a <> Lesson.date b.
Proof.
  intros Hab Heq. unfold dateBefore in Hab. rewrite Heq in Hab.
  pose proof (ltb_asym _ _ Hab). congruence.
Qed.

Lemma sortInsert_sorted (x : Lesson.t) (l : list Lesson.t) :
  StronglySorted dateBefore l ->
  Lesson.date x ∉ Lesson.date <$> l ->
  StronglySorted dateBefore (sortInsert lessonAfter x l).
Proof.
  induction 1 as [|y l Hl IH Hy]; intros Hx; simpl.
  - repeat constructor.
  - rewrite fmap_cons, not_elem_of_cons in Hx. destruct Hx as [Hne Hx].
    unfold lessonAfter at 1, stringGt.
    destruct (String.ltb (Lesson.date y) (Lesson.date x)) eqn:Hyx.
    + constructor; [now apply IH|].
      rewrite sortInsert_Permutation. now constructor.
    + assert (Hxy : dateBefore x y) by (apply ltb_total; [congruence|exact Hyx]).
      constructor; [now constructor|].
      constructor; [exact Hxy|].
      eapply Forall_impl; [exact Hy|]. intros z Hz. now transitivity y.
Qed.

Lemma sortWith_sorted (l : list Lesson.t) :
  NoDup (Lesson.date <$> l) ->
  StronglySorted dateBefore (sortWith lessonAfter l).
Proof.
  induction l as [|x l IH]; intros Hnd; [constructor|].
  rewrite fmap_cons in Hnd. apply NoDup_cons in Hnd as [Hx Hnd].
  cbn [sortWith foldr]. apply sortInsert_sorted; [now apply IH|].
  fold (sortWith lessonAfter l). now rewrite sortWith_Permutation.
Qed.

Lemma sorted_NoDup (l : list Lesson.t) :
  StronglySorted dateBefore l -> NoDup (Lesson.date <$> l).
Proof.
  induction 1 as [|x l Hl IH Hx]; [constructor|].
  rewrite fmap_cons. constructor; [|exact IH].
  intros Hin. apply list_elem_of_fmap in Hin as (y & Heq & Hy).
  rewrite Forall_forall in Hx. now apply (dateBefore_ne x y (Hx y Hy)).
Qed.

(** Any ascending arrangement of the lessons is the one the sort gives. *)
Lemma sortWith_canonical (l l' : list Lesson.t) :
  l' ≡ₚ l -> StronglySorted dateBefore l' -> sortWith lessonAfter l = l'.
Proof.
  intros Hperm Hsorted.
  apply (StronglySorted_unique_strong dateBefore).
  - intros a b _ _ Hab Hba. now destruct (dateBefore_asym a b).
  - apply sortWith_sorted. rewrite <- Hperm. now apply sorted_NoDup.
  - exact Hsorted.
  - now rewrite sortWith_Permutation.
Qed.

Lemma takeLast_sorted (n : nat) (l : list Lesson.t) :
  StronglySorted dateBefore l -> StronglySorted dateBefore (takeLast n l).
Proof.
  intros Hl. unfold takeLast.
  rewrite <- (take_drop (length l - n) l) in Hl.
  now apply StronglySorted_app_1_r in Hl.
Qed.

Lemma updatedLessonsOf_sorted (lessons : list Lesson.t) (newLesson : Lesson.t) :
  NoDup (Lesson.date <$> lessons) ->
  StronglySorted dateBefore (updatedLessonsOf lessons newLesson).
Proof.
  intros Hnd. unfold updatedLessonsOf.
  apply takeLast_sorted, sortWith_sorted. now apply kept_dates_NoDup.
Qed.

(** X7.  A lesson of a later day than every stored one goes to the end of
    an ascending list, and the 60 last of the list stay: with 60
    lessons stored, the oldest one leaves. *)
Theorem updatedLessonsOf_later_day
    (lessons : list Lesson.t) (newLesson : Lesson.t) :
  StronglySorted dateBefore lessons ->
  Forall (fun lesson => dateBefore lesson newLesson) lessons ->
  updatedLessonsOf lessons newLesson = takeLast 60 (lessons ++ [newLesson]) /\
  (length lessons = 60%nat ->
   updatedLessonsOf lessons newLesson = drop 1 lessons ++ [newLesson]).
Proof.
  intros Hsorted Hlater.
  assert (Hkept : filter (fun lesson => Lesson.date lesson
                                        <> Lesson.date newLesson) lessons
                  = lessons).
  { clear Hsorted. induction Hlater as [|x l Hx _ IH]; [reflexivity|].
    rewrite filter_cons, decide_True by now apply dateBefore_ne.
    now rewrite IH. }
  assert (Heq : updatedLessonsOf lessons newLesson
                = takeLast 60 (lessons ++ [newLesson])).
  { unfold updatedLessonsOf. rewrite Hkept. f_equal.
    apply sortWith_canonical; [reflexivity|].
    apply StronglySorted_app_2; [|exact Hsorted|repeat constructor].
    intros a b Ha Hb. apply list_elem_of_singleton in Hb. subst b.
    rewrite Forall_forall in Hlater. now apply Hlater. }
  split; [exact Heq|].
  intros Hlen. rewrite Heq. unfold takeLast.
  rewrite length_app, Hlen. cbn [length Nat.add Nat.sub].
  change (60 + 1 - 60)%nat with 1%nat.
  rewrite drop_app_le by lia. reflexivity.
Qed.

Context `{HostDate}.

(** X8.  The stored lessons are in ascending order of their days, whatever
    lessons were persisted and cards graded since the install. *)
Theorem stored_lessons_ascending (store : Store.t) :
  StoreReachable store ->
  StronglySorted dateBefore (default [] (Store.lessons store)).
Proof.
  induction 1 as [|result todayKey settings now store store' Hreach IH Hstep
                  |cardId grade now store Hreach IH].
  - constructor.
  - apply persistDailyContent_lessons in Hstep as [-> _]. cbn [default].
    apply updatedLessonsOf_sorted. now apply reachable_lessons.
  - now rewrite gradeFlashcard_lessons.
Qed.

End DayOrder.

(** ** More on the SM-2 engine *)

Section Sm2Edges.

Context `{HostDate}.

Lemma Math_min_left (x y : number) :
  le x y = true ->
  Math_min x y = x \/ (exists sx sy, x = S754_zero sx /\ y = S754_zero sy).
Proof.
  intros Hle.
  pose proof (le_not_nan_l _ _ Hle) as Hx.
  pose proof (le_not_nan_r _ _ Hle) as Hy.
  unfold le, SFleb in Hle. unfold Math_min.
  destruct (SFcompare x y) as [[]|] eqn:E; try discriminate.
  - destruct (SFcompare_Eq _ _ E) as [->|Hz]; [|now right].
    left. destruct y as [[]| | |]; congruence.
  - left. destruct x, y; congruence.
Qed.

Lemma clampGrade_above (grade : number) :
  le (of_Z 5) grade = true -> clampGrade grade = of_Z 5.
Proof.
  intros H5. unfold clampGrade.
  destruct (Math_min_left (of_Z 5) grade H5) as [-> | (sx & sy & E & _)];
    [|vm_compute in E; discriminate].
  vm_compute. reflexivity.
Qed.

Lemma clampGrade_below (grade : number) :
  le grade (of_Z 0) = true -> clampGrade grade = of_Z 0.
Proof.
  intros H0.
  destruct grade as [s|[]| |[] m e];
    try (vm_compute in H0; discriminate); try (vm_compute; reflexivity);
    try apply clampGrade_zero.
Qed.

(** The review looks at the grade through its clamp only. *)
Lemma applySm2Review_clamped (now : Date) (card : Flashcard.t)
    (grade grade' : number) :
  clampGrade grade = clampGrade grade' ->
  applySm2Review now card grade = applySm2Review now card grade'.
Proof.
  intros Hc. unfold applySm2Review. unfold clampGrade in Hc.
  rewrite Hc. reflexivity.
Qed.

(** A review keeps what identifies the card, stamps it with the clamped
    grade and the time of the review, and makes it due as many days
    after the review as the interval it has just computed. *)
Lemma applySm2Review_bookkeeping
    (now : Date) (card : Flashcard.t) (grade : number) :
  let updated := applySm2Review now card grade in
  Flashcard.id updated = Flashcard.id card /\
  Flashcard.question updated = Flashcard.question card /\
  Flashcard.answer updated = Flashcard.answer card /\
  Flashcard.sourceLessonId updated = Flashcard.sourceLessonId card /\
  Flashcard.lastGrade updated = Some (clampGrade grade) /\
  Flashcard.lastReviewedAt updated = Some (Date_toISOString now) /\
  exists interval,
    Flashcard.interval updated = Some interval /\
    Flashcard.dueDate updated
    = Some (Date_toISOString (Date_addDays now interval)).
Proof.
  intros updated. subst updated. unfold applySm2Review.
  fold (clampGrade grade).
  destruct (lt (clampGrade grade) (of_Z 3));
    cbn [Flashcard.id Flashcard.question Flashcard.answer
         Flashcard.sourceLessonId Flashcard.lastGrade Flashcard.lastReviewedAt
         Flashcard.interval Flashcard.dueDate];
    repeat split; eexists; split; reflexivity.
Qed.

(** X9.  A grade outside [0, 5] counts as the nearer end of the range.  A
    grade that is not a number counts as a pass, and leaves the card
    with an ease factor that is not a number either. *)
Theorem applySm2Review_grade_edges (now : Date) (card : Flashcard.t) :
  (forall grade, le (of_Z 5) grade = true ->
     applySm2Review now card grade = applySm2Review now card (of_Z 5)) /\
  (forall grade, le grade (of_Z 0) = true ->
     applySm2Review now card grade = applySm2Review now card (of_Z 0)) /\
  Flashcard.lastGrade (applySm2Review now card NaN) = Some NaN /\
  Flashcard.repetitions (applySm2Review now card NaN)
    = Some (add (priorRepetitions card) (of_Z 1)) /\
  Flashcard.easeFactor (applySm2Review now card NaN) = Some NaN.
Proof.
  split; [|split; [|split; [|split]]].
  - intros grade H5. apply applySm2Review_clamped.
    rewrite (clampGrade_above grade H5). vm_compute. reflexivity.
  - intros grade H0. apply applySm2Review_clamped.
    rewrite (clampGrade_below grade H0). vm_compute. reflexivity.
  - unfold applySm2Review. fold (clampGrade NaN).
    destruct (lt (clampGrade NaN) (of_Z 3)); reflexivity.
  - assert (Hpass : lt (clampGrade NaN) (of_Z 3) = false)
      by (vm_compute; reflexivity).
    now destruct (applySm2Review_pass now card NaN Hpass) as (_ & Hr & _).
  - assert (Hpass : lt (clampGrade NaN) (of_Z 3) = false)
      by (vm_compute; reflexivity).
    destruct (applySm2Review_pass now card NaN Hpass) as (_ & _ & He).
    rewrite He. f_equal.
    assert (Hdelta : sub (decimal 1 1)
                       (mul (sub (of_Z 5) (clampGrade NaN))
                          (add (decimal 8 2)
                             (mul (sub (of_Z 5) (clampGrade NaN))
                                (decimal 2 2))))
                     = S754_nan) by (vm_compute; reflexivity).
    rewrite Hdelta.
    assert (Hsum : add (priorEaseFactor card) S754_nan = S754_nan)
      by (destruct (priorEaseFactor card); reflexivity).
    rewrite Hsum. vm_compute. reflexivity.
Qed.

(** X10.  The first intervals of the schedule.  Two passing reviews of a card
    that has no repetition yet give the intervals 1 and 6.  A failing
    review makes the next passing one the first again, whatever the
    card was before. *)
Theorem applySm2Review_first_intervals
    (now now' : Date) (card : Flashcard.t) (grade grade' : number) :
  lt (clampGrade grade') (of_Z 3) = false ->
  let first := applySm2Review now card grade in
  let second := applySm2Review now' first grade' in
  (priorRepetitions card = of_Z 0 ->
   lt (clampGrade grade) (of_Z 3) = false ->
     Flashcard.interval first = Some (of_Z 1) /\
     Flashcard.interval second = Some (of_Z 6) /\
     Flashcard.repetitions second = Some (of_Z 2)) /\
  (lt (clampGrade grade) (of_Z 3) = true ->
     Flashcard.interval second = Some (of_Z 1) /\
     Flashcard.repetitions second = Some (of_Z 1)).
Proof.
  intros Hpass' first second.
  destruct (applySm2Review_pass now' first grade' Hpass') as (Hi' & Hr' & _).
  fold second in Hi', Hr'. split.
  - intros Hzero Hpass.
    destruct (applySm2Review_pass now card grade Hpass) as (Hi & Hr & _).
    fold first in Hi, Hr. rewrite Hzero in Hi, Hr.
    assert (Hprior : priorRepetitions first = of_Z 1)
      by (unfold priorRepetitions; rewrite Hr; vm_compute; reflexivity).
    rewrite Hprior in Hi', Hr'.
    split; [rewrite Hi; vm_compute; reflexivity|].
    split; [rewrite Hi'|rewrite Hr']; vm_compute; reflexivity.
  - intros Hfail.
    destruct (applySm2Review_fail now card grade Hfail) as (Hr & _ & _).
    fold first in Hr.
    assert (Hprior : priorRepetitions first = of_Z 0)
      by (unfold priorRepetitions; rewrite Hr; vm_compute; reflexivity).
    rewrite Hprior in Hi', Hr'.
    split; [rewrite Hi'|rewrite Hr']; vm_compute; reflexivity.
Qed.

End Sm2Edges.

(** ** More on the connectors *)

Section ConnectorEdges.

Context {World : Type} `{HostBackends World}.

Lemma or_else_filled (a : option string) (d : string) :
  d <> "" -> JsString.or_else a d <> "".
Proof. intros Hd. destruct a as [[|c s]|]; simpl; congruence. Qed.

Lemma or_else_given (s d : string) : s <> "" -> JsString.or_else (Some s) d = s.
Proof. destruct s; simpl; congruence. Qed.

Lemma generateFallbackTitle_filled (settings : Settings.t) :
  generateFallbackTitle settings <> "".
Proof.
  unfold generateFallbackTitle.
  destruct (String.eqb (Settings.mode settings) "curated"); discriminate.
Qed.

Lemma canonicalise_filled (parsed : Payload.t) (context : Context.t) :
  let result := canonicalise parsed context in
  LessonResult.title result <> "" /\
  LessonResult.summary result <> [] /\
  LessonResult.lesson result <> "" /\
  LessonResult.flashcards result <> [] /\
  LessonResult.exercise result <> "".
Proof.
  intros result. subst result. unfold canonicalise.
  cbn [LessonResult.title LessonResult.summary LessonResult.lesson
       LessonResult.flashcards LessonResult.exercise].
  split; [apply or_else_filled, generateFallbackTitle_filled|].
  split; [destruct (summaryBullets (Payload.summary parsed)); discriminate|].
  split; [apply or_else_filled; discriminate|].
  split; [destruct (default [] (Payload.flashcards parsed)); discriminate|].
  apply or_else_filled; discriminate.
Qed.

(** X11.  Gemini's normalisation fills every gap: whatever the model's text,
    it fails only on a text that is the JSON [null], and a result it
    returns has a title, a summary bullet, a lesson body, a flashcard
    and an exercise. *)
Theorem normaliseModelOutput_backfills (rawText : string) (context : Context.t) :
  match normaliseModelOutput rawText context with
  | Returned result =>
      LessonResult.title result <> "" /\
      LessonResult.summary result <> [] /\
      LessonResult.lesson result <> "" /\
      LessonResult.flashcards result <> [] /\
      LessonResult.exercise result <> ""
  | Threw error =>
      JSON_parse (stripCodeFence rawText) = Returned ParsedNull /\
      error = nullPropertyError "summary"
  end.
Proof.
  unfold normaliseModelOutput.
  destruct (JSON_parse (stripCodeFence rawText)) as [[|parsed]|error].
  - split; reflexivity.
  - apply canonicalise_filled.
  - apply canonicalise_filled.
Qed.

(** X12.  On a reply that is a JSON object with every field in place, the
    two normalisations agree: the lesson is the reply's, whichever
    backend sent it. *)
Theorem normalisations_agree_on_complete_reply
    (text : string) (context : Context.t) (parsed : Payload.t)
    (title lesson exercise : string) (summary : list string)
    (flashcards : list ResultCard.entry) (sources : list SourceEntry) :
  JSON_parse (stripCodeFence text) = Returned (ParsedObject parsed) ->
  Payload.title parsed = Some title -> title <> "" ->
  Payload.summary parsed = Payload.SummaryArray summary -> summary <> [] ->
  Payload.lesson parsed = Some lesson -> lesson <> "" ->
  Payload.flashcards parsed = Some flashcards -> flashcards <> [] ->
  Payload.exercise parsed = Some exercise -> exercise <> "" ->
  Payload.sources parsed = Some sources ->
  (sources <> [] \/ Settings.mode (Context.settings context) <> "curated"
   \/ Context.curatedChunks context = []) ->
  normaliseModelOutput text context
  = Returned {| LessonResult.title := title;
                LessonResult.summary := summary;
                LessonResult.lesson := lesson;
                LessonResult.flashcards := flashcards;
                LessonResult.sources := sources;
                LessonResult.exercise := exercise |} /\
  normaliseOutput text context = normaliseModelOutput text context.
Proof.
  intros Hparse Ht Ht' Hs Hs' Hl Hl' Hf Hf' He He' Hsrc Hcur.
  assert (Hmodel : normaliseModelOutput text context
                   = Returned {| LessonResult.title := title;
                                 LessonResult.summary := summary;
                                 LessonResult.lesson := lesson;
                                 LessonResult.flashcards := flashcards;
                                 LessonResult.sources := sources;
                                 LessonResult.exercise := exercise |}).
  { unfold normaliseModelOutput. rewrite Hparse. unfold canonicalise.
    rewrite Ht, Hs, Hl, Hf, He, Hsrc. cbn [default summaryBullets].
    unfold id. rewrite !or_else_given by assumption.
    f_equal. f_equal.
    - destruct summary; [congruence|reflexivity].
    - destruct flashcards; [congruence|reflexivity].
    - destruct (String.eqb (Settings.mode (Context.settings context)) "curated")
        eqn:Hmode; [|reflexivity].
      destruct (Nat.eqb (length (Context.curatedChunks context)) 0) eqn:Hlen;
        [reflexivity|]. cbn [andb negb].
      destruct Hcur as [Hne|[Hne|Hnil]].
      + destruct sources; [congruence|reflexivity].
      + apply String.eqb_eq in Hmode. congruence.
      + rewrite Hnil in Hlen. discriminate. }
  split; [exact Hmodel|]. rewrite Hmodel.
  unfold normaliseOutput. rewrite Hparse.
  rewrite Ht, Hs, Hl, Hf, He, Hsrc. cbn [default summaryBullets].
  unfold id. now rewrite !or_else_given by assumption.
Qed.

End ConnectorEdges.

Section FenceFacts.

Lemma append_length (x y : string) :
  String.length (x +:+ y) = (String.length x + String.length y)%nat.
Proof.
  induction x as [|c x IH]; [reflexivity|].
  rewrite append_cons. simpl. now rewrite IH.
Qed.

Lemma substring_append_l (x y : string) :
  substring 0 (String.length x) (x +:+ y) = x.
Proof.
  induction x as [|c x IH]; [now destruct y|].
  rewrite append_cons. simpl. now rewrite IH.
Qed.

Lemma substring_append_r (x y : string) :
  substring (String.length x) (String.length y) (x +:+ y) = y.
Proof.
  induction x as [|c x IH]; [apply substring_all; simpl; lia|].
  rewrite append_cons. simpl. exact IH.
Qed.

Lemma stripSuffix_append (p x : string) :
  JsString.stripSuffix p (x +:+ p) = Some x.
Proof.
  unfold JsString.stripSuffix. rewrite append_length.
  replace (String.length x + String.length p - String.length p)%nat
    with (String.length x) by lia.
  rewrite substring_append_r, substring_append_l, String.eqb_refl.
  now rewrite (proj2 (Nat.leb_le _ _)) by lia.
Qed.

(** Text that ends in a character [trimEnd] keeps loses nothing. *)
Lemma trimEnd_append (x y : string) :
  y <> "" -> JsString.trimEnd y = y -> JsString.trimEnd (x +:+ y) = x +:+ y.
Proof.
  intros Hy Hkeep. induction x as [|c x IH]; [exact Hkeep|].
  rewrite append_cons. simpl. rewrite IH.
  destruct (x +:+ y) eqn:Hxy; [|reflexivity].
  destruct x; [|discriminate]. now destruct Hy.
Qed.

(** X13.  A reply fenced as a [json] code block is unwrapped: what stands
    between the opening fence, with the line break that may follow it,
    and the closing fence is what is parsed. *)
Theorem stripCodeFence_unwraps (body : string) :
  stripCodeFence ("```json" +:+ body +:+ "```")
  = match body with
    | String c rest => if Ascii.eqb c JsString.newline then rest else body
    | EmptyString => ""
    end.
Proof.
  unfold stripCodeFence.
  assert (Htrim : JsString.trim ("```json" +:+ body +:+ "```")
                  = "```json" +:+ body +:+ "```").
  { unfold JsString.trim.
    change (JsString.trimStart ("```json" +:+ body +:+ "```"))
      with ("```json" +:+ body +:+ "```").
    apply trimEnd_append.
    - destruct body; discriminate.
    - apply trimEnd_append; [discriminate|reflexivity]. }
  rewrite Htrim.
  change (JsString.stripPrefix false "```json" ("```json" +:+ body +:+ "```"))
    with (Some (body +:+ "```")).
  destruct body as [|c rest]; [reflexivity|].
  rewrite append_cons.
  destruct (Ascii.eqb c JsString.newline).
  - now rewrite stripSuffix_append.
  - rewrite <- append_cons. now rewrite stripSuffix_append.
Qed.

End FenceFacts.

(** ** More on the orchestrator *)

Section OrchestratorRecords.

Context {World : Type} `{HostBackends World} `{HostDate}.

Lemma attempt_None_unknown (backend : string) (context : Context.t) (w : World) :
  attempt backend context w = None -> knownBackend backend = false.
Proof.
  intros Hnone. destruct (knownBackend backend) eqn:Hknown; [|reflexivity].
  now destruct (attempt_known backend context w Hknown).
Qed.

Lemma attempt_Some_known (backend : string) (context : Context.t) (w : World)
    (outcome : Outcome LessonResult.t * World) :
  attempt backend context w = Some outcome -> knownBackend backend = true.
Proof.
  intros Hsome. destruct (knownBackend backend) eqn:Hknown; [reflexivity|].
  rewrite (attempt_unknown backend context w Hknown) in Hsome. discriminate.
Qed.

(** X14.  Whatever the backends do, the loop adds to the error list one
    record per backend it has seen fail, in the order of the
    preferences, and none for an identifier it does not know.  When it
    ends without a result, every known backend of the order has its
    record; when it ends with one, the records are those of the
    backends before the successful one. *)
Theorem executeWithFallback_loop_records
    (context : Context.t) (order : list string)
    (errors0 : list ErrorRecord.t) (w : World) :
  let run := executeWithFallback_loop order context errors0 w in
  let known := filter (fun backend => knownBackend backend = true) order in
  exists failed,
    run.1.2 = errors0 ++ failed /\
    match run.1.1 with
    | None => ErrorRecord.backend <$> failed = known
    | Some _ =>
        ErrorRecord.backend <$> failed `prefix_of` known /\
        (length failed < length known)%nat
    end.
Proof.
  revert errors0 w. induction order as [|backend rest IH]; intros errors0 w.
  - exists []. split; [now rewrite app_nil_r|reflexivity].
  - cbn [executeWithFallback_loop]. rewrite filter_cons.
    destruct (attempt backend context w) as [[[result|error] w']|] eqn:Hattempt.
    + apply attempt_Some_known in Hattempt.
      rewrite decide_True by exact Hattempt.
      exists []. split; [now rewrite app_nil_r|].
      split; [apply prefix_nil|simpl; lia].
    + apply attempt_Some_known in Hattempt.
      rewrite decide_True by exact Hattempt.
      destruct (IH (errors0 ++ [ {| ErrorRecord.backend := backend;
                                    ErrorRecord.error := Error.text error |} ])
                  w') as (failed & Herrors & Hresult).
      exists ({| ErrorRecord.backend := backend;
                 ErrorRecord.error := Error.text error |} :: failed).
      split; [now rewrite Herrors, <- app_assoc|].
      destruct (executeWithFallback_loop rest context _ w').1.1.
      * destruct Hresult as [Hprefix Hlen].
        split; [now apply prefix_cons|simpl; lia].
      * rewrite fmap_cons. now rewrite Hresult.
    + apply attempt_None_unknown in Hattempt.
      rewrite decide_False by congruence.
      apply IH.
Qed.

(** X15.  A browser in which nothing is set up: no key is stored, the local
    server does not answer and there is no on-device model.  The
    default order is gone through with one request, the one to the
    local server, and the lesson is the offline one, built from the
    three failures. *)
Theorem unconfigured_browser_goes_offline
    (context : Context.t) (now : Date) (w : World)
    (key : option string) (w1 : World) (error : Error.t) (w2 : World) :
  storageSync_geminiApiKey w = (Returned key, w1) ->
  JsString.or_opt key None = None ->
  ollama_generate
    (JsString.or_else (Settings.ollamaModel (Context.settings context))
       OLLAMA_MODEL) context w1
  = (Threw error, w2) ->
  ai_languageModel w2 = None ->
  executeWithFallback None context now w
  = (buildOfflineFallbackLesson context
       [ {| ErrorRecord.backend := "gemini";
            ErrorRecord.error := "Missing Gemini API key" |};
         {| ErrorRecord.backend := "ollama";
            ErrorRecord.error := Error.text error |};
         {| ErrorRecord.backend := "promptApi";
            ErrorRecord.error := "Chrome Prompt API unavailable" |} ] now,
     w2).
Proof.
  intros Hkey Hnone Hollama Hmodel.
  assert (Hgemini : attempt "gemini" context w
                    = Some (Threw (Error.new "Missing Gemini API key"), w1)).
  { unfold attempt, getGeminiApiKey.
    change (String.eqb "gemini" "gemini") with true. cbv iota.
    now rewrite Hkey, Hnone. }
  assert (Hlocal : attempt "ollama" context w1 = Some (Threw error, w2)).
  { unfold attempt, generateLessonWithOllama.
    change (String.eqb "ollama" "gemini") with false.
    change (String.eqb "ollama" "ollama") with true. cbv iota.
    now rewrite Hollama. }
  assert (Hdevice : attempt "promptApi" context w2
                    = Some (Threw (Error.new "Chrome Prompt API unavailable"),
                            w2)).
  { unfold attempt, isPromptApiAvailable.
    change (String.eqb "promptApi" "gemini") with false.
    change (String.eqb "promptApi" "ollama") with false.
    change (String.eqb "promptApi" "promptApi") with true. cbv iota.
    now rewrite Hmodel. }
  unfold executeWithFallback, preferenceOrderOf, DEFAULT_backendPreference.
  cbn [executeWithFallback_loop].
  rewrite Hgemini. cbn [executeWithFallback_loop app]. rewrite Hlocal.
  cbn [executeWithFallback_loop app]. rewrite Hdevice. reflexivity.
Qed.

End OrchestratorRecords.

(** ** More on the content chunker *)

Section SanitiseFacts.

Lemma collapseFrom_tidy (s : string) :
  forall inRun, tidyFrom inRun (JsString.collapseFrom inRun s) = true.
Proof.
  induction s as [|c s IH]; intros inRun; [reflexivity|].
  cbn [JsString.collapseFrom].
  destruct (JsString.isWhitespace c) eqn:Hc.
  - destruct inRun; [apply IH|].
    cbn [tidyFrom].
    change (JsString.isWhitespace JsString.space) with true.
    cbv beta iota. rewrite IH. reflexivity.
  - cbn [tidyFrom]. rewrite Hc. apply IH.
Qed.

Lemma tidy_collapseFrom (s : string) :
  forall inRun, tidyFrom inRun s = true -> JsString.collapseFrom inRun s = s.
Proof.
  induction s as [|c s IH]; intros inRun Htidy; [reflexivity|].
  cbn [tidyFrom] in Htidy. cbn [JsString.collapseFrom].
  destruct (JsString.isWhitespace c).
  - apply andb_true_iff in Htidy as [Hhead Htail].
    apply andb_true_iff in Hhead as [Hspace Hrun].
    apply Ascii.eqb_eq in Hspace. subst c.
    destruct inRun; [discriminate|]. now rewrite IH.
  - now rewrite IH.
Qed.

Lemma tidy_replaceChar (s : string) :
  forall inRun,
    tidyFrom inRun s = true ->
    JsString.replaceChar JsString.nbsp JsString.space s = s.
Proof.
  induction s as [|c s IH]; intros inRun Htidy; [reflexivity|].
  cbn [tidyFrom] in Htidy. cbn [JsString.replaceChar].
  destruct (JsString.isWhitespace c) eqn:Hc.
  - apply andb_true_iff in Htidy as [Hhead Htail].
    apply andb_true_iff in Hhead as [Hspace _].
    apply Ascii.eqb_eq in Hspace. subst c.
    change (Ascii.eqb JsString.space JsString.nbsp) with false.
    cbv beta iota. now rewrite (IH true).
  - destruct (Ascii.eqb c JsString.nbsp) eqn:Hn.
    + apply Ascii.eqb_eq in Hn. subst c. discriminate.
    + now rewrite (IH false).
Qed.

Lemma tidy_trimStart (s : string) :
  forall inRun inRun',
    tidyFrom inRun s = true -> tidyFrom inRun' (JsString.trimStart s) = true.
Proof.
  induction s as [|c s IH]; intros inRun inRun' Htidy; [reflexivity|].
  cbn [tidyFrom] in Htidy. cbn [JsString.trimStart].
  destruct (JsString.isWhitespace c) eqn:Hc.
  - apply andb_true_iff in Htidy as [_ Htail]. now apply (IH true).
  - cbn [tidyFrom]. now rewrite Hc.
Qed.

Lemma tidy_trimEnd (s : string) :
  forall inRun,
    tidyFrom inRun s = true -> tidyFrom inRun (JsString.trimEnd s) = true.
Proof.
  induction s as [|c s IH]; intros inRun Htidy; [reflexivity|].
  cbn [tidyFrom] in Htidy. cbn [JsString.trimEnd].
  destruct (JsString.isWhitespace c) eqn:Hc.
  - apply andb_true_iff in Htidy as [Hhead Htail].
    pose proof (IH true Htail) as Hrest.
    destruct (JsString.trimEnd s); [reflexivity|].
    cbn [tidyFrom]. rewrite Hc, Hhead. exact Hrest.
  - pose proof (IH false Htidy) as Hrest.
    destruct (JsString.trimEnd s); cbn [tidyFrom]; now rewrite Hc.
Qed.

Lemma trimEnd_idem (s : string) :
  JsString.trimEnd (JsString.trimEnd s) = JsString.trimEnd s.
Proof.
  induction s as [|c s IH]; [reflexivity|].
  cbn [JsString.trimEnd].
  destruct (JsString.trimEnd s) as [|d t] eqn:Ht.
  - destruct (JsString.isWhitespace c) eqn:Hc; [reflexivity|].
    cbn [JsString.trimEnd]. now rewrite Hc.
  - cbn [JsString.trimEnd]. cbn [JsString.trimEnd] in IH.
    now rewrite IH.
Qed.

(** [trimEnd] leaves the first character of a text that does not start
    with whitespace where it is. *)
Lemma trimStart_trimEnd (s : string) :
  JsString.trimStart s = s ->
  JsString.trimStart (JsString.trimEnd s) = JsString.trimEnd s.
Proof.
  destruct s as [|c s]; [reflexivity|].
  cbn [JsString.trimStart JsString.trimEnd].
  destruct (JsString.isWhitespace c) eqn:Hc.
  - intros Hstart. exfalso.
    assert (Hlen : (String.length (JsString.trimStart s) <= String.length s)%nat).
    { clear. induction s as [|d s IH]; [reflexivity|].
      cbn [JsString.trimStart]. destruct (JsString.isWhitespace d); simpl; lia. }
    rewrite Hstart in Hlen. simpl in Hlen. lia.
  - intros _. destruct (JsString.trimEnd s);
      cbn [JsString.trimStart]; now rewrite Hc.
Qed.

Lemma trimStart_idem (s : string) :
  JsString.trimStart (JsString.trimStart s) = JsString.trimStart s.
Proof.
  induction s as [|c s IH]; [reflexivity|].
  cbn [JsString.trimStart].
  destruct (JsString.isWhitespace c) eqn:Hc; [exact IH|].
  cbn [JsString.trimStart]. now rewrite Hc.
Qed.

Lemma trim_idem (s : string) : JsString.trim (JsString.trim s) = JsString.trim s.
Proof.
  unfold JsString.trim.
  rewrite (trimStart_trimEnd (JsString.trimStart s)) by apply trimStart_idem.
  apply trimEnd_idem.
Qed.

(** X16.  Cleaning a text is a normal form: what it returns has no
    whitespace but single spaces between words, and cleaning it again
    changes nothing.  The second of the three steps never finds a
    character to replace. *)
Theorem sanitiseText_normal_form (text : string) :
  tidyFrom false (sanitiseText text) = true /\
  JsString.trimStart (sanitiseText text) = sanitiseText text /\
  JsString.trimEnd (sanitiseText text) = sanitiseText text /\
  sanitiseText (sanitiseText text) = sanitiseText text /\
  sanitiseText text = JsString.trim (JsString.collapseWhitespace text).
Proof.
  assert (Hredundant : sanitiseText text
                       = JsString.trim (JsString.collapseWhitespace text)).
  { unfold sanitiseText, JsString.collapseWhitespace.
    now rewrite (tidy_replaceChar _ false) by apply collapseFrom_tidy. }
  assert (Htidy : tidyFrom false (sanitiseText text) = true).
  { rewrite Hredundant. unfold JsString.trim, JsString.collapseWhitespace.
    apply tidy_trimEnd, (tidy_trimStart _ false), collapseFrom_tidy. }
  split; [exact Htidy|].
  split.
  { rewrite Hredundant. unfold JsString.trim.
    apply trimStart_trimEnd, trimStart_idem. }
  split.
  { rewrite Hredundant. unfold JsString.trim. apply trimEnd_idem. }
  split; [|exact Hredundant].
  unfold sanitiseText at 1. unfold JsString.collapseWhitespace.
  rewrite (tidy_collapseFrom _ false Htidy).
  rewrite (tidy_replaceChar _ false Htidy).
  rewrite Hredundant. apply trim_idem.
Qed.

End SanitiseFacts.

Section HtmlFacts.

Lemma toLower_lt (c : ascii) :
  Ascii.eqb (JsString.toLower "<") (JsString.toLower c) = true -> c = "<"%char.
Proof.
  destruct c as [[] [] [] [] [] [] [] []]; vm_compute; congruence.
Qed.

Lemma removeBlocks_loop_plain (rest closing : string) (s : string) :
  Forall (fun c => c <> "<"%char) (list_ascii_of_string s) ->
  forall fuel,
    removeBlocks_loop fuel (String "<" rest) closing s = s.
Proof.
  induction s as [|c s IH]; intros Hplain fuel; [now destruct fuel|].
  cbn [list_ascii_of_string] in Hplain.
  apply Forall_cons in Hplain as [Hc Hplain].
  destruct fuel as [|fuel]; [reflexivity|].
  cbn [removeBlocks_loop JsString.stripPrefix].
  destruct (Ascii.eqb (JsString.toLower "<") (JsString.toLower c)) eqn:Hlt;
    [now apply toLower_lt in Hlt|].
  cbn [mbind option_bind]. now rewrite IH.
Qed.

Lemma replaceTags_loop_plain (s : string) :
  Forall (fun c => c <> "<"%char) (list_ascii_of_string s) ->
  forall fuel, replaceTags_loop fuel s = s.
Proof.
  induction s as [|c s IH]; intros Hplain fuel; [now destruct fuel|].
  cbn [list_ascii_of_string] in Hplain.
  apply Forall_cons in Hplain as [Hc Hplain].
  destruct fuel as [|fuel]; [reflexivity|].
  cbn [replaceTags_loop].
  rewrite (proj2 (Ascii.eqb_neq c "<")) by exact Hc.
  now rewrite IH.
Qed.

(** X17.  A page without a [<] holds no markup: it comes out of [stripHtml]
    as it went in. *)
Theorem stripHtml_plain_text (html : string) :
  Forall (fun c => c <> "<"%char) (list_ascii_of_string html) ->
  stripHtml html = html.
Proof.
  intros Hplain. unfold stripHtml, removeBlocks.
  rewrite (removeBlocks_loop_plain "script" "</script>" html Hplain).
  rewrite (removeBlocks_loop_plain "style" "</style>" html Hplain).
  now apply replaceTags_loop_plain.
Qed.

End HtmlFacts.

Section PassFacts.

Context {World : Type} `{HostWeb World}.

Lemma or_else_default_filled (a : option string) (d : string) :
  d <> "" -> JsString.or_else a d <> "".
Proof. intros Hd. destruct a as [[|c s]|]; simpl; congruence. Qed.

Lemma or_opt_filled (a : option string) : JsString.or_opt a None <> Some "".
Proof. destruct a as [[|c s]|]; simpl; congruence. Qed.

Lemma chunksInOrder_elem (sources : list Source.t) :
  forall (w : World) (chunk : Chunk.t),
    chunk ∈ (chunksInOrder sources w).1 ->
    exists source text,
      source ∈ sources /\
      chunk ∈ chunkSet source (windows (sanitiseText text) DEFAULT_CHUNK_SIZE).
Proof.
  induction sources as [|source rest IH]; intros w chunk Hin.
  - now apply elem_of_nil in Hin.
  - cbn [chunksInOrder] in Hin.
    destruct (resolveSourceText source w) as [text w1].
    destruct (chunksInOrder rest w1) as [tail w2] eqn:Hrest.
    cbn [fst] in Hin. apply elem_of_app in Hin as [Hhere|Hlater].
    + exists source, text. split; [left|].
      unfold sourceChunks in Hhere. destruct text; [|exact Hhere].
      now apply elem_of_nil in Hhere.
    + destruct (IH w1 chunk) as (source' & text' & Hsrc & Hchunk).
      { now rewrite Hrest. }
      exists source', text'. split; [now right|exact Hchunk].
Qed.

(** X18.  Every chunk of a pass is attributed and of bounded size: it names
    a source title and a reference, never an empty URL, and holds
    between 1 and 900 characters of some source of the pass, of which
    it bears the URL. *)
Theorem chunkSources_attributed (sources : list Source.t) (w : World) :
  exists chunks,
    (chunkSources sources w).1 = Some chunks /\
    Forall (fun chunk =>
              Chunk.sourceTitle chunk <> "" /\
              Chunk.reference chunk <> "" /\
              Chunk.url chunk <> Some "" /\
              (1 <= String.length (Chunk.text chunk) <= 900)%nat /\
              exists source,
                source ∈ sources /\
                Chunk.url chunk = JsString.or_opt (Source.url source) None)
      chunks.
Proof.
  exists (chunksInOrder sources w).1.
  split; [now rewrite chunkSources_in_order|].
  apply Forall_forall. intros chunk Hin.
  apply chunksInOrder_elem in Hin as (source & text & Hsrc & Hchunk).
  unfold chunkSet in Hchunk.
  apply elem_of_lookup_imap in Hchunk as (i & part & -> & Hpart).
  cbn [Chunk.sourceTitle Chunk.reference Chunk.url Chunk.text].
  split; [repeat apply or_else_default_filled; discriminate|].
  split; [repeat apply or_else_default_filled; discriminate|].
  split; [apply or_opt_filled|].
  split.
  - apply windows_lookup in Hpart; [|unfold DEFAULT_CHUNK_SIZE; lia].
    destruct Hpart as (_ & Hlen & _). exact Hlen.
  - exists source. split; [exact Hsrc|reflexivity].
Qed.

(** X19.  The chunks of one source bear distinct identifiers. *)
Theorem chunkSet_ids_distinct (source : Source.t) (parts : list string) :
  NoDup (Chunk.id <$> chunkSet source parts).
Proof.
  unfold chunkSet. rewrite fmap_imap.
  set (base := JsString.or_else (Source.id source)
                 (JsString.or_else (Source.url source)
                    (JsString.or_else (Source.label source) "source"))).
  rewrite (imap_ext _ (fun index _ => base +:+ "-" +:+ pretty index))
    by reflexivity.
  rewrite imap_seq_0. apply NoDup_fmap_2_strong; [|apply NoDup_seq].
  intros i j _ _ Heq.
  apply (inj (String.app base)) in Heq.
  apply (inj (String.app "-")) in Heq.
  now apply (inj pretty) in Heq.
Qed.

(** X20.  A page that cannot be fetched, or that answers with an error
    status, costs the pass nothing but the request: the source adds no
    chunk and the pass goes on with the next one. *)
Theorem unreachable_page_is_skipped
    (source : Source.t) (rest : list Source.t) (url : string) (w : World) :
  Source.type source = Some "url" ->
  Source.url source = Some url ->
  url <> "" ->
  (forall status html, (fetch url w).1 <> Returned (true, status, html)) ->
  resolveSourceText source w = ("", (fetch url w).2) /\
  chunkSources (source :: rest) w = chunkSources rest (fetch url w).2.
Proof.
  intros Htype Hurl Hne Hfail.
  assert (Hresolve : resolveSourceText source w = ("", (fetch url w).2)).
  { unfold resolveSourceText. rewrite Htype, Hurl.
    assert (Hopt : JsString.or_opt (Some url) None = Some url)
      by (destruct url; [congruence|reflexivity]).
    cbv beta iota. rewrite Hopt.
    destruct (fetch url w) as [[[[[] status] html]|error] w'] eqn:Hfetch;
      try reflexivity.
    now destruct (Hfail status html). }
  split; [exact Hresolve|].
  cbn [chunkSources]. now rewrite Hresolve.
Qed.

End PassFacts.
(** ** What a review returns *)

Section Sm2Call.

Context `{HostDate}.

(** Within [0, 5] the clamp of a grade is below 3 when the grade is. *)
Lemma clampGrade_lt_3 (grade : number) :
  le (of_Z 0) grade = true -> le grade (of_Z 5) = true ->
  lt (clampGrade grade) (of_Z 3) = lt grade (of_Z 3).
Proof.
  intros H0 H5.
  destruct (clampGrade_in_range grade H0 H5) as [-> | [s ->]]; [reflexivity|].
  rewrite clampGrade_zero. destruct s; vm_compute; reflexivity.
Qed.

(** X21.  A review with a grade in [0, 5] computes an interval: 1 for a
    grade below 3 and for a card with no repetition, 6 for a card with
    one repetition, and round(prior interval x prior ease factor)
    otherwise.  When the day that many days after the review is a date,
    the call returns a card with that interval, which is due on that
    day, and with the repetitions and the ease factor of SM-2: the
    repetitions are 0 and the ease factor the prior one for a grade
    below 3, and else one more repetition and
    max(1.3, ease + (0.1 - (5 - grade) x (0.08 + (5 - grade) x 0.02))).
    When that day is not a date, the call throws and returns no
    card. *)
Theorem applySm2Review_call_sm2
    (now : Date) (card : Flashcard.t) (grade : number) :
  le (of_Z 0) grade = true -> le grade (of_Z 5) = true ->
  let interval :=
    if lt grade (of_Z 3) then of_Z 1
    else if strict_eq (priorRepetitions card) (of_Z 0) then of_Z 1
    else if strict_eq (priorRepetitions card) (of_Z 1) then of_Z 6
    else Math_round (mul (priorInterval card) (priorEaseFactor card)) in
  (Date_isValid (Date_addDays now interval) = false ->
     applySm2Review_call now card grade = Threw rangeError) /\
  (Date_isValid (Date_addDays now interval) = true ->
     exists updated,
       applySm2Review_call now card grade = Returned updated /\
       Flashcard.id updated = Flashcard.id card /\
       Flashcard.question updated = Flashcard.question card /\
       Flashcard.answer updated = Flashcard.answer card /\
       Flashcard.interval updated = Some interval /\
       Flashcard.repetitions updated
       = Some (if lt grade (of_Z 3) then of_Z 0
               else add (priorRepetitions card) (of_Z 1)) /\
       Flashcard.easeFactor updated
       = Some (if lt grade (of_Z 3) then priorEaseFactor card
               else Math_max (decimal 13 1)
                      (add (priorEaseFactor card)
                         (sub (decimal 1 1)
                            (mul (sub (of_Z 5) grade)
                               (add (decimal 8 2)
                                  (mul (sub (of_Z 5) grade)
                                     (decimal 2 2))))))) /\
       Flashcard.dueDate updated
       = Some (Date_toISOString (Date_addDays now interval)) /\
       Flashcard.lastGrade updated = Some (clampGrade grade) /\
       Flashcard.lastReviewedAt updated = Some (Date_toISOString now)).
Proof.
  intros H0 H5 interval.
  pose proof (clampGrade_lt_3 grade H0 H5) as Hlt.
  destruct (applySm2Review_call_outcome now card grade)
    as (built & Hbuilt & Hcall).
  destruct (applySm2Review_bookkeeping now card grade)
    as (Hid & Hq & Ha & _ & Hgrade & Hat & (built' & Hbuilt' & Hdue)).
  assert (built' = built) by congruence. subst built'.
  assert (Hfields :
    Flashcard.interval (applySm2Review now card grade) = Some interval /\
    Flashcard.repetitions (applySm2Review now card grade)
    = Some (if lt grade (of_Z 3) then of_Z 0
            else add (priorRepetitions card) (of_Z 1)) /\
    Flashcard.easeFactor (applySm2Review now card grade)
    = Some (if lt grade (of_Z 3) then priorEaseFactor card
            else Math_max (decimal 13 1)
                   (add (priorEaseFactor card)
                      (sub (decimal 1 1)
                         (mul (sub (of_Z 5) grade)
                            (add (decimal 8 2)
                               (mul (sub (of_Z 5) grade)
                                  (decimal 2 2)))))))).
  { subst interval. destruct (lt grade (of_Z 3)) eqn:Hbelow.
    - destruct (applySm2Review_fail now card grade Hlt) as (Hr & Hi & He).
      now rewrite Hr, Hi, He.
    - destruct (applySm2Review_pass now card grade Hlt) as (Hi & Hr & He).
      rewrite Hr, Hi, He.
      destruct (clampGrade_in_range grade H0 H5) as [-> | [s ->]]; [auto|].
      destruct s; vm_compute in Hbelow; discriminate. }
  destruct Hfields as (Hi & Hr & He).
  assert (built = interval) by congruence. subst built.
  split.
  - intros Hinvalid. now rewrite Hinvalid in Hcall.
  - intros Hvalid. rewrite Hvalid in Hcall.
    exists (applySm2Review now card grade).
    repeat (split; [assumption|]). assumption.
Qed.

End Sm2Call.

(** ** Runs of the pipeline, the store and the chunker *)

(** Curated mode over a note that holds one space: no context. *)
Lemma prepareGenerationContext_outcome_witness :
  Settings.mode (DemoRun.curated [Demo.blankNote]) = "curated" /\
  (chunksInOrder (H := Demo.web Demo.offline) [Demo.blankNote] []).1 = [] /\
  @prepareGenerationContext _ (Demo.web Demo.offline) Utc.host
    (DemoRun.curated [Demo.blankNote]) Demo.now DemoRun.twoCards []
  = Some (Threw (Error.new
                   "Curated mode requires at least one processed source."),
          []).
Proof.
  assert (Hmode : Settings.mode (DemoRun.curated [Demo.blankNote]) = "curated")
    by reflexivity.
  assert (Hnone : (chunksInOrder (H := Demo.web Demo.offline)
                     [Demo.blankNote] []).1 = [])
    by (vm_compute; reflexivity).
  split; [exact Hmode|]. split; [exact Hnone|].
  destruct (@prepareGenerationContext_outcome _ (Demo.web Demo.offline) Utc.host
              (DemoRun.curated [Demo.blankNote]) Demo.now DemoRun.twoCards [])
    as (_ & Hfail & _).
  exact (Hfail Hmode Hnone).
Defined.

(** A manual run in which Gemini answers with a lesson whose one
    flashcard is [null]: the backend has been called, nothing is
    stored, and the failure is notified. *)
Lemma runDailyLessonPipeline_outcome_witness :
  let answers := Demo.backends (Demo.geminiAnswers DemoRun.nullCardJson) in
  ~ (manual = scheduled /\
     Store.lastGeneratedAt Demo.install
     = Some (@todayKeyOf Utc.host (atStart DemoRun.clock))) /\
  ~ (Settings.mode DEFAULT_SETTINGS = "curated" /\
     (chunksInOrder (H := Demo.web Demo.offline) [] []).1 = []) /\
  LessonResult.flashcards
    (executeWithFallback (H := answers) (H0 := Utc.host)
       (Settings.backendPreference DEFAULT_SETTINGS)
       {| Context.settings := DEFAULT_SETTINGS;
          Context.recentLessons := [];
          Context.dueFlashcards := [];
          Context.curatedChunks := [] |} Demo.now []).1
  = [None] /\
  @runDailyLessonPipeline _ (Demo.web Demo.offline) answers Utc.host manual
    None DemoRun.clock Demo.install []
  = Some {| runStore := Demo.install;
            runNotification := Some NotifyError;
            runWorld := ["storage.sync.get"; "POST gemini"] |}.
Proof.
  intros answers.
  assert (Hfresh : ~ (manual = scheduled /\
                      Store.lastGeneratedAt Demo.install
                      = Some (@todayKeyOf Utc.host (atStart DemoRun.clock))))
    by (intros [Htrigger _]; discriminate Htrigger).
  assert (Hchunk : ~ (Settings.mode DEFAULT_SETTINGS = "curated" /\
                      (chunksInOrder (H := Demo.web Demo.offline) [] []).1 = []))
    by (intros [Hmode _]; discriminate Hmode).
  split; [exact Hfresh|]. split; [exact Hchunk|].
  split; [vm_compute; reflexivity|].
  destruct (@runDailyLessonPipeline_outcome _ (Demo.web Demo.offline) answers
              Utc.host manual None DemoRun.clock Demo.install [])
    as (_ & _ & Hrun).
  destruct (Hrun Hfresh Hchunk) as (context & w1 & Hcontext & _ & Hnull).
  vm_compute in Hcontext. injection Hcontext as <- <-.
  destruct Hnull as [_ Hgone]; [vm_compute; left|].
  etransitivity; [exact Hgone|]. vm_compute. reflexivity.
Defined.

(** A manual run with every backend out of reach stores the offline
    lesson and marks the day; the alarm of an hour later changes
    nothing. *)
Lemma generated_day_is_marked_witness :
  match @runDailyLessonPipeline _ (Demo.web Demo.offline)
          (Demo.backends Demo.offline) Utc.host manual None DemoRun.clock
          Demo.install [] with
  | Some run =>
      runNotification run <> Some NotifyError /\
      Store.lastGeneratedAt (runStore run) = Some "2024-03-02" /\
      @runDailyLessonPipeline _ (Demo.web Demo.offline)
        (Demo.backends Demo.offline) Utc.host scheduled None DemoRun.later
        (runStore run) []
      = Some {| runStore := runStore run;
                runNotification := None;
                runWorld := [] |}
  | None => False
  end.
Proof.
  destruct (@runDailyLessonPipeline _ (Demo.web Demo.offline)
              (Demo.backends Demo.offline) Utc.host manual None DemoRun.clock
              Demo.install []) as [run|] eqn:Hrun;
    [|vm_compute in Hrun; discriminate Hrun].
  assert (Hok : runNotification run <> Some NotifyError).
  { intros Hbad. vm_compute in Hrun. injection Hrun as <-.
    discriminate Hbad. }
  destruct (@generated_day_is_marked _ (Demo.web Demo.offline)
              (Demo.backends Demo.offline) Utc.host manual None DemoRun.clock
              Demo.install [] run Hrun Hok) as [Hmark Hlater].
  split; [exact Hok|]. split; [exact Hmark|].
  apply (Hlater None DemoRun.later []). vm_compute. reflexivity.
Defined.

(** Grading the second of two cards. *)
Lemma gradeFlashcard_effect_witness :
  let first := Demo.card "card-a" "Why space?" (of_Z 6) (decimal 25 1) (of_Z 2) in
  default [] (Store.flashcards DemoRun.twoCards) = [first] ++ [DemoRun.fresh] /\
  Flashcard.id DemoRun.fresh = "card-b" /\
  ("card-b" ∉ Flashcard.id <$> [first]) /\
  Date_isValid (HostDate := Utc.host)
    (Date_addDays (HostDate := Utc.host) Demo.now (of_Z 1)) = true /\
  exists store',
    gradeFlashcard_call (H := Utc.host) "card-b" (of_Z 4) Demo.now
      DemoRun.twoCards
    = Returned store' /\
    Store.flashcards store'
    = Some ([first]
            ++ [applySm2Review (H := Utc.host) Demo.now DemoRun.fresh (of_Z 4)]).
Proof.
  intros first.
  assert (Hcards : default [] (Store.flashcards DemoRun.twoCards)
                   = [first] ++ [DemoRun.fresh]) by reflexivity.
  assert (Hnot : "card-b" ∉ Flashcard.id <$> [first]).
  { intros Hin. apply list_elem_of_singleton in Hin. discriminate Hin. }
  assert (Hvalid : Date_isValid (HostDate := Utc.host)
                     (Date_addDays (HostDate := Utc.host) Demo.now (of_Z 1))
                   = true) by (vm_compute; reflexivity).
  split; [exact Hcards|]. split; [reflexivity|]. split; [exact Hnot|].
  split; [exact Hvalid|].
  destruct (gradeFlashcard_effect (H := Utc.host) "card-b" (of_Z 4) Demo.now
              DemoRun.twoCards) as [_ Hheld].
  destruct (Hheld [first] DemoRun.fresh [] Hcards eq_refl Hnot)
    as (interval & Hinterval & Hreturns & _).
  vm_compute in Hinterval. injection Hinterval as <-.
  destruct (Hreturns Hvalid) as [_ Hgraded].
  eexists. split; [exact Hgraded|reflexivity].
Defined.

(** An incoming card whose question is new is asked by the merged list. *)
Lemma mergeFlashcards_keeps_witness :
  let existing := default [] (Store.flashcards DemoRun.twoCards) in
  let incoming := [Demo.incomingCard "Why space?"; Demo.incomingCard "Why sleep?"] in
  Demo.incomingCard "Why sleep?" ∈ incoming /\
  "Why sleep?" ∈ Flashcard.question <$> mergeFlashcards existing incoming.
Proof.
  intros existing incoming.
  assert (Hin : Demo.incomingCard "Why sleep?" ∈ incoming)
    by (right; left).
  split; [exact Hin|].
  destruct (mergeFlashcards_keeps existing incoming) as (_ & _ & _ & _ & Hasked).
  exact (Hasked (Demo.incomingCard "Why sleep?") Hin).
Defined.

(** The lesson of the day after the stored one goes to the end. *)
Lemma updatedLessonsOf_later_day_witness :
  StronglySorted dateBefore [DemoRun.lessonOf "2024-03-01"] /\
  Forall (fun lesson => dateBefore lesson (DemoRun.lessonOf "2024-03-02"))
    [DemoRun.lessonOf "2024-03-01"] /\
  updatedLessonsOf [DemoRun.lessonOf "2024-03-01"] (DemoRun.lessonOf "2024-03-02")
  = takeLast 60 ([DemoRun.lessonOf "2024-03-01"] ++ [DemoRun.lessonOf "2024-03-02"]).
Proof.
  assert (Hsorted : StronglySorted dateBefore [DemoRun.lessonOf "2024-03-01"])
    by (repeat constructor).
  assert (Hlater : Forall (fun lesson =>
                             dateBefore lesson (DemoRun.lessonOf "2024-03-02"))
                     [DemoRun.lessonOf "2024-03-01"])
    by (constructor; [reflexivity|constructor]).
  split; [exact Hsorted|]. split; [exact Hlater|].
  exact (proj1 (updatedLessonsOf_later_day [DemoRun.lessonOf "2024-03-01"]
                  (DemoRun.lessonOf "2024-03-02") Hsorted Hlater)).
Defined.

(** The store after the first lesson. *)
Lemma stored_lessons_ascending_witness :
  StoreReachable (H := Utc.host) DemoRun.afterFirst /\
  StronglySorted dateBefore (default [] (Store.lessons DemoRun.afterFirst)).
Proof.
  assert (Hreach : StoreReachable (H := Utc.host) DemoRun.afterFirst).
  { eapply reachable_persist; [apply reachable_install|].
    instantiate (1 := Demo.now). instantiate (1 := Demo.settings).
    instantiate (1 := "2024-03-02"). instantiate (1 := Demo.lesson).
    vm_compute. reflexivity. }
  split; [exact Hreach|].
  exact (stored_lessons_ascending (H := Utc.host) DemoRun.afterFirst Hreach).
Defined.

(** A grade of 7 is a grade of 5. *)
Lemma applySm2Review_grade_edges_witness :
  le (of_Z 5) (of_Z 7) = true /\
  applySm2Review (H := Utc.host) Demo.now DemoRun.fresh (of_Z 7)
  = applySm2Review (H := Utc.host) Demo.now DemoRun.fresh (of_Z 5).
Proof.
  assert (Habove : le (of_Z 5) (of_Z 7) = true) by (vm_compute; reflexivity).
  split; [exact Habove|].
  exact (proj1 (applySm2Review_grade_edges (H := Utc.host) Demo.now DemoRun.fresh)
           (of_Z 7) Habove).
Defined.

(** A new card recalled with grade 4 and, a day later, with grade 5. *)
Lemma applySm2Review_first_intervals_witness :
  let first := applySm2Review (H := Utc.host) Demo.now DemoRun.fresh (of_Z 4) in
  let second :=
    applySm2Review (H := Utc.host) (Demo.now + 86400000)%Z first (of_Z 5) in
  lt (clampGrade (of_Z 5)) (of_Z 3) = false /\
  priorRepetitions DemoRun.fresh = of_Z 0 /\
  lt (clampGrade (of_Z 4)) (of_Z 3) = false /\
  Flashcard.interval first = Some (of_Z 1) /\
  Flashcard.interval second = Some (of_Z 6) /\
  Flashcard.repetitions second = Some (of_Z 2).
Proof.
  intros first second.
  assert (Hpass' : lt (clampGrade (of_Z 5)) (of_Z 3) = false)
    by (vm_compute; reflexivity).
  assert (Hzero : priorRepetitions DemoRun.fresh = of_Z 0)
    by (vm_compute; reflexivity).
  assert (Hpass : lt (clampGrade (of_Z 4)) (of_Z 3) = false)
    by (vm_compute; reflexivity).
  split; [exact Hpass'|]. split; [exact Hzero|]. split; [exact Hpass|].
  exact (proj1 (applySm2Review_first_intervals (H := Utc.host) Demo.now
                  (Demo.now + 86400000)%Z DemoRun.fresh (of_Z 4) (of_Z 5) Hpass')
           Hzero Hpass).
Defined.

(** The lesson both connectors make of [Demo.lessonJson]. *)
Lemma normalisations_agree_on_complete_reply_witness :
  Json.parse (stripCodeFence Demo.lessonJson)
  = Returned (ParsedObject DemoRun.lessonPayload) /\
  normaliseModelOutput (H := Demo.backends Demo.offline) Demo.lessonJson
    (Demo.context [])
  = Returned Demo.lesson /\
  normaliseOutput (H := Demo.backends Demo.offline) Demo.lessonJson
    (Demo.context [])
  = normaliseModelOutput (H := Demo.backends Demo.offline) Demo.lessonJson
      (Demo.context []).
Proof.
  assert (Hparse : Json.parse (stripCodeFence Demo.lessonJson)
                   = Returned (ParsedObject DemoRun.lessonPayload))
    by (vm_compute; reflexivity).
  split; [exact Hparse|].
  apply (normalisations_agree_on_complete_reply (H := Demo.backends Demo.offline)
           Demo.lessonJson (Demo.context []) DemoRun.lessonPayload
           "Spacing" "<p>Space it.</p>" "Plan a week." ["a"; "b"; "c"]
           (LessonResult.flashcards Demo.lesson) []);
    try exact Hparse; try reflexivity; try discriminate.
  right. left. discriminate.
Defined.

(** A page of plain text. *)
Lemma stripHtml_plain_text_witness :
  Forall (fun c => c <> "<"%char) (list_ascii_of_string "Space it.") /\
  stripHtml "Space it." = "Space it.".
Proof.
  assert (Hplain : Forall (fun c => c <> "<"%char)
                     (list_ascii_of_string "Space it."))
    by (repeat (constructor; [discriminate|]); constructor).
  split; [exact Hplain|].
  exact (stripHtml_plain_text "Space it." Hplain).
Defined.

(** A page the scripted browser cannot reach, before a pasted note. *)
Lemma unreachable_page_is_skipped_witness :
  Source.type DemoRun.page = Some "url" /\
  Source.url DemoRun.page = Some "https://example.org/spacing" /\
  (forall status html,
      (fetch (HostWeb := Demo.web Demo.offline) "https://example.org/spacing" []).1
      <> Returned (true, status, html)) /\
  chunkSources (H := Demo.web Demo.offline)
    [DemoRun.page; Demo.note "Space it."] []
  = chunkSources (H := Demo.web Demo.offline) [Demo.note "Space it."]
      ["GET https://example.org/spacing"].
Proof.
  assert (Hfail : forall status html,
             (fetch (HostWeb := Demo.web Demo.offline)
                "https://example.org/spacing" []).1
             <> Returned (true, status, html))
    by (intros status html Heq; discriminate Heq).
  split; [reflexivity|]. split; [reflexivity|]. split; [exact Hfail|].
  destruct (unreachable_page_is_skipped (H := Demo.web Demo.offline)
              DemoRun.page [Demo.note "Space it."]
              "https://example.org/spacing" [] eq_refl eq_refl)
    as [_ Hskip]; [discriminate|exact Hfail|].
  exact Hskip.
Defined.

(** The scripted browser with nothing set up. *)
Lemma unconfigured_browser_goes_offline_witness :
  storageSync_geminiApiKey (HostBackends := Demo.backends Demo.offline) []
  = (Returned None, ["storage.sync.get"]) /\
  JsString.or_opt None None = None /\
  ollama_generate (HostBackends := Demo.backends Demo.offline) "mistral"
    (Demo.context []) ["storage.sync.get"]
  = (Threw Demo.networkError, ["storage.sync.get"; "POST ollama"]) /\
  ai_languageModel (HostBackends := Demo.backends Demo.offline)
    ["storage.sync.get"; "POST ollama"] = None /\
  (executeWithFallback (H := Demo.backends Demo.offline) (H0 := Utc.host)
     None (Demo.context []) Demo.now []).2
  = ["storage.sync.get"; "POST ollama"].
Proof.
  split; [reflexivity|]. split; [reflexivity|]. split; [reflexivity|].
  split; [reflexivity|].
  rewrite (unconfigured_browser_goes_offline (H := Demo.backends Demo.offline)
             (H0 := Utc.host) (Demo.context []) Demo.now [] None
             ["storage.sync.get"] Demo.networkError
             ["storage.sync.get"; "POST ollama"] eq_refl eq_refl eq_refl eq_refl).
  reflexivity.
Defined.

(** A card with interval 3, ease factor 2.5 and two repetitions, graded
    4: the product 7.5 is rounded to 8 days, and the ease factor
    stays. *)
Lemma applySm2Review_call_sm2_witness :
  le (of_Z 0) (of_Z 4) = true /\ le (of_Z 4) (of_Z 5) = true /\
  mul (of_Z 3) (decimal 25 1) = decimal 75 1 /\
  Utc.isValid (Utc.addDays Demo.now (of_Z 8)) = true /\
  exists updated,
    applySm2Review_call (H := Utc.host) Demo.now
      (Demo.card "card-c" "Why space?" (of_Z 3) (decimal 25 1) (of_Z 2))
      (of_Z 4)
    = Returned updated /\
    Flashcard.interval updated = Some (of_Z 8) /\
    Flashcard.repetitions updated = Some (of_Z 3) /\
    Flashcard.easeFactor updated = Some (decimal 25 1) /\
    Flashcard.dueDate updated = Some "2024-03-10T09:00:00.000Z".
Proof.
  split; [reflexivity|]. split; [reflexivity|].
  split; [vm_compute; reflexivity|]. split; [vm_compute; reflexivity|].
  destruct (applySm2Review_call_sm2 (H := Utc.host) Demo.now
              (Demo.card "card-c" "Why space?" (of_Z 3) (decimal 25 1) (of_Z 2))
              (of_Z 4) eq_refl eq_refl)
    as [_ Hreturns].
  destruct (Hreturns ltac:(vm_compute; reflexivity))
    as (updated & Hcall & _ & _ & _ & Hi & Hr & He & Hdue & _).
  exists updated. split; [exact Hcall|].
  split; [rewrite Hi; vm_compute; reflexivity|].
  split; [rewrite Hr; vm_compute; reflexivity|].
  split; [rewrite He; vm_compute; reflexivity|].
  rewrite Hdue. vm_compute. reflexivity.
Defined.
